(** * Test-extraction pipeline (lessons 1, 3 and 6): model and properties

    A shallow embedding of the Python scripts [lesson_1.py], [lesson_3.py]
    and [lesson_6.py].  Python strings are lists of characters; the model
    agrees with Python on 7-bit ASCII text (outside that range Python's
    [\w], [\s] and case folding follow the Unicode tables, which are not
    modelled: such characters are neither word characters nor blanks here,
    and they only fold to themselves). *)

From Stdlib Require Import String Ascii NArith ZArith Bool Arith Lia.
From Stdlib Require Import DecimalString DecimalPos List Sorted.
Import ListNotations.
Open Scope list_scope.

Set Implicit Arguments.

(** ** Python strings *)

Module PyStr.

Abbreviation str := (list ascii) (only parsing).

(** A string literal of the source. *)
Definition L (s : string) : str := list_ascii_of_string s.

Definition code (c : ascii) : N := N_of_ascii c.

Definition in_range (lo hi : N) (c : ascii) : bool :=
  ((lo <=? code c) && (code c <=? hi))%N.

Definition is_upper (c : ascii) : bool := in_range 65 90 c.
Definition is_lower (c : ascii) : bool := in_range 97 122 c.
Definition is_digit (c : ascii) : bool := in_range 48 57 c.

(** [\w] on ASCII text: letters, digits and the underscore. *)
Definition is_word (c : ascii) : bool :=
  is_upper c || is_lower c || is_digit c || (code c =? 95)%N.

(** [\s] and [str.strip()] on ASCII text: TAB, LF, VT, FF, CR, the four
    separators 0x1c-0x1f and the space. *)
Definition is_space (c : ascii) : bool :=
  in_range 9 13 c || in_range 28 31 c || (code c =? 32)%N.

Definition is_newline (c : ascii) : bool := (code c =? 10)%N.

(** Simple case folding of [re.IGNORECASE] on ASCII. *)
Definition lower (c : ascii) : ascii :=
  if is_upper c then ascii_of_N (code c + 32) else c.

(** Equality of two characters, under [re.IGNORECASE] when [ic] is set. *)
Definition chr_eq (ic : bool) (a b : ascii) : bool :=
  if ic then Ascii.eqb (lower a) (lower b) else Ascii.eqb a b.

(** [s.startswith(p)] *)
Fixpoint startswith (p s : str) : bool :=
  match p, s with
  | [], _ => true
  | a :: p', b :: s' => Ascii.eqb a b && startswith p' s'
  | _ :: _, [] => false
  end.

(** [p in s] *)
Fixpoint contains (p s : str) : bool :=
  startswith p s ||
  match s with
  | [] => false
  | _ :: s' => contains p s'
  end.

(** [sep.join(parts)] with the empty separator, as in [''.join(...)]. *)
Definition join_empty (parts : list str) : str := concat parts.

(** [sep.join(parts)] *)
Fixpoint join (sep : str) (parts : list str) : str :=
  match parts with
  | [] => []
  | [x] => x
  | x :: rest => x ++ sep ++ join sep rest
  end.

(** [s.lstrip()], [s.rstrip()] and [s.strip()] *)
Fixpoint lstrip (s : str) : str :=
  match s with
  | c :: s' => if is_space c then lstrip s' else s
  | [] => []
  end.

Definition rstrip (s : str) : str := rev (lstrip (rev s)).

Definition strip (s : str) : str := rstrip (lstrip s).

(** [s.split(sep)] for a one-character separator: never empty. *)
Fixpoint split (sep : ascii) (s : str) : list str :=
  match s with
  | [] => [[]]
  | c :: s' =>
      if Ascii.eqb c sep then [] :: split sep s'
      else
        match split sep s' with
        | l :: ls => (c :: l) :: ls
        | [] => [[c]]
        end
  end.

(** [s.split(sep, 1)]: cut at the first separator only. *)
Fixpoint split1 (sep : ascii) (s : str) : list str :=
  match s with
  | [] => [[]]
  | c :: s' =>
      if Ascii.eqb c sep then [[]; s']
      else
        match split1 sep s' with
        | l :: ls => (c :: l) :: ls
        | [] => [[c]]
        end
  end.

(** [s.replace(old, new)] for a one-character [old]. *)
Fixpoint replace_chr (old : ascii) (new : str) (s : str) : str :=
  match s with
  | [] => []
  | c :: s' =>
      if Ascii.eqb c old then new ++ replace_chr old new s'
      else c :: replace_chr old new s'
  end.

(** [f.readlines()] on the decoded text of a file: every line keeps its
    line break; a last line without one is kept as it is. *)
Fixpoint readlines (text : str) : list str :=
  match text with
  | [] => []
  | c :: text' =>
      if is_newline c then [c] :: readlines text'
      else
        match readlines text' with
        | l :: ls => (c :: l) :: ls
        | [] => [[c]]
        end
  end.

(** An index of a slice, brought into [0 .. n] as Python does: a negative
    index counts from the end. *)
Definition slice_index (n i : Z) : Z :=
  if (i <? 0)%Z then Z.max 0 (i + n) else Z.min i n.

(** [l[i:j]] *)
Definition slice (A : Type) (l : list A) (i j : Z) : list A :=
  let n := Z.of_nat (length l) in
  let a := slice_index n i in
  let b := slice_index n j in
  firstn (Z.to_nat (b - a)) (skipn (Z.to_nat a) l).

(** [str(n)] for an integer. *)
Definition str_of_int (n : Z) : str := L (NilZero.string_of_int (Z.to_int n)).

(** The digits of [int(s)]: decimal digits, single underscores allowed
    between two digits.  [acc] is the value read so far, [after_digit]
    tells whether the previous character was a digit. *)
Fixpoint int_digits (acc : Z) (after_digit : bool) (s : str) : option Z :=
  match s with
  | [] => if after_digit then Some acc else None
  | c :: s' =>
      if is_digit c
      then int_digits (10 * acc + Z.of_N (code c - 48)) true s'
      else if (code c =? 95)%N
           then if after_digit then int_digits acc false s' else None
           else None
  end.

(** Blanks that [int] skips around the number (ASCII text). *)
Definition is_int_blank (c : ascii) : bool :=
  in_range 9 13 c || (code c =? 32)%N.

Fixpoint skip_int_blanks (s : str) : str :=
  match s with
  | c :: s' => if is_int_blank c then skip_int_blanks s' else s
  | [] => []
  end.

(** [int(s)]: [None] stands for [ValueError]. *)
Definition int (s : str) : option Z :=
  let body := rev (skip_int_blanks (rev (skip_int_blanks s))) in
  match body with
  | c :: digits =>
      if (code c =? 45)%N then option_map Z.opp (int_digits 0 false digits)
      else if (code c =? 43)%N then int_digits 0 false digits
      else int_digits 0 false body
  | [] => None
  end.

End PyStr.
Import PyStr.

(** ** Exceptions *)

Module Exn.

(** The classes of exception the scripts tell apart.  [OSError] is also
    Python's [IOError]; [BaseOnly] stands for a [BaseException] that is no
    [Exception] ([KeyboardInterrupt], [SystemExit]). *)
Inductive kind : Type :=
| OSError
| IndexError
| ValueError
| OtherException
| BaseOnly.

Record exn : Type := mkExn { exn_kind : kind; exn_str : str }.

(** [except Exception] *)
Definition is_Exception (k : kind) : bool :=
  match k with BaseOnly => false | _ => true end.

(** [except (IOError, IndexError)] *)
Definition is_IOError_or_IndexError (k : kind) : bool :=
  match k with OSError | IndexError => true | _ => false end.

Inductive outcome (A : Type) : Type :=
| Ok (a : A)
| Raise (e : exn).

Arguments Ok {A} a.
Arguments Raise {A} e.

(** [try: m  except <classes>: h] *)
Definition try_except (A : Type) (m : outcome A) (classes : kind -> bool)
    (h : exn -> outcome A) : outcome A :=
  match m with
  | Ok a => Ok a
  | Raise e => if classes (exn_kind e) then h e else Raise e
  end.

End Exn.
Import Exn.

(** ** The fragment of Python's [re] the scripts use *)

Module Re.

(** Character sets that occur under a repetition. *)
Inductive cclass : Type :=
| Any    (* .  : anything but a newline *)
| Word   (* \w *)
| Space. (* \s *)

Definition in_class (c : cclass) (a : ascii) : bool :=
  match c with
  | Any => negb (is_newline a)
  | Word => is_word a
  | Space => is_space a
  end.

Inductive regex : Type :=
| Str (p : str)                 (* literal text *)
| Star (c : cclass)             (* c*  greedy *)
| StarLazy (c : cclass)         (* c*? *)
| Plus (c : cclass)             (* c+  greedy *)
| Alt (r1 r2 : regex)           (* r1|r2 *)
| Seq (r1 r2 : regex)           (* r1r2 *)
| Group (n : nat) (r : regex).  (* (r), the n-th group *)

(** Captured groups, most recent first. *)
Definition caps := list (nat * str).

Fixpoint group (n : nat) (g : caps) : option str :=
  match g with
  | [] => None
  | (m, w) :: g' => if Nat.eqb n m then Some w else group n g'
  end.

(** Literal text at the head of [s]; the rest of [s] on success. *)
Fixpoint lit (ic : bool) (p s : str) : option str :=
  match p, s with
  | [], _ => Some s
  | a :: p', b :: s' => if chr_eq ic a b then lit ic p' s' else None
  | _ :: _, [] => None
  end.

Section Repetition.
Variable A : Type.
Variable f : ascii -> bool.

(** Greedy repetition: the longest run first, then shorter ones. *)
Fixpoint star_greedy (s : str) (k : str -> option A) : option A :=
  match s with
  | a :: s' =>
      if f a then
        match star_greedy s' k with
        | Some x => Some x
        | None => k s
        end
      else k s
  | [] => k s
  end.

(** Lazy repetition: the shortest run first, then longer ones. *)
Fixpoint star_lazy (s : str) (k : str -> option A) : option A :=
  match k s with
  | Some x => Some x
  | None =>
      match s with
      | a :: s' => if f a then star_lazy s' k else None
      | [] => None
      end
  end.
End Repetition.

(** The backtracking matcher: [bt ic r s g k] matches [r] at the head of
    [s] and hands the rest of the text and the groups to [k]; when [k]
    fails the next alternative is tried, in the order of [re]. *)
Fixpoint bt (ic : bool) (r : regex) (s : str) (g : caps)
    (k : str -> caps -> option caps) : option caps :=
  match r with
  | Str p =>
      match lit ic p s with
      | Some s' => k s' g
      | None => None
      end
  | Star c => star_greedy (in_class c) s (fun s' => k s' g)
  | StarLazy c => star_lazy (in_class c) s (fun s' => k s' g)
  | Plus c =>
      match s with
      | a :: s' =>
          if in_class c a
          then star_greedy (in_class c) s' (fun s'' => k s'' g)
          else None
      | [] => None
      end
  | Alt r1 r2 =>
      match bt ic r1 s g k with
      | Some x => Some x
      | None => bt ic r2 s g k
      end
  | Seq r1 r2 => bt ic r1 s g (fun s' g' => bt ic r2 s' g' k)
  | Group n r0 =>
      bt ic r0 s g
        (fun s' g' => k s' ((n, firstn (length s - length s') s) :: g'))
  end.

(** [re.match]: a match at the head of the text. *)
Definition re_match (ic : bool) (r : regex) (s : str) : option caps :=
  bt ic r s [] (fun _ g => Some g).

(** [re.search]: the leftmost position at which [r] matches. *)
Fixpoint search (ic : bool) (r : regex) (s : str) : option caps :=
  match re_match ic r s with
  | Some g => Some g
  | None =>
      match s with
      | [] => None
      | _ :: s' => search ic r s'
      end
  end.

Definition is_match (m : option caps) : bool :=
  match m with Some _ => true | None => false end.

End Re.
Import Re.

(** ** The environment of the scripts *)

(** What the scripts observe of the machine they run on.  The commands and
    the file system are read only and do not change during a run. *)
Record World : Type := mkWorld {
  (** stdout of [find repo_path -type f -name '*.java'] *)
  run_find : str -> outcome str;
  (** stdout of [grep -n -i test file_path] *)
  run_grep : str -> outcome str;
  (** [os.path.exists] *)
  path_exists : str -> bool;
  (** [open(path, 'r')] followed by reading the whole decoded text *)
  open_read : str -> outcome str
}.

Definition nl : ascii := ascii_of_nat 10.
Definition dquote : ascii := ascii_of_nat 34.
Definition squote : ascii := ascii_of_nat 39.
Definition colon : ascii := ascii_of_nat 58.

(** ** Lessons 1 and 6: the steps they share *)

Module Steps.

Section WithWorld.
Variable w : World.

(** Step 1, [list_files]. *)
Definition list_files (repo_path : str) : outcome (list str) :=
  match run_find w repo_path with
  | Ok stdout =>
      Ok (match stdout with
          | [] => []
          | _ => split nl (strip stdout)
          end)
  | Raise e => Raise e
  end.

(** Step 2, [find_test_lines]. *)
Definition find_test_lines (file_path : str) : outcome (list str) :=
  match run_grep w file_path with
  | Ok stdout =>
      Ok (match stdout with
          | [] => []
          | _ => split nl (strip stdout)
          end)
  | Raise e => Raise e
  end.

(** The [try] block that reads the method body
    (lesson_1.py l.47-54, lesson_6.py l.84-91). *)
Definition read_method_body (file_path : str) (line_num : Z)
    (method_content : str) : outcome str :=
  try_except
    (match open_read w file_path with
     | Ok text =>
         let lines := readlines text in
         let start_line := (line_num - 1)%Z in
         Ok (join_empty (slice lines start_line (start_line + 20)%Z))
     | Raise e => Raise e
     end)
    is_IOError_or_IndexError
    (fun _ => Ok method_content).
End WithWorld.

(** [(public|private|protected)] *)
Definition modifier : regex :=
  Alt (Str (L "public")) (Alt (Str (L "private")) (Str (L "protected"))).

(** [r'(public|private|protected).*test\w+\s*\('] *)
Definition test_decl_re : regex :=
  Seq (Group 1 modifier)
    (Seq (Star Any)
       (Seq (Str (L "test"))
          (Seq (Plus Word) (Seq (Star Space) (Str (L "(")))))).

(** The condition of the [if] in [extract_test_methods]: the search runs
    with [re.IGNORECASE], the [in] test does not fold case. *)
Definition is_test_line (line : str) : bool :=
  is_match (search true test_decl_re line) || contains (L "@Test") line.

(** Step 3, [extract_test_methods]. *)
Definition extract_test_methods (test_lines : list str) : list str :=
  filter is_test_line test_lines.

(** [if not test_lines or test_lines == ['']] *)
Definition no_test_lines (test_lines : list str) : bool :=
  match test_lines with
  | [] => true
  | [[]] => true
  | _ => false
  end.

End Steps.

(** ** The agent *)

(** The agent is an object with a state of its own (its conversation); a
    call takes the prompt and yields the text of the answer or raises. *)
Record Agent : Type := mkAgent {
  agent_state : Type;
  ask : agent_state -> str -> outcome str * agent_state
}.

(** ** Computations that use the agent and may raise *)

Module Run.

Section WithAgent.
Variable ag : Agent.

Definition M (A : Type) : Type :=
  agent_state ag -> outcome (A * agent_state ag).

Definition ret (A : Type) (a : A) : M A := fun st => Ok (a, st).

Definition bind (A B : Type) (m : M A) (f : A -> M B) : M B :=
  fun st =>
    match m st with
    | Ok (a, st') => f a st'
    | Raise e => Raise e
    end.

(** A step that does not touch the agent. *)
Definition lift (A : Type) (o : outcome A) : M A :=
  fun st =>
    match o with
    | Ok a => Ok (a, st)
    | Raise e => Raise e
    end.

(** [try: answer = agent(prompt)  except Exception as e: answer = h(e)] *)
Definition ask_or (prompt : str) (h : exn -> str) : M str :=
  fun st =>
    match ask ag st prompt with
    | (Ok answer, st') => Ok (answer, st')
    | (Raise e, st') =>
        if is_Exception (exn_kind e) then Ok (h e, st') else Raise e
    end.
End WithAgent.

Arguments ret {ag A} a.
Arguments bind {ag A B} m f.
Arguments lift {ag A} o.

End Run.
Import Run.

Declare Scope run_scope.
Delimit Scope run_scope with run.
Notation "x <- m ;; k" := (bind m (fun x => k))
  (at level 61, m at next level, right associativity) : run_scope.
Notation "' p <- m ;; k" := (bind m (fun x => match x with p => k end))
  (at level 61, p pattern, m at next level, right associativity) : run_scope.

(** ** lesson_1.py *)

Module Lesson1.

(** An entry of [all_tests]. *)
Record TestEntry : Type := mkEntry {
  file : str;
  method : str;
  purpose : str
}.

(** The f-string of [analyze_test_with_agent]. *)
Definition prompt (method_body : str) : str :=
  nl :: L "    Analyze this Java test method and describe what it's testing in one concise sentence:"
  ++ nl :: L "    "
  ++ nl :: L "    Code:"
  ++ nl :: L "    " ++ method_body
  ++ nl :: L "    "
  ++ nl :: L "    Respond with format: " ++ dquote :: L "Tests [specific functionality]" ++ [dquote]
  ++ nl :: L "    ".

Section WithWorld.
Variable w : World.
Variable ag : Agent.
Open Scope run_scope.

(** Step 4, [analyze_test_with_agent]; [ask] stands for [agent(prompt)]
    and the text taken from the response ([response.message] or
    [str(response)]). *)
Definition analyze_test_with_agent (method_line file_path : str)
    : M ag str :=
  if negb (contains [colon] method_line) then ret (L "Unknown test")
  else
    match split1 colon method_line with
    | line_num :: method_content :: _ =>
        match int line_num with
        | None => ret (L "Unknown test")
        | Some line_num =>
            method_body <-
              lift (Steps.read_method_body w file_path line_num
                      method_content) ;;
            ask_or ag (prompt method_body)
              (fun e => L "Analysis failed: " ++ exn_str e)
        end
    | _ => ret (L "Unknown test")
    end.

(** [for method_line in test_methods[:3]: ... all_tests.append(...)] *)
Fixpoint analyze_methods (file_path : str) (method_lines : list str)
    (all_tests : list TestEntry) : M ag (list TestEntry) :=
  match method_lines with
  | [] => ret all_tests
  | method_line :: rest =>
      purpose <- analyze_test_with_agent method_line file_path ;;
      analyze_methods file_path rest
        (all_tests ++ [mkEntry file_path method_line purpose])
  end.

(** [for file_path in files: ...] *)
Fixpoint scan (files : list str) (all_tests : list TestEntry)
    : M ag (list TestEntry) :=
  match files with
  | [] => ret all_tests
  | file_path :: rest =>
      if negb (path_exists w file_path) then scan rest all_tests
      else
        test_lines <- lift (Steps.find_test_lines w file_path) ;;
        if Steps.no_test_lines test_lines then scan rest all_tests
        else
          let test_methods := Steps.extract_test_methods test_lines in
          match test_methods with
          | [] => scan rest all_tests
          | _ =>
              all_tests' <-
                analyze_methods file_path (firstn 3 test_methods)
                  all_tests ;;
              scan rest all_tests'
          end
  end.

(** [main], up to the printing of the results: the value is the final
    [all_tests]. *)
Definition main (repo_path : str) : M ag (list TestEntry) :=
  files <- lift (Steps.list_files w repo_path) ;;
  scan files [].
End WithWorld.

End Lesson1.

(** ** lesson_6.py *)

Module Lesson6.

Record TestMethod : Type := mkTestMethod {
  name : str;
  line_number : Z;
  purpose : str;
  file_path : str
}.

Record FileAnalysis : Type := mkFileAnalysis {
  fa_file_path : str;
  test_methods : list TestMethod;
  total_tests : Z
}.

Record TestExtractionResult : Type := mkResult {
  repository_path : str;
  total_files_analyzed : Z;
  total_tests_found : Z;
  file_analyses : list FileAnalysis;
  summary : str
}.

(** [len(l)] *)
Definition len (A : Type) (l : list A) : Z := Z.of_nat (length l).

(** [(\w+)\s*\(] *)
Definition call_head_re : regex :=
  Seq (Group 2 (Plus Word)) (Seq (Star Space) (Str (L "("))).

(** [r'(public|private|protected).*?(\w+)\s*\('] *)
Definition annotated_name_re : regex :=
  Seq (Group 1 Steps.modifier) (Seq (StarLazy Any) call_head_re).

(** [r'(test\w+)'] *)
Definition test_name_re : regex :=
  Group 1 (Seq (Str (L "test")) (Plus Word)).

(** [method_match.group(n)] of a match object; every group of the two
    patterns takes part in every match, so the default is never used. *)
Definition group_text (n : nat) (g : caps) : str :=
  match group n g with
  | Some text => text
  | None => []
  end.

(** The block "Extract method name" (l.71-82). *)
Definition method_name_of (method_content : str) : str :=
  if contains (L "@Test") method_content then
    match search false annotated_name_re method_content with
    | Some g => group_text 2 g
    | None => L "Unknown"
    end
  else
    match search true test_name_re method_content with
    | Some g => group_text 1 g
    | None => L "Unknown"
    end.

(** The f-string of [analyze_test_with_agent]. *)
Definition prompt (method_name method_body : str) : str :=
  nl :: L "    Analyze this Java test method and return structured information about it:"
  ++ nl :: L "    "
  ++ nl :: L "    Method name: " ++ method_name
  ++ nl :: L "    Code:"
  ++ nl :: L "    " ++ method_body
  ++ nl :: L "    "
  ++ nl :: L "    Provide a concise description of what this test method tests."
  ++ nl :: L "    ".

Section WithWorld.
Variable w : World.
Variable ag : Agent.
Open Scope run_scope.

(** Step 4, [analyze_test_with_agent]; [ask] stands for
    [agent.structured_output(TestPurpose, prompt).purpose]. *)
Definition analyze_test_with_agent (method_line file_path : str)
    : M ag TestMethod :=
  if negb (contains [colon] method_line)
  then ret (mkTestMethod (L "Unknown") 0 (L "Unknown test") file_path)
  else
    match split1 colon method_line with
    | line_num :: method_content :: _ =>
        let line_num_int :=
          match int line_num with
          | Some n => n
          | None => 0%Z
          end in
        let method_name := method_name_of method_content in
        method_body <-
          lift (Steps.read_method_body w file_path line_num_int
                  method_content) ;;
        purpose <-
          ask_or ag (prompt method_name method_body)
            (fun e => L "Analysis failed: " ++ exn_str e) ;;
        ret (mkTestMethod method_name line_num_int purpose file_path)
    | _ => ret (mkTestMethod (L "Unknown") 0 (L "Unknown test") file_path)
    end.

(** [for method_line in test_methods[:3]: analyzed_methods.append(...)] *)
Fixpoint analyze_methods (file_path : str) (method_lines : list str)
    (analyzed_methods : list TestMethod) : M ag (list TestMethod) :=
  match method_lines with
  | [] => ret analyzed_methods
  | method_line :: rest =>
      test_method <- analyze_test_with_agent method_line file_path ;;
      analyze_methods file_path rest (analyzed_methods ++ [test_method])
  end.

(** [for file_path in files: ...], on the two accumulators of [main]. *)
Fixpoint scan (files : list str) (file_analyses : list FileAnalysis)
    (total_tests : Z) : M ag (list FileAnalysis * Z) :=
  match files with
  | [] => ret (file_analyses, total_tests)
  | file_path :: rest =>
      if negb (path_exists w file_path)
      then scan rest file_analyses total_tests
      else
        test_lines <- lift (Steps.find_test_lines w file_path) ;;
        if Steps.no_test_lines test_lines
        then scan rest file_analyses total_tests
        else
          let test_methods := Steps.extract_test_methods test_lines in
          match test_methods with
          | [] => scan rest file_analyses total_tests
          | _ =>
              analyzed_methods <-
                analyze_methods file_path (firstn 3 test_methods) [] ;;
              let file_analysis :=
                mkFileAnalysis file_path analyzed_methods
                  (len analyzed_methods) in
              scan rest (file_analyses ++ [file_analysis])
                (total_tests + len analyzed_methods)%Z
          end
  end.

(** [main], up to the printing and the JSON dump: the value is [result]. *)
Definition main (repo_path : str) : M ag TestExtractionResult :=
  files <- lift (Steps.list_files w repo_path) ;;
  ' (file_analyses, total_tests) <- scan files [] 0%Z ;;
  ret (mkResult repo_path
         (len (filter (path_exists w) files))
         total_tests
         file_analyses
         (L "Analyzed " ++ str_of_int (len file_analyses)
          ++ L " files with test methods, found "
          ++ str_of_int total_tests ++ L " total test methods")).
End WithWorld.

End Lesson6.

(** ** lesson_3.py: the [grep_pattern] tool *)

Module Lesson3.

(** What the tool observes of the machine. *)
Record Host : Type := mkHost {
  abspath : str -> str;                     (* os.path.abspath *)
  exists_ : str -> bool;                    (* os.path.exists *)
  isfile : str -> bool;                     (* os.path.isfile *)
  (** stdout of [subprocess.run(cmd, capture_output=True, text=True)] *)
  subprocess_run : list str -> outcome str
}.

(** The characters [shlex.quote] leaves alone: [\w@%+=:,./-] (ASCII). *)
Definition is_shell_safe (c : ascii) : bool :=
  is_word c || existsb (Ascii.eqb c) (L "@%+=:,./-").

(** [shlex.quote] *)
Definition shlex_quote (s : str) : str :=
  match s with
  | [] => [squote; squote]
  | _ =>
      if forallb is_shell_safe s then s
      else
        squote
        :: replace_chr squote [squote; dquote; squote; dquote; squote] s
        ++ [squote]
  end.

Definition allowed_patterns : list str :=
  [ L "test"; L "@Test"; L "it\("; L "describe\("; L "def test_";
    L "@pytest"; L "public.*test"; L "private.*test"; L "protected.*test" ].

(** [any(allowed in pattern for allowed in allowed_patterns)] *)
Definition pattern_allowed (pattern : str) : bool :=
  existsb (fun allowed => contains allowed pattern) allowed_patterns.

(** The command line handed to [subprocess.run]. *)
Definition grep_cmd (pattern safe_file_path : str) (case_insensitive : bool)
    : list str :=
  ([L "grep"; L "-n"] ++ (if case_insensitive then [L "-i"] else []))
  ++ [shlex_quote pattern; shlex_quote safe_file_path].

Definition file_error : str :=
  L "Error: File does not exist or is not a regular file".

Definition security_error : str :=
  L "Error: Pattern not allowed for security reasons".

Section WithHost.
Variable h : Host.

Definition grep_pattern (file_path pattern : str) (case_insensitive : bool)
    : outcome str :=
  try_except
    (let safe_file_path := abspath h file_path in
     if negb (exists_ h safe_file_path) || negb (isfile h safe_file_path)
     then Ok file_error
     else if negb (pattern_allowed pattern)
     then Ok security_error
     else
       match
         subprocess_run h (grep_cmd pattern safe_file_path case_insensitive)
       with
       | Ok stdout =>
           Ok (match stdout with
               | [] => L "No matches found"
               | _ => strip stdout
               end)
       | Raise e => Raise e
       end)
    is_Exception
    (fun e => Ok (L "Error: " ++ exn_str e)).
End WithHost.

End Lesson3.

(** ** A small repository to run the scripts on *)

Module Sample.

(** [/r/T.java], seven lines, four of them test methods. *)
Definition t_java : str :=
  L "import org.junit.Test;" ++ nl ::
  L "public class T {" ++ nl ::
  L "  public void testAdd() {" ++ nl ::
  L "  public void testSub() {" ++ nl ::
  L "  public void testMul() {" ++ nl ::
  L "  public void testDiv() {" ++ nl ::
  L "}" ++ [nl].

(** What [grep -n -i test] prints for [/r/T.java]. *)
Definition t_grep : str :=
  L "1:import org.junit.Test;" ++ nl ::
  L "3:  public void testAdd() {" ++ nl ::
  L "4:  public void testSub() {" ++ nl ::
  L "5:  public void testMul() {" ++ nl ::
  L "6:  public void testDiv() {" ++ [nl].

Definition str_eqb (a b : str) : bool :=
  if list_eq_dec Ascii.ascii_dec a b then true else false.

(** A repository [/r] with [T.java] and a file [U.java] without tests; a
    third path is listed by [find] but cannot be opened. *)
Definition world : World :=
  mkWorld
    (fun repo_path =>
       if str_eqb repo_path (L "/r")
       then Ok (L "/r/T.java" ++ nl :: L "/r/U.java" ++ [nl])
       else Ok [])
    (fun file_path =>
       if str_eqb file_path (L "/r/T.java") then Ok t_grep else Ok [])
    (fun path => str_eqb path (L "/r/T.java") || str_eqb path (L "/r/U.java"))
    (fun path =>
       if str_eqb path (L "/r/T.java") then Ok t_java
       else if str_eqb path (L "/r/U.java") then Ok (L "class U {}" ++ [nl])
       else Raise (mkExn OSError (L "[Errno 2] No such file or directory"))).

(** An agent that counts its calls and fails on the second one. *)
Definition agent : Agent :=
  mkAgent
    (fun (calls : nat) (_ : str) =>
       (if Nat.eqb calls 1
        then Raise (mkExn OtherException (L "throttled"))
        else Ok (L "Tests arithmetic"),
        S calls)).

(** The machine as the tool of lesson 3 sees it: paths are absolute
    already, [/r/T.java] is the only file, and [grep] finds the test lines
    whatever it is asked for there. *)
Definition host : Lesson3.Host :=
  Lesson3.mkHost
    (fun path => path)
    (fun path => str_eqb path (L "/r/T.java"))
    (fun path => str_eqb path (L "/r/T.java"))
    (fun cmd =>
       match rev cmd with
       | file :: _ => if str_eqb file (L "/r/T.java") then Ok t_grep else Ok []
       | [] => Raise (mkExn ValueError (L "empty command"))
       end).

(** The result of lesson 6 on this repository, written out. *)
Definition expected : Lesson6.TestExtractionResult :=
  Lesson6.mkResult (L "/r") 2 3
    [Lesson6.mkFileAnalysis (L "/r/T.java")
       [Lesson6.mkTestMethod (L "testAdd") 3 (L "Tests arithmetic")
          (L "/r/T.java");
        Lesson6.mkTestMethod (L "testSub") 4 (L "Analysis failed: throttled")
          (L "/r/T.java");
        Lesson6.mkTestMethod (L "testMul") 5 (L "Tests arithmetic")
          (L "/r/T.java")]
       3]
    (L "Analyzed 1 files with test methods, found 3 total test methods").

End Sample.

(** ** Vocabulary of the statements *)

Module Says.

(** [u] is the text [p], letter case apart when [ic] is set. *)
Fixpoint text_eq (ic : bool) (p u : str) : bool :=
  match p, u with
  | [], [] => true
  | a :: p', b :: u' => chr_eq ic a b && text_eq ic p' u'
  | _, _ => false
  end.

(** [s] has an occurrence of [p]. *)
Definition occurs (p s : str) : Prop :=
  exists pre post, s = pre ++ p ++ post.

(** What a match consumes and which groups it sets: [consumes ic r u g g']
    reads "[r] matches exactly the text [u] and turns the groups [g] into
    [g']". *)
Fixpoint consumes (ic : bool) (r : regex) (u : str) (g g' : caps) : Prop :=
  match r with
  | Str p => text_eq ic p u = true /\ g' = g
  | Star c => forallb (in_class c) u = true /\ g' = g
  | StarLazy c => forallb (in_class c) u = true /\ g' = g
  | Plus c => u <> [] /\ forallb (in_class c) u = true /\ g' = g
  | Alt r1 r2 => consumes ic r1 u g g' \/ consumes ic r2 u g g'
  | Seq r1 r2 =>
      exists u1 u2 g1,
        u = u1 ++ u2 /\ consumes ic r1 u1 g g1 /\ consumes ic r2 u2 g1 g'
  | Group n r0 => exists g1, consumes ic r0 u g g1 /\ g' = (n, u) :: g1
  end.

(** The language of a pattern. *)
Definition matches (ic : bool) (r : regex) (u : str) : Prop :=
  exists g', consumes ic r u [] g'.

(** One of the three access modifiers of the patterns. *)
Definition is_modifier (ic : bool) (m : str) : bool :=
  text_eq ic (L "public") m || text_eq ic (L "private") m
  || text_eq ic (L "protected") m.

(** [name] followed by blanks and an opening parenthesis, after a modifier
    on the same line: the shape both Java patterns look for. *)
Definition modifier_then_call (ic_modifier : bool) (text pre m mid name ws post
    : str) : Prop :=
  text = pre ++ m ++ mid ++ name ++ ws ++ L "(" ++ post
  /\ is_modifier ic_modifier m = true
  /\ forallb (in_class Any) mid = true
  /\ forallb is_space ws = true.

(** A [test...] identifier for the patterns: [test] in any letter case and
    at least one more word character. *)
Definition is_test_word (name : str) : Prop :=
  exists t wd,
    name = t ++ wd /\ text_eq true (L "test") t = true
    /\ wd <> [] /\ forallb is_word wd = true.

(** The acceptance rule as the specification words it: the modifier is
    compared exactly, only [test] is compared letter case apart. *)
Definition claimed_test_line (line : str) : Prop :=
  (exists pre m mid name ws post,
      modifier_then_call false line pre m mid name ws post
      /\ is_test_word name)
  \/ occurs (L "@Test") line.

(** The acceptance rule of the code: the whole pattern is compared letter
    case apart, the annotation exactly. *)
Definition coded_test_line (line : str) : Prop :=
  (exists pre m mid name ws post,
      modifier_then_call true line pre m mid name ws post
      /\ is_test_word name)
  \/ occurs (L "@Test") line.

(** The text before the first opening parenthesis; [None] without one. *)
Fixpoint before_paren (s : str) : option str :=
  match s with
  | [] => None
  | c :: s' =>
      if Ascii.eqb c "("%char then Some []
      else option_map (cons c) (before_paren s')
  end.

(** The longest run of word characters at the head of a text. *)
Fixpoint leading_word (s : str) : str :=
  match s with
  | c :: s' => if is_word c then c :: leading_word s' else []
  | [] => []
  end.

(** The identifier right before the first opening parenthesis of a text,
    blanks between them apart: the name the specification derives for an
    annotated line.  [None] when there is no parenthesis or no identifier
    before it. *)
Definition word_before_paren (s : str) : option str :=
  match before_paren s with
  | None => None
  | Some pre =>
      match rev (leading_word (lstrip (rev pre))) with
      | [] => None
      | name => Some name
      end
  end.

(** [s] starts with the head of a call of [name]: the identifier, optional
    blanks and the opening parenthesis. *)
Definition call_at (s name : str) : Prop :=
  exists ws post,
    s = name ++ ws ++ L "(" ++ post
    /\ name <> [] /\ forallb is_word name = true
    /\ forallb is_space ws = true.

(** [s] starts with an access modifier, spelled exactly, followed on the
    same line by the head of a call. *)
Definition decl_at (s : str) : Prop :=
  exists m mid rest name,
    s = m ++ mid ++ rest /\ is_modifier false m = true
    /\ forallb (in_class Any) mid = true /\ call_at rest name.

(** The name derived for an annotated line: the identifier of the first
    call head after the first modifier that is followed by one. *)
Definition annotated_name (c name : str) : Prop :=
  exists pre m mid rest,
    c = pre ++ m ++ mid ++ rest /\ is_modifier false m = true
    /\ forallb (in_class Any) mid = true /\ call_at rest name
    /\ (forall p1 p2, pre = p1 ++ p2 -> p2 <> [] ->
        ~ decl_at (p2 ++ m ++ mid ++ rest))
    /\ (forall m1 m2 n, mid = m1 ++ m2 -> m2 <> [] ->
        ~ call_at (m2 ++ rest) n).

(** [s] starts with a [test...] word. *)
Definition test_word_at (s : str) : Prop :=
  exists name post, s = name ++ post /\ is_test_word name.

(** The name derived for a line without annotation: the leftmost
    [test...] word, taken as far to the right as word characters go. *)
Definition first_test_word (c name : str) : Prop :=
  exists pre post,
    c = pre ++ name ++ post /\ is_test_word name
    /\ match post with [] => True | b :: _ => is_word b = false end
    /\ (forall p1 p2, pre = p1 ++ p2 -> p2 <> [] ->
        ~ test_word_at (p2 ++ name ++ post)).

(** What [method_name_of] derives, case by case. *)
Definition derived_name (c name : str) : Prop :=
  (occurs (L "@Test") c
   /\ (annotated_name c name
       \/ (forall pre s, c = pre ++ s -> ~ decl_at s) /\ name = L "Unknown"))
  \/
  (~ occurs (L "@Test") c
   /\ (first_test_word c name
       \/ (forall pre s, c = pre ++ s -> ~ test_word_at s)
          /\ name = L "Unknown")).

(** *** The pipeline *)

(** The file can be opened, or opening it fails with the error the [try]
    block expects. *)
Definition benign_reads (w : World) : Prop :=
  forall path e,
    open_read w path = Raise e ->
    is_IOError_or_IndexError (exn_kind e) = true.

(** When the agent fails it fails with an [Exception]. *)
Definition raises_exceptions (ag : Agent) : Prop :=
  forall st prompt e st',
    ask ag st prompt = (Raise e, st') -> is_Exception (exn_kind e) = true.

(** What [analyze_test_with_agent] reads off a matched line: the number
    before the first colon (0 when it is no number) and the text after it;
    [None] for a line without colon. *)
Definition parse_line (line : str) : option (Z * str) :=
  if negb (contains [colon] line) then None
  else
    match split1 colon line with
    | line_num :: method_content :: _ =>
        Some (match int line_num with Some n => n | None => 0%Z end,
              method_content)
    | _ => None
    end.

(** The entry of lesson 6 for a matched line, the purpose left open. *)
Definition entry_for (file line purpose : str) : Lesson6.TestMethod :=
  match parse_line line with
  | Some (n, method_content) =>
      Lesson6.mkTestMethod (Lesson6.method_name_of method_content) n purpose
        file
  | None =>
      Lesson6.mkTestMethod (L "Unknown") 0 (L "Unknown test") file
  end.

Definition is_entry_for (file line : str) (tm : Lesson6.TestMethod) : Prop :=
  exists purpose, tm = entry_for file line purpose.

(** The line number the pipeline reads off a matched line. *)
Definition line_no (line : str) : Z :=
  match parse_line line with
  | Some (n, _) => n
  | None => 0%Z
  end.

(** The candidates of a file: the matched lines that step 3 keeps. *)
Definition candidates (w : World) (file : str) : list str :=
  match Steps.find_test_lines w file with
  | Ok test_lines =>
      if Steps.no_test_lines test_lines then []
      else Steps.extract_test_methods test_lines
  | Raise _ => []
  end.

(** The files that get a [FileAnalysis]: they exist and have a candidate. *)
Definition has_candidates (w : World) (file : str) : bool :=
  path_exists w file
  && match candidates w file with [] => false | _ => true end.

(** [fa] is the analysis of [file]: one entry for each of its first three
    candidates, in their order, and their count. *)
Definition analysis_of (w : World) (file : str) (fa : Lesson6.FileAnalysis)
    : Prop :=
  Lesson6.fa_file_path fa = file
  /\ Lesson6.total_tests fa = Lesson6.len (Lesson6.test_methods fa)
  /\ Forall2 (is_entry_for file) (firstn 3 (candidates w file))
       (Lesson6.test_methods fa).

(** [sum(xs)] *)
Definition sum (xs : list Z) : Z := fold_right Z.add 0%Z xs.

(** The purpose recorded for an answer of the agent. *)
Definition purpose_of (answer : outcome str) : str :=
  match answer with
  | Ok text => text
  | Raise e => L "Analysis failed: " ++ exn_str e
  end.

(** [find] and [grep] can be started and give their output. *)
Definition commands_run (w : World) : Prop :=
  (forall repo_path, exists out, run_find w repo_path = Ok out)
  /\ (forall file_path, exists out, run_grep w file_path = Ok out).

(** Line numbers that go up. *)
Definition ascending (ns : list Z) : Prop := StronglySorted Z.lt ns.

(** The agent [ag] together with a count of the calls made to it. *)
Definition counting (ag : Agent) : Agent :=
  mkAgent
    (fun (st : agent_state ag * nat) (prompt : str) =>
       (fst (ask ag (fst st) prompt),
        (snd (ask ag (fst st) prompt), S (snd st)))).

End Says.
Import Says.

(** ** More of the scripts *)

(** *** lesson_3.py: the [find_files] tool *)

Module Lesson3Find.

(** [a == b] on strings. *)
Definition str_eqb (a b : str) : bool :=
  if list_eq_dec Ascii.ascii_dec a b then true else false.

(** How [subprocess.run(..., check=True)] ends: the command ran and left
    with status 0, it left with another status ([CalledProcessError], which
    carries what the command wrote on stderr), or something else was
    raised. *)
Inductive completed : Type :=
| Completed (stdout : str)
| CalledProcessError (stderr : str)
| Failed (e : exn).

(** What the tool observes of the machine. *)
Record Host : Type := mkHost {
  abspath : str -> str;                     (* os.path.abspath *)
  exists_ : str -> bool;                    (* os.path.exists *)
  isdir : str -> bool;                      (* os.path.isdir *)
  subprocess_run : list str -> completed
}.

Definition allowed_patterns : list str :=
  [ L "*.java"; L "*.py"; L "*.js"; L "*.ts"; L "*.jsx"; L "*.tsx";
    L "*.c"; L "*.cpp"; L "*.h" ].

(** [name_pattern in allowed_patterns] *)
Definition pattern_listed (name_pattern : str) : bool :=
  existsb (str_eqb name_pattern) allowed_patterns.

(** The command line handed to [subprocess.run]. *)
Definition find_cmd (safe_path name_pattern : str) : list str :=
  [ L "find"; Lesson3.shlex_quote safe_path; L "-type"; L "f"; L "-name";
    Lesson3.shlex_quote name_pattern ].

Definition directory_error : str :=
  L "Error: Invalid or non-existent directory".

Definition pattern_error (name_pattern : str) : str :=
  L "Error: Pattern '" ++ name_pattern ++ L "' not allowed. Use one of: "
  ++ join (L ", ") allowed_patterns.

Section WithHost.
Variable h : Host.

Definition find_files (path name_pattern : str) : outcome str :=
  let safe_path := abspath h path in
  if negb (exists_ h safe_path) || negb (isdir h safe_path)
  then Ok directory_error
  else if negb (pattern_listed name_pattern)
  then Ok (pattern_error name_pattern)
  else
    match subprocess_run h (find_cmd safe_path name_pattern) with
    | Completed stdout => Ok (strip stdout)
    | CalledProcessError stderr => Ok (L "Error: " ++ stderr)
    | Failed e =>
        if is_Exception (exn_kind e) then Ok (L "Error: " ++ exn_str e)
        else Raise e
    end.
End WithHost.

End Lesson3Find.

(** *** The name of the file the results are saved to *)

Module Output.

(** [repo_path.replace('/', '_').replace(' ', '_')] *)
Definition flat_name (repo_path : str) : str :=
  replace_chr " "%char (L "_") (replace_chr "/"%char (L "_") repo_path).

(** lesson_6.py l.203 *)
Definition structured_file (repo_path : str) : str :=
  L "test_analysis_structured_" ++ flat_name repo_path ++ L ".json".

(** lesson_2.py l.112 and lesson_3.py l.185 *)
Definition text_file (repo_path : str) : str :=
  L "test_analysis_" ++ flat_name repo_path ++ L ".txt".

End Output.

(** *** lesson_2.py and lesson_3.py: the menu loop of [main] *)

Module Menu.




Section WithAgent.
Variable ag : Agent.
(** [open(output_file, 'w')] and [f.write(content)]: the error, if any. *)
Variable write_file : str -> str -> option exn.

End WithAgent.

End Menu.

(** *** More samples *)

Module MoreSample.

(** A machine for [find_files]: [/r] is the only directory, and [find]
    prints nothing. *)
Definition find_host : Lesson3Find.Host :=
  Lesson3Find.mkHost
    (fun path => path)
    (fun path => Lesson3Find.str_eqb path (L "/r"))
    (fun path => Lesson3Find.str_eqb path (L "/r"))
    (fun _ => Lesson3Find.Completed []).

(** A machine for [grep_pattern] on which [grep] is interrupted. *)
Definition interrupted_host : Lesson3.Host :=
  Lesson3.mkHost
    (fun path => path)
    (fun path => Lesson3Find.str_eqb path (L "/r/T.java"))
    (fun path => Lesson3Find.str_eqb path (L "/r/T.java"))
    (fun _ => Raise (mkExn BaseOnly (L "KeyboardInterrupt"))).



End MoreSample.

(** *** Vocabulary for the menu loop *)

Module MenuSays.
Import Menu.





End MenuSays.

(** * Properties *)

(** ** Strings *)

Lemma startswith_iff (p s : str) :
  startswith p s = true <-> exists post, s = p ++ post.
Proof.
  revert s; induction p as [|a p IH]; intros s; simpl.
  - split; [intros _; now exists s | reflexivity].
  - destruct s as [|b s].
    + split; [discriminate | intros [post H]; discriminate].
    + rewrite andb_true_iff, Ascii.eqb_eq, IH. split.
      * intros [-> [post ->]]. now exists post.
      * intros [post H]. injection H as -> ->. split; [reflexivity | now exists post].
Qed.

Lemma contains_iff (p s : str) : contains p s = true <-> occurs p s.
Proof.
  unfold occurs. induction s as [|c s IH].
  - simpl. rewrite orb_false_r, startswith_iff. split.
    + intros [post H]. now exists [], post.
    + intros [pre [post H]]. destruct pre; simpl in H.
      * now exists post.
      * discriminate.
  - simpl contains. rewrite orb_true_iff, startswith_iff, IH. split.
    + intros [[post H] | [pre [post H]]].
      * now exists [], post.
      * exists (c :: pre), post. simpl. now rewrite H.
    + intros [pre [post H]]. destruct pre as [|d pre]; simpl in H.
      * left. now exists post.
      * right. injection H as _ H. now exists pre, post.
Qed.

Lemma concat_readlines (text : str) : concat (readlines text) = text.
Proof.
  induction text as [|c text IH]; simpl; [reflexivity|].
  destruct (is_newline c).
  - simpl. now rewrite IH.
  - destruct (readlines text) as [|l ls]; simpl in *.
    + now rewrite <- IH.
    + now rewrite <- IH.
Qed.

(** ** The matcher finds exactly the texts of the pattern *)

Section Matcher.
Variable ic : bool.

Lemma text_eq_length (p u : str) :
  text_eq ic p u = true -> length u = length p.
Proof.
  revert u; induction p as [|a p IH]; intros [|b u]; simpl; try discriminate.
  - reflexivity.
  - rewrite andb_true_iff. intros [_ H]. now rewrite (IH _ H).
Qed.

Lemma lit_sound (p s s' : str) :
  lit ic p s = Some s' -> exists u, s = u ++ s' /\ text_eq ic p u = true.
Proof.
  revert s; induction p as [|a p IH]; intros s; simpl.
  - intros [= ->]. now exists [].
  - destruct s as [|b s]; [discriminate|].
    destruct (chr_eq ic a b) eqn:E; [|discriminate].
    intros H. destruct (IH _ H) as [u [-> Hu]].
    exists (b :: u). simpl. now rewrite E, Hu.
Qed.

Lemma lit_complete (p u s' : str) :
  text_eq ic p u = true -> lit ic p (u ++ s') = Some s'.
Proof.
  revert u; induction p as [|a p IH]; intros [|b u]; simpl; try discriminate.
  - reflexivity.
  - rewrite andb_true_iff. intros [-> H]. now apply IH.
Qed.

Lemma star_greedy_sound (A : Type) (f : ascii -> bool) (k : str -> option A)
    (s : str) (x : A) :
  star_greedy f s k = Some x ->
  exists u s', s = u ++ s' /\ forallb f u = true /\ k s' = Some x.
Proof.
  induction s as [|a s IH]; simpl.
  - intros H. now exists [], [].
  - destruct (f a) eqn:Fa.
    + destruct (star_greedy f s k) as [y|] eqn:E.
      * intros [= ->]. destruct (IH eq_refl) as [u [s' [-> [Hu Hk]]]].
        exists (a :: u), s'. simpl. now rewrite Fa, Hu.
      * intros H. now exists [], (a :: s).
    + intros H. now exists [], (a :: s).
Qed.

Lemma star_greedy_complete (A : Type) (f : ascii -> bool)
    (k : str -> option A) (u s' : str) :
  forallb f u = true -> k s' <> None -> star_greedy f (u ++ s') k <> None.
Proof.
  intros Hu Hk. induction u as [|a u IH]; simpl in *.
  - destruct s' as [|b s']; simpl; [assumption|].
    destruct (f b); [|assumption].
    destruct (star_greedy f s' k); [discriminate | assumption].
  - apply andb_true_iff in Hu as [-> Hu].
    destruct (star_greedy f (u ++ s') k) eqn:E; [discriminate|].
    now elim (IH Hu).
Qed.

(** The lazy repetition stops at the first place where the rest of the
    pattern matches. *)
Lemma star_lazy_sound (A : Type) (f : ascii -> bool) (k : str -> option A)
    (s : str) (x : A) :
  star_lazy f s k = Some x ->
  exists u s',
    s = u ++ s' /\ forallb f u = true /\ k s' = Some x
    /\ forall u1 u2, u = u1 ++ u2 -> u2 <> [] -> k (u2 ++ s') = None.
Proof.
  induction s as [|a s IH]; simpl.
  - destruct (k []) eqn:E; [|discriminate].
    intros [= ->]. exists [], []. repeat split; try assumption.
    intros u1 u2 H. symmetry in H. apply app_eq_nil in H as [_ ->]. congruence.
  - destruct (k (a :: s)) eqn:E.
    + intros [= ->]. exists [], (a :: s). repeat split; try assumption.
      intros u1 u2 H. symmetry in H. apply app_eq_nil in H as [_ ->]. congruence.
    + destruct (f a) eqn:Fa; [|discriminate].
      intros H. destruct (IH H) as [u [s' [-> [Hu [Hk Hmin]]]]].
      exists (a :: u), s'. simpl. rewrite Fa, Hu. repeat split; try assumption.
      intros u1 u2 H1 H2. destruct u1 as [|b u1]; simpl in H1.
      * subst u2. exact E.
      * injection H1 as _ H1. now apply (Hmin u1).
Qed.

Lemma star_lazy_complete (A : Type) (f : ascii -> bool)
    (k : str -> option A) (u s' : str) :
  forallb f u = true -> k s' <> None -> star_lazy f (u ++ s') k <> None.
Proof.
  intros Hu Hk. induction u as [|a u IH]; simpl in *.
  - destruct s' as [|b s']; simpl.
    + destruct (k []); [discriminate | congruence].
    + destruct (k (b :: s')); [discriminate | congruence].
  - apply andb_true_iff in Hu as [-> Hu].
    destruct (k (a :: u ++ s')); [discriminate | now apply IH].
Qed.

Lemma firstn_consumed (u s' : str) :
  firstn (length (u ++ s') - length s') (u ++ s') = u.
Proof.
  rewrite length_app, Nat.add_sub.
  rewrite firstn_app, Nat.sub_diag, firstn_all. simpl. apply app_nil_r.
Qed.

Lemma bt_sound (r : regex) :
  forall (s : str) (g : caps) (k : str -> caps -> option caps) (x : caps),
    bt ic r s g k = Some x ->
    exists u s' g', s = u ++ s' /\ consumes ic r u g g' /\ k s' g' = Some x.
Proof.
  induction r as [p|c|c|c|r1 IH1 r2 IH2|r1 IH1 r2 IH2|n r IH];
    intros s g k x; simpl.
  - destruct (lit ic p s) as [s'|] eqn:E; [|discriminate].
    intros H. destruct (lit_sound _ _ E) as [u [-> Hu]].
    now exists u, s', g.
  - intros H. apply star_greedy_sound in H as [u [s' [-> [Hu Hk]]]].
    now exists u, s', g.
  - intros H. apply star_lazy_sound in H as [u [s' [-> [Hu [Hk _]]]]].
    now exists u, s', g.
  - destruct s as [|a s]; [discriminate|].
    destruct (in_class c a) eqn:Ca; [|discriminate].
    intros H. apply star_greedy_sound in H as [u [s' [-> [Hu Hk]]]].
    exists (a :: u), s', g. simpl. rewrite Ca, Hu.
    repeat split; [discriminate | assumption].
  - destruct (bt ic r1 s g k) as [y|] eqn:E.
    + intros [= ->]. destruct (IH1 _ _ _ _ E) as [u [s' [g' [-> [Hc Hk]]]]].
      exists u, s', g'. auto.
    + intros H. destruct (IH2 _ _ _ _ H) as [u [s' [g' [-> [Hc Hk]]]]].
      exists u, s', g'. auto.
  - intros H. destruct (IH1 _ _ _ _ H) as [u1 [s1 [g1 [-> [Hc1 Hk1]]]]].
    destruct (IH2 _ _ _ _ Hk1) as [u2 [s2 [g2 [-> [Hc2 Hk2]]]]].
    exists (u1 ++ u2), s2, g2. rewrite <- app_assoc.
    repeat split; [|assumption]. now exists u1, u2, g1.
  - intros H. destruct (IH _ _ _ _ H) as [u [s' [g' [-> [Hc Hk]]]]].
    rewrite firstn_consumed in Hk.
    exists u, s', ((n, u) :: g'). repeat split; [|assumption].
    now exists g'.
Qed.

(** A match does not depend on the groups set before it. *)
Lemma consumes_any (r : regex) :
  forall u g g', consumes ic r u g g' -> forall h, exists h', consumes ic r u h h'.
Proof.
  induction r as [p|c|c|c|r1 IH1 r2 IH2|r1 IH1 r2 IH2|n r IH];
    intros u g g'; simpl.
  - intros [H _] h. now exists h.
  - intros [H _] h. now exists h.
  - intros [H _] h. now exists h.
  - intros [H0 [H _]] h. now exists h.
  - intros [H|H] h.
    + destruct (IH1 _ _ _ H h) as [h' Hh]. exists h'. now left.
    + destruct (IH2 _ _ _ H h) as [h' Hh]. exists h'. now right.
  - intros [u1 [u2 [g1 [-> [H1 H2]]]]] h.
    destruct (IH1 _ _ _ H1 h) as [h1 Hh1].
    destruct (IH2 _ _ _ H2 h1) as [h2 Hh2].
    exists h2, u1, u2, h1. auto.
  - intros [g1 [H ->]] h. destruct (IH _ _ _ H h) as [h1 Hh1].
    exists ((n, u) :: h1), h1. auto.
Qed.

Lemma bt_complete (r : regex) :
  forall (u s' : str) (g : caps) (k : str -> caps -> option caps),
    matches ic r u -> (forall g', k s' g' <> None) ->
    bt ic r (u ++ s') g k <> None.
Proof.
  unfold matches.
  induction r as [p|c|c|c|r1 IH1 r2 IH2|r1 IH1 r2 IH2|n r IH];
    intros u s' g k [g0 Hc] Hk; simpl in *.
  - destruct Hc as [Hu _]. rewrite (lit_complete _ _ s' Hu). apply Hk.
  - destruct Hc as [Hu _]. now apply star_greedy_complete.
  - destruct Hc as [Hu _]. now apply star_lazy_complete.
  - destruct Hc as [Hne [Hu _]]. destruct u as [|a u]; [congruence|].
    simpl in *. apply andb_true_iff in Hu as [-> Hu].
    now apply star_greedy_complete.
  - destruct (bt ic r1 (u ++ s') g k) eqn:E; [discriminate|].
    destruct Hc as [Hc|Hc].
    + elim (IH1 u s' g k); eauto.
    + apply IH2; eauto.
  - destruct Hc as [u1 [u2 [g1 [-> [H1 H2]]]]]. rewrite <- app_assoc.
    apply IH1.
    + destruct (consumes_any _ _ _ _ H1 []) as [h Hh]. eauto.
    + intros g'. apply IH2; [|assumption].
      destruct (consumes_any _ _ _ _ H2 []) as [h Hh]. eauto.
  - destruct Hc as [g1 [Hc _]]. apply IH; eauto.
Qed.

Lemma re_match_sound (r : regex) (s : str) (g : caps) :
  re_match ic r s = Some g ->
  exists u s', s = u ++ s' /\ consumes ic r u [] g.
Proof.
  unfold re_match. intros H.
  apply bt_sound in H as [u [s' [g' [-> [Hc [= ->]]]]]]. now exists u, s'.
Qed.

Lemma re_match_complete (r : regex) (u s' : str) :
  matches ic r u -> re_match ic r (u ++ s') <> None.
Proof.
  intros H. unfold re_match. apply bt_complete; [assumption | discriminate].
Qed.

(** [search] returns the match at the leftmost position that has one. *)
Lemma search_sound (r : regex) (s : str) (g : caps) :
  search ic r s = Some g ->
  exists pre s',
    s = pre ++ s' /\ re_match ic r s' = Some g
    /\ forall p1 p2, pre = p1 ++ p2 -> p2 <> [] ->
                     re_match ic r (p2 ++ s') = None.
Proof.
  induction s as [|a s IH]; simpl.
  - destruct (re_match ic r []) eqn:E; [|discriminate].
    intros [= ->]. exists [], []. repeat split; [assumption|].
    intros p1 p2 H. symmetry in H. apply app_eq_nil in H as [_ ->]. congruence.
  - destruct (re_match ic r (a :: s)) eqn:E.
    + intros [= ->]. exists [], (a :: s). repeat split; [assumption|].
      intros p1 p2 H. symmetry in H. apply app_eq_nil in H as [_ ->]. congruence.
    + intros H. destruct (IH H) as [pre [s' [-> [Hm Hleft]]]].
      exists (a :: pre), s'. repeat split; [assumption|].
      intros p1 p2 H1 H2. destruct p1 as [|b p1]; simpl in H1.
      * subst p2. exact E.
      * injection H1 as _ H1. now apply (Hleft p1).
Qed.

Lemma search_complete (r : regex) (pre u post : str) :
  matches ic r u -> search ic r (pre ++ u ++ post) <> None.
Proof.
  intros H. induction pre as [|a pre IH]; simpl.
  - destruct (u ++ post) eqn:E; simpl;
      (destruct (re_match ic r _) eqn:E1; [discriminate|]);
      rewrite <- E in E1; now apply re_match_complete in E1.
  - destruct (re_match ic r (a :: pre ++ u ++ post)); [discriminate|].
    exact IH.
Qed.

Theorem search_iff (r : regex) (s : str) :
  is_match (search ic r s) = true <->
  exists pre u post, s = pre ++ u ++ post /\ matches ic r u.
Proof.
  split.
  - destruct (search ic r s) as [g|] eqn:E; [|discriminate]. intros _.
    apply search_sound in E as [pre [s' [-> [Hm _]]]].
    apply re_match_sound in Hm as [u [post [-> Hc]]].
    exists pre, u, post. split; [reflexivity | now exists g].
  - intros [pre [u [post [-> H]]]].
    destruct (search ic r (pre ++ u ++ post)) eqn:E; [reflexivity|].
    now apply search_complete in E.
Qed.
End Matcher.

(** ** Step 3: which lines are kept *)

Lemma text_eq_paren (ic : bool) (p : str) :
  text_eq ic (L "(") p = true <-> p = L "(".
Proof.
  split.
  - destruct p as [|b [|c p]]; simpl; try discriminate.
    + rewrite andb_true_r. intros H. f_equal.
      destruct ic; destruct b as [[] [] [] [] [] [] [] []];
        (discriminate || reflexivity).
    + rewrite andb_false_r. discriminate.
  - intros ->. now destruct ic.
Qed.

Lemma consumes_modifier (ic : bool) (m : str) (g g' : caps) :
  consumes ic Steps.modifier m g g' <-> is_modifier ic m = true /\ g' = g.
Proof.
  unfold is_modifier, Steps.modifier. cbn [consumes].
  rewrite !orb_true_iff. tauto.
Qed.

(** The end of both Java patterns: [\w+\s*\(] with the word in a group or
    not. *)
Lemma consumes_blanks_paren (ic : bool) (u : str) (g g' : caps) :
  consumes ic (Seq (Star Space) (Str (L "("))) u g g' <->
  (exists ws, u = ws ++ L "(" /\ forallb is_space ws = true) /\ g' = g.
Proof.
  cbn [consumes]. split.
  - intros [ws [p [g1 [-> [[Hws ->] [Hp ->]]]]]].
    apply text_eq_paren in Hp as ->. split; [now exists ws | reflexivity].
  - intros [[ws [-> Hws]] ->]. exists ws, (L "("), g.
    repeat split; try assumption. now apply text_eq_paren.
Qed.

Lemma consumes_test_decl (u : str) (g' : caps) :
  consumes true Steps.test_decl_re u [] g' ->
  exists m mid name ws,
    u = m ++ mid ++ name ++ ws ++ L "("
    /\ is_modifier true m = true
    /\ forallb (in_class Any) mid = true
    /\ is_test_word name
    /\ forallb is_space ws = true.
Proof.
  unfold Steps.test_decl_re. cbn [consumes].
  intros [m [u1 [g1 [-> [[g0 [Hm ->]] H]]]]].
  apply consumes_modifier in Hm as [Hm ->].
  destruct H as [mid [u2 [g2 [-> [[Hmid ->] H]]]]].
  destruct H as [t [u3 [g3 [-> [[Ht ->] H]]]]].
  destruct H as [wd [u4 [g4 [-> [[Hne [Hwd ->]] H]]]]].
  change (consumes true (Seq (Star Space) (Str (L "("))) u4 [(1, m)] g') in H.
  apply consumes_blanks_paren in H as [[ws [-> Hws]] _].
  exists m, mid, (t ++ wd), ws. rewrite <- !app_assoc.
  repeat split; try assumption. now exists t, wd.
Qed.

Lemma matches_test_decl (m mid name ws : str) :
  is_modifier true m = true ->
  forallb (in_class Any) mid = true ->
  is_test_word name ->
  forallb is_space ws = true ->
  matches true Steps.test_decl_re (m ++ mid ++ name ++ ws ++ L "(").
Proof.
  intros Hm Hmid [t [wd [-> [Ht [Hne Hwd]]]]] Hws.
  exists [(1, m)]. unfold Steps.test_decl_re. cbn [consumes].
  exists m, (mid ++ (t ++ wd) ++ ws ++ L "("), [(1, m)].
  split; [reflexivity|]. split.
  { exists []. split; [|reflexivity]. now apply consumes_modifier. }
  exists mid, ((t ++ wd) ++ ws ++ L "("), [(1, m)].
  repeat split; try assumption.
  exists t, (wd ++ ws ++ L "("), [(1, m)]. rewrite <- app_assoc.
  repeat split; try assumption.
  exists wd, (ws ++ L "("), [(1, m)].
  repeat split; try assumption.
  change (consumes true (Seq (Star Space) (Str (L "("))) (ws ++ L "(")
            [(1, m)] [(1, m)]).
  apply consumes_blanks_paren. split; [now exists ws | reflexivity].
Qed.

Lemma is_test_line_coded (line : str) :
  Steps.is_test_line line = true <-> coded_test_line line.
Proof.
  unfold Steps.is_test_line, coded_test_line, modifier_then_call.
  rewrite orb_true_iff, contains_iff, search_iff. split.
  - intros [[pre [u [post [-> [g' H]]]]] | H]; [left | now right].
    apply consumes_test_decl in H
      as [m [mid [name [ws [-> [Hm [Hmid [Hname Hws]]]]]]]].
    exists pre, m, mid, name, ws, post. rewrite <- !app_assoc. auto.
  - intros [[pre [m [mid [name [ws [post [[-> [Hm [Hmid Hws]]] Hname]]]]]]] | H];
      [left | now right].
    exists pre, (m ++ mid ++ name ++ ws ++ L "("), post.
    rewrite <- !app_assoc. split; [reflexivity|].
    now apply matches_test_decl.
Qed.

Theorem extract_test_methods_spec (test_lines : list str) (line : str) :
  In line (Steps.extract_test_methods test_lines) <->
  In line test_lines /\ coded_test_line line.
Proof.
  unfold Steps.extract_test_methods.
  now rewrite filter_In, is_test_line_coded.
Qed.

(** The two lines of the scenario. *)
Lemma scenario_lines :
  Steps.extract_test_methods
    [L "12: public void testAdd() {"; L "45: // test helper, not a method"]
  = [L "12: public void testAdd() {"].
Proof. reflexivity. Qed.

(** A line the stated rule keeps must have a modifier in lower case or the
    annotation. *)
Lemma claimed_test_line_needs (line : str) :
  claimed_test_line line ->
  contains (L "public") line || contains (L "private") line
  || contains (L "protected") line || contains (L "@Test") line = true.
Proof.
  intros [[pre [m [mid [name [ws [post [[-> [Hm _]] _]]]]]]] | H].
  - unfold is_modifier in Hm. rewrite !orb_true_iff in *.
    assert (Heq : forall p, text_eq false p m = true -> p = m).
    { clear. intros p. revert m. induction p as [|a p IH]; intros [|b m];
        simpl; try discriminate; [reflexivity|].
      rewrite andb_true_iff, Ascii.eqb_eq. intros [-> H]. f_equal. auto. }
    left. destruct Hm as [[Hm|Hm]|Hm]; apply Heq in Hm; subst m.
    + left; left. apply contains_iff. now exists pre, (mid ++ name ++ ws ++ L "(" ++ post).
    + left; right. apply contains_iff. now exists pre, (mid ++ name ++ ws ++ L "(" ++ post).
    + right. apply contains_iff. now exists pre, (mid ++ name ++ ws ++ L "(" ++ post).
  - apply contains_iff in H. rewrite H. now rewrite !orb_true_r.
Qed.

(** C1, as amended: [extract_test_methods] keeps a line exactly when, letter
    case apart, an access modifier is followed on the same line by [test],
    at least one more word character, optional blanks and an opening
    parenthesis, or when the line has the text [@Test] in exactly that
    letter case.  The line [12: public void testAdd() {] is kept and the
    line [45: // test helper, not a method] is not. *)
Theorem java_acceptance_rule :
  (forall line : str, Steps.is_test_line line = true <-> coded_test_line line)
  /\ Steps.is_test_line (L "12: public void testAdd() {") = true
  /\ Steps.is_test_line (L "45: // test helper, not a method") = false.
Proof.
  split; [exact is_test_line_coded | split; reflexivity].
Qed.

(** C1, as stated, fails: a modifier in upper case is accepted by the code,
    although the stated rule compares the modifier exactly. *)
Lemma upper_case_modifier_accepted :
  Steps.is_test_line (L "12: PUBLIC void testAdd() {") = true
  /\ ~ claimed_test_line (L "12: PUBLIC void testAdd() {").
Proof.
  split; [reflexivity|].
  intros H. apply claimed_test_line_needs in H. discriminate H.
Qed.

(** ** Name derivation (lesson_6.py l.71-82) *)

Section Backtracking.
Variable ic : bool.

Lemma bt_Seq (r1 r2 : regex) (s : str) (g : caps)
    (k : str -> caps -> option caps) :
  bt ic (Seq r1 r2) s g k = bt ic r1 s g (fun s' g' => bt ic r2 s' g' k).
Proof. reflexivity. Qed.

(** With nothing to fail after it, the greedy repetition takes the
    longest run. *)
Lemma star_greedy_longest (A : Type) (f : ascii -> bool)
    (k : str -> option A) (s : str) (x : A) :
  (forall s', k s' <> None) ->
  star_greedy f s k = Some x ->
  exists u s',
    s = u ++ s' /\ forallb f u = true /\ k s' = Some x
    /\ match s' with [] => True | b :: _ => f b = false end.
Proof.
  intros Hk. induction s as [|a s IH]; simpl.
  - intros H. now exists [], [].
  - destruct (f a) eqn:Fa.
    + destruct (star_greedy f s k) as [y|] eqn:E.
      * intros [= ->]. destruct (IH eq_refl) as [u [s' [-> [Hu [Hx Hs']]]]].
        exists (a :: u), s'. simpl. now rewrite Fa, Hu.
      * exfalso. now apply (star_greedy_complete f k [] s eq_refl (Hk s)).
    + intros H. exists [], (a :: s). auto.
Qed.

Lemma bt_lazy_then (c : cclass) (r : regex) (s : str) (g : caps)
    (k : str -> caps -> option caps) (x : caps) :
  bt ic (Seq (StarLazy c) r) s g k = Some x ->
  exists u s',
    s = u ++ s' /\ forallb (in_class c) u = true
    /\ bt ic r s' g k = Some x
    /\ forall u1 u2, u = u1 ++ u2 -> u2 <> [] ->
                     bt ic r (u2 ++ s') g k = None.
Proof.
  change (bt ic (Seq (StarLazy c) r) s g k)
    with (star_lazy (in_class c) s (fun s' => bt ic r s' g k)).
  apply star_lazy_sound.
Qed.
End Backtracking.

Lemma consumes_call_head (ic : bool) (u : str) (g g' : caps) :
  consumes ic Lesson6.call_head_re u g g' <->
  exists name ws,
    u = name ++ ws ++ L "(" /\ name <> [] /\ forallb is_word name = true
    /\ forallb is_space ws = true /\ g' = (2, name) :: g.
Proof.
  unfold Lesson6.call_head_re.
  change (consumes ic (Seq (Group 2 (Plus Word)) (Seq (Star Space) (Str (L "(")))) u g g')
    with (exists u1 u2 g1, u = u1 ++ u2
            /\ (exists g0, (u1 <> [] /\ forallb is_word u1 = true /\ g0 = g)
                           /\ g1 = (2, u1) :: g0)
            /\ consumes ic (Seq (Star Space) (Str (L "("))) u2 g1 g').
  split.
  - intros [name [u2 [g1 [-> [[g0 [[Hne [Hw ->]] ->]] H]]]]].
    apply consumes_blanks_paren in H as [[ws [-> Hws]] ->].
    now exists name, ws.
  - intros [name [ws [-> [Hne [Hw [Hws ->]]]]]].
    exists name, (ws ++ L "("), ((2, name) :: g). split; [reflexivity|]. split.
    + now exists g.
    + apply consumes_blanks_paren. split; [now exists ws | reflexivity].
Qed.

Lemma call_at_matches (s name : str) :
  call_at s name ->
  exists u post, s = u ++ post /\ matches false Lesson6.call_head_re u.
Proof.
  intros [ws [post [-> [Hne [Hw Hws]]]]].
  exists (name ++ ws ++ L "("), post. rewrite <- !app_assoc.
  split; [reflexivity|]. exists [(2, name)].
  apply consumes_call_head. now exists name, ws.
Qed.

Lemma matches_annotated (m mid rest name : str) :
  is_modifier false m = true ->
  forallb (in_class Any) mid = true ->
  call_at rest name ->
  exists u post,
    m ++ mid ++ rest = u ++ post
    /\ matches false Lesson6.annotated_name_re u.
Proof.
  intros Hm Hmid Hcall.
  destruct (call_at_matches Hcall) as [u [post [-> [g Hu]]]].
  exists (m ++ mid ++ u), post. rewrite <- !app_assoc.
  split; [reflexivity|].
  destruct (consumes_any _ _ _ _ _ Hu [(1, m)]) as [h Hh].
  exists h. unfold Lesson6.annotated_name_re.
  change (exists u1 u2 g1, m ++ mid ++ u = u1 ++ u2
            /\ (exists g0, consumes false Steps.modifier u1 [] g0
                           /\ g1 = (1, u1) :: g0)
            /\ (exists v1 v2 g2, u2 = v1 ++ v2
                  /\ (forallb (in_class Any) v1 = true /\ g2 = g1)
                  /\ consumes false Lesson6.call_head_re v2 g2 h)).
  exists m, (mid ++ u), [(1, m)]. split; [reflexivity|]. split.
  - exists []. split; [|reflexivity]. now apply consumes_modifier.
  - exists mid, u, [(1, m)]. auto.
Qed.

Lemma decl_at_match (s : str) :
  decl_at s -> re_match false Lesson6.annotated_name_re s <> None.
Proof.
  intros [m [mid [rest [name [-> [Hm [Hmid Hcall]]]]]]].
  destruct (matches_annotated _ _ Hm Hmid Hcall) as [u [post [-> Hu]]].
  now apply re_match_complete.
Qed.

(** A match of the annotated pattern at the head of [s], read off. *)
Lemma annotated_match (s : str) (g : caps) :
  re_match false Lesson6.annotated_name_re s = Some g ->
  exists m mid rest name,
    s = m ++ mid ++ rest /\ is_modifier false m = true
    /\ forallb (in_class Any) mid = true /\ call_at rest name
    /\ group 2 g = Some name
    /\ forall m1 m2 n, mid = m1 ++ m2 -> m2 <> [] -> ~ call_at (m2 ++ rest) n.
Proof.
  unfold re_match, Lesson6.annotated_name_re. rewrite bt_Seq. intros H.
  apply bt_sound in H as [m [s1 [g1 [-> [[g0 [Hm ->]] H]]]]].
  apply consumes_modifier in Hm as [Hm ->].
  apply bt_lazy_then in H as [mid [rest [-> [Hmid [H Hmin]]]]].
  apply bt_sound in H as [u [post [g2 [-> [Hu [= <-]]]]]].
  apply consumes_call_head in Hu as [name [ws [-> [Hne [Hw [Hws ->]]]]]].
  exists m, mid, ((name ++ ws ++ L "(") ++ post), name.
  repeat split; try assumption.
  - exists ws, post. rewrite <- !app_assoc. auto.
  - intros m1 m2 n H1 H2 Hcall.
    apply call_at_matches in Hcall as [u [post' [E Hu]]].
    specialize (Hmin m1 m2 H1 H2). rewrite E in Hmin. revert Hmin.
    apply bt_complete; [assumption | discriminate].
Qed.

Lemma consumes_test_name (u : str) (g g' : caps) :
  consumes true Lesson6.test_name_re u g g' <->
  is_test_word u /\ g' = (1, u) :: g.
Proof.
  unfold Lesson6.test_name_re, is_test_word.
  change (consumes true (Group 1 (Seq (Str (L "test")) (Plus Word))) u g g')
    with (exists g1,
            (exists u1 u2 g2, u = u1 ++ u2
               /\ (text_eq true (L "test") u1 = true /\ g2 = g)
               /\ (u2 <> [] /\ forallb is_word u2 = true /\ g1 = g2))
            /\ g' = (1, u) :: g1).
  split.
  - intros [g1 [[t [wd [g2 [-> [[Ht ->] [Hne [Hw ->]]]]]]] ->]].
    split; [now exists t, wd | reflexivity].
  - intros [[t [wd [-> [Ht [Hne Hw]]]]] ->].
    exists g. split; [|reflexivity]. now exists t, wd, g.
Qed.

Lemma test_word_at_match (s : str) :
  test_word_at s -> re_match true Lesson6.test_name_re s <> None.
Proof.
  intros [name [post [-> H]]]. apply re_match_complete.
  exists [(1, name)]. now apply consumes_test_name.
Qed.

(** A match of [(test\w+)] at the head of [s], read off. *)
Lemma test_name_match (s : str) (g : caps) :
  re_match true Lesson6.test_name_re s = Some g ->
  exists name post,
    s = name ++ post /\ is_test_word name /\ group 1 g = Some name
    /\ match post with [] => True | b :: _ => is_word b = false end.
Proof.
  unfold re_match, Lesson6.test_name_re.
  change (bt true (Group 1 (Seq (Str (L "test")) (Plus Word))) s []
            (fun _ g0 => Some g0))
    with (bt true (Str (L "test")) s []
            (fun s1 g1 =>
               bt true (Plus Word) s1 g1
                 (fun s2 g2 =>
                    Some ((1, firstn (length s - length s2) s) :: g2)))).
  intros H.
  apply bt_sound in H as [t [s1 [g1 [-> [[Ht ->] H]]]]].
  destruct s1 as [|a s1]; [discriminate|].
  change (bt true (Plus Word) (a :: s1) [] _)
    with (if is_word a
          then star_greedy is_word s1
                 (fun s2 =>
                    Some [(1, firstn (length (t ++ a :: s1) - length s2)
                                (t ++ a :: s1))])
          else None) in H.
  destruct (is_word a) eqn:Wa; [|discriminate].
  apply star_greedy_longest in H as [wd [post [-> [Hwd [[= <-] Hpost]]]]];
    [|discriminate].
  replace (t ++ a :: wd ++ post) with ((t ++ a :: wd) ++ post)
    by now rewrite <- app_assoc.
  rewrite firstn_consumed.
  exists (t ++ a :: wd), post. repeat split; try assumption.
  - exists t, (a :: wd). repeat split; try assumption; [discriminate|].
    simpl. now rewrite Wa.
Qed.

Lemma method_name_of_derived (c : str) :
  derived_name c (Lesson6.method_name_of c).
Proof.
  unfold derived_name, Lesson6.method_name_of.
  destruct (contains (L "@Test") c) eqn:E.
  - left. split; [now apply contains_iff|].
    destruct (search false Lesson6.annotated_name_re c) as [g|] eqn:S.
    + left. apply search_sound in S as [pre [s' [-> [Hm Hleft]]]].
      apply annotated_match in Hm
        as [m [mid [rest [name [-> [Hm [Hmid [Hcall [Hg Hmin]]]]]]]]].
      unfold Lesson6.group_text. rewrite Hg.
      exists pre, m, mid, rest. repeat split; try assumption.
      intros p1 p2 H1 H2 Hd. apply decl_at_match in Hd.
      now rewrite (Hleft p1 p2 H1 H2) in Hd.
    + right. split; [|reflexivity].
      intros pre s -> [m [mid [rest [name [-> [Hm [Hmid Hcall]]]]]]].
      destruct (matches_annotated _ _ Hm Hmid Hcall) as [u [post [Eq Hu]]].
      rewrite Eq in S. now apply search_complete in S.
  - right. split.
    { intros H. apply contains_iff in H. congruence. }
    destruct (search true Lesson6.test_name_re c) as [g|] eqn:S.
    + left. apply search_sound in S as [pre [s' [-> [Hm Hleft]]]].
      apply test_name_match in Hm as [name [post [-> [Hname [Hg Hpost]]]]].
      unfold Lesson6.group_text. rewrite Hg.
      exists pre, post. repeat split; try assumption.
      intros p1 p2 H1 H2 Hd. apply test_word_at_match in Hd.
      now rewrite (Hleft p1 p2 H1 H2) in Hd.
    + right. split; [|reflexivity].
      intros pre s -> [name [post [-> Hname]]].
      revert S. apply search_complete.
      exists [(1, name)]. now apply consumes_test_name.
Qed.

(** *** The derived name is determined *)

Lemma leftmost_unique (P : str -> Prop) (pre1 s1 pre2 s2 : str) :
  pre1 ++ s1 = pre2 ++ s2 -> P s1 -> P s2 ->
  (forall p1 p2, pre1 = p1 ++ p2 -> p2 <> [] -> ~ P (p2 ++ s1)) ->
  (forall p1 p2, pre2 = p1 ++ p2 -> p2 <> [] -> ~ P (p2 ++ s2)) ->
  pre1 = pre2 /\ s1 = s2.
Proof.
  intros E H1 H2 L1 L2.
  apply app_eq_app in E as [d [[-> ->]|[-> ->]]].
  - destruct d as [|x d].
    + now rewrite app_nil_r.
    + elim (L1 pre2 (x :: d) eq_refl); [discriminate | assumption].
  - destruct d as [|x d].
    + now rewrite app_nil_r.
    + elim (L2 pre1 (x :: d) eq_refl); [discriminate | assumption].
Qed.

Lemma text_eq_exact (p u : str) : text_eq false p u = true -> u = p.
Proof.
  revert u. induction p as [|a p IH]; intros [|b u]; simpl;
    try discriminate; [reflexivity|].
  rewrite andb_true_iff, Ascii.eqb_eq. intros [-> H]. f_equal. auto.
Qed.

Lemma is_modifier_exact (m : str) :
  is_modifier false m = true ->
  m = L "public" \/ m = L "private" \/ m = L "protected".
Proof.
  unfold is_modifier. rewrite !orb_true_iff.
  intros [[H|H]|H]; apply text_eq_exact in H; auto.
Qed.

Lemma modifier_prefix_unique (m1 m2 s1 s2 : str) :
  is_modifier false m1 = true -> is_modifier false m2 = true ->
  m1 ++ s1 = m2 ++ s2 -> m1 = m2 /\ s1 = s2.
Proof.
  intros H1 H2 E.
  assert (m1 = m2) as ->.
  { apply is_modifier_exact in H1 as [-> | [-> | ->]];
      apply is_modifier_exact in H2 as [-> | [-> | ->]];
      try reflexivity; simpl in E; discriminate E. }
  split; [reflexivity|]. now apply app_inv_head in E.
Qed.

Lemma space_is_no_word (c : ascii) : is_space c = true -> is_word c = false.
Proof.
  destruct c as [[] [] [] [] [] [] [] []]; (discriminate || reflexivity).
Qed.

Lemma leading_word_run (name rest : str) :
  forallb is_word name = true ->
  match rest with [] => True | c :: _ => is_word c = false end ->
  leading_word (name ++ rest) = name.
Proof.
  intros Hname Hrest. induction name as [|a name IH]; simpl in *.
  - destruct rest as [|c rest]; simpl; [reflexivity | now rewrite Hrest].
  - apply andb_true_iff in Hname as [-> Hname]. now rewrite IH.
Qed.

Lemma call_at_leading_word (s name : str) :
  call_at s name -> name = leading_word s.
Proof.
  intros [ws [post [-> [_ [Hname Hws]]]]]. symmetry.
  apply leading_word_run; [assumption|].
  destruct ws as [|c ws]; simpl in *; [reflexivity|].
  apply andb_true_iff in Hws as [Hc _]. now apply space_is_no_word.
Qed.

Lemma folded_letter_is_word (c a : ascii) :
  In c (L "test") -> chr_eq true c a = true -> is_word a = true.
Proof.
  simpl. intros [<- | [<- | [<- | [<- | []]]]];
    destruct a as [[] [] [] [] [] [] [] []]; (discriminate || reflexivity).
Qed.

Lemma text_eq_cons (ic : bool) (a : ascii) (p u : str) :
  text_eq ic (a :: p) u = true ->
  exists b u', u = b :: u' /\ chr_eq ic a b = true /\ text_eq ic p u' = true.
Proof.
  destruct u as [|b u']; cbn [text_eq]; [discriminate|].
  rewrite andb_true_iff. intros [Hb Hu]. now exists b, u'.
Qed.

Lemma test_word_is_word (name : str) :
  is_test_word name -> forallb is_word name = true.
Proof.
  intros [t [wd [-> [Ht [_ Hwd]]]]]. rewrite forallb_app, Hwd, andb_true_r.
  change (L "test") with ["t"; "e"; "s"; "t"]%char in Ht.
  apply text_eq_cons in Ht as [a [t1 [-> [Ha Ht]]]].
  apply text_eq_cons in Ht as [b [t2 [-> [Hb Ht]]]].
  apply text_eq_cons in Ht as [c [t3 [-> [Hc Ht]]]].
  apply text_eq_cons in Ht as [d [t4 [-> [Hd Ht]]]].
  destruct t4; [|discriminate]. cbn [forallb].
  rewrite (@folded_letter_is_word "t" a), (@folded_letter_is_word "e" b),
    (@folded_letter_is_word "s" c), (@folded_letter_is_word "t" d);
    simpl; auto 6.
Qed.

Lemma annotated_name_unique (c n1 n2 : str) :
  annotated_name c n1 -> annotated_name c n2 -> n1 = n2.
Proof.
  intros [pre1 [m1 [mid1 [rest1 [E1 [Hm1 [Hmid1 [Hcall1 [Hleft1 Hmin1]]]]]]]]]
         [pre2 [m2 [mid2 [rest2 [E2 [Hm2 [Hmid2 [Hcall2 [Hleft2 Hmin2]]]]]]]]].
  assert (Hd1 : decl_at (m1 ++ mid1 ++ rest1)) by now exists m1, mid1, rest1, n1.
  assert (Hd2 : decl_at (m2 ++ mid2 ++ rest2)) by now exists m2, mid2, rest2, n2.
  rewrite E1 in E2.
  destruct (@leftmost_unique decl_at _ _ _ _ E2 Hd1 Hd2 Hleft1 Hleft2)
    as [_ E].
  apply modifier_prefix_unique in E as [_ E]; try assumption.
  destruct (@leftmost_unique (fun s => exists n, call_at s n) _ _ _ _ E)
    as [_ Erest]; eauto.
  - intros p1 p2 H1 H2 [n Hn]. now apply (Hmin1 p1 p2 n).
  - intros p1 p2 H1 H2 [n Hn]. now apply (Hmin2 p1 p2 n).
  - subst rest2.
    now rewrite (call_at_leading_word Hcall1), (call_at_leading_word Hcall2).
Qed.

Lemma first_test_word_unique (c n1 n2 : str) :
  first_test_word c n1 -> first_test_word c n2 -> n1 = n2.
Proof.
  intros [pre1 [post1 [E1 [Hn1 [Hpost1 Hleft1]]]]]
         [pre2 [post2 [E2 [Hn2 [Hpost2 Hleft2]]]]].
  rewrite E1 in E2.
  destruct (@leftmost_unique test_word_at _ _ _ _ E2) as [_ E];
    try assumption; try (eexists; eexists; split; [reflexivity | assumption]).
  rewrite <- (@leading_word_run n1 post1 (test_word_is_word Hn1) Hpost1).
  rewrite <- (@leading_word_run n2 post2 (test_word_is_word Hn2) Hpost2).
  now rewrite E.
Qed.

Lemma derived_name_unique (c n1 n2 : str) :
  derived_name c n1 -> derived_name c n2 -> n1 = n2.
Proof.
  intros [[Ho1 H1]|[Ho1 H1]] [[Ho2 H2]|[Ho2 H2]]; try contradiction.
  - destruct H1 as [H1|[Hno1 ->]], H2 as [H2|[Hno2 ->]].
    + exact (annotated_name_unique H1 H2).
    + destruct H1 as [pre [m [mid [rest [E [Hm [Hmid [Hcall _]]]]]]]].
      elim (Hno2 pre _ E). now exists m, mid, rest, n1.
    + destruct H2 as [pre [m [mid [rest [E [Hm [Hmid [Hcall _]]]]]]]].
      elim (Hno1 pre _ E). now exists m, mid, rest, n2.
    + reflexivity.
  - destruct H1 as [H1|[Hno1 ->]], H2 as [H2|[Hno2 ->]].
    + exact (first_test_word_unique H1 H2).
    + destruct H1 as [pre [post [E [Hn _]]]].
      elim (Hno2 pre _ E). now exists n1, post.
    + destruct H2 as [pre [post [E [Hn _]]]].
      elim (Hno1 pre _ E). now exists n2, post.
    + reflexivity.
Qed.

(** C7, as amended: name derivation is total and goes by cases.  On a text
    with [@Test], the name is the identifier of the first call head (word
    characters, optional blanks, opening parenthesis) that follows the
    first exactly spelled access modifier followed by one on the same line,
    and [Unknown] when no modifier is followed by a call head.  On a text
    without [@Test], the name is the leftmost [test] (any letter case) with
    at least one more word character, taken up to the last word character
    that follows, and [Unknown] when there is none.  These cases leave no
    choice: the derived name is the only one that fits them. *)
Theorem name_derivation_cases :
  forall method_content : str,
    derived_name method_content (Lesson6.method_name_of method_content)
    /\ forall name,
        derived_name method_content name ->
        name = Lesson6.method_name_of method_content.
Proof.
  intros c. split; [apply method_name_of_derived|].
  intros name H. exact (derived_name_unique H (method_name_of_derived c)).
Qed.

(** C7, as stated, fails: an annotated line without access modifier is a
    candidate, an identifier stands right before its parenthesis, and the
    derived name is the sentinel. *)
Lemma annotated_without_modifier_unknown :
  Steps.is_test_line (L "7:@Test void testAdd() {") = true
  /\ split1 colon (L "7:@Test void testAdd() {")
     = [L "7"; L "@Test void testAdd() {"]
  /\ contains (L "@Test") (L "@Test void testAdd() {") = true
  /\ word_before_paren (L "@Test void testAdd() {") = Some (L "testAdd")
  /\ Lesson6.method_name_of (L "@Test void testAdd() {") = L "Unknown"
  /\ Lesson6.method_name_of (L "@Test void testAdd() {") <> L "testAdd".
Proof. repeat split; discriminate. Qed.

(** ** The window of lines read for a method (l.47-54 and l.84-91) *)

Lemma slice_from (A : Type) (l : list A) (a : Z) :
  (0 <= a)%Z ->
  slice l a (a + 20) = firstn 20 (skipn (Z.to_nat a) l).
Proof.
  intros Ha. unfold slice, slice_index.
  destruct (Z.ltb_spec a 0) as [H|_]; [lia|].
  destruct (Z.ltb_spec (a + 20) 0) as [H|_]; [lia|].
  set (n := length l).
  destruct (Z.le_gt_cases a (Z.of_nat n)) as [Hle|Hgt].
  - rewrite (Z.min_l a) by assumption.
    destruct (Z.le_gt_cases (a + 20) (Z.of_nat n)) as [Hle2|Hgt2].
    + rewrite Z.min_l by assumption. f_equal. lia.
    + rewrite Z.min_r by lia.
      assert (Hlen : length (skipn (Z.to_nat a) l) = Z.to_nat (Z.of_nat n - a)).
      { rewrite length_skipn. fold n. lia. }
      rewrite <- Hlen, firstn_all. symmetry. apply firstn_all2. lia.
  - rewrite !Z.min_r by lia. rewrite Z.sub_diag.
    change (Z.to_nat 0) with 0. rewrite firstn_O.
    rewrite (skipn_all2 l) by (fold n; lia). reflexivity.
Qed.

Lemma skipn_to_last (A : Type) (l : list A) (d : A) :
  l <> [] -> skipn (length l - 1) l = [last l d].
Proof.
  intros Hne. rewrite (app_removelast_last d Hne) at 1 2.
  rewrite length_app. simpl. rewrite Nat.add_sub, skipn_app.
  rewrite skipn_all, Nat.sub_diag. reflexivity.
Qed.

Section Window.
Variable w : World.

Lemma read_method_body_readable (file_path text content : str) (line_num : Z) :
  open_read w file_path = Ok text ->
  Steps.read_method_body w file_path line_num content
  = Ok (concat (slice (readlines text) (line_num - 1) (line_num - 1 + 20))).
Proof.
  intros H. unfold Steps.read_method_body. now rewrite H.
Qed.

Lemma read_method_body_unreadable (file_path content : str) (line_num : Z)
    (e : exn) :
  open_read w file_path = Raise e ->
  is_IOError_or_IndexError (exn_kind e) = true ->
  Steps.read_method_body w file_path line_num content = Ok content.
Proof.
  intros H He. unfold Steps.read_method_body. rewrite H. simpl.
  now rewrite He.
Qed.

(** Past the last line the slice is empty, and so is the body: the
    [except] clause is not reached. *)
Lemma read_method_body_past_end (file_path text content : str)
    (line_num : Z) :
  open_read w file_path = Ok text ->
  (Z.of_nat (length (readlines text)) < line_num)%Z ->
  Steps.read_method_body w file_path line_num content = Ok [].
Proof.
  intros H Hn. rewrite (read_method_body_readable _ _ _ H).
  rewrite slice_from by lia.
  rewrite skipn_all2 by lia. now rewrite firstn_nil.
Qed.

(** C5: for a readable file and a line number within the file, the body
    is the concatenation of the (at most twenty) lines from that line on,
    as they stand in the file, line breaks included; near the end of the
    file there are fewer lines and nothing is added, and from the last
    line the body is that line alone. *)
Theorem window_in_range (file_path text content : str) (line_num : Z) :
  open_read w file_path = Ok text ->
  (1 <= line_num <= Z.of_nat (length (readlines text)))%Z ->
  let lines := readlines text in
  let k := Z.to_nat (line_num - 1) in
  let window := firstn 20 (skipn k lines) in
  Steps.read_method_body w file_path line_num content = Ok (concat window)
  /\ text = concat (firstn k lines) ++ concat window
            ++ concat (skipn 20 (skipn k lines))
  /\ length window = Nat.min 20 (length lines - k)
  /\ nth_error window 0 = nth_error lines k
  /\ (line_num = Z.of_nat (length lines) ->
      Steps.read_method_body w file_path line_num content
      = Ok (last lines [])).
Proof.
  intros H Hn lines k window.
  assert (Hbody : Steps.read_method_body w file_path line_num content
                  = Ok (concat window)).
  { rewrite (read_method_body_readable _ _ _ H).
    now rewrite slice_from by lia. }
  split; [exact Hbody|]. split; [|split; [|split]].
  - rewrite <- !concat_app. unfold window.
    rewrite (firstn_skipn 20), (firstn_skipn k). symmetry.
    apply concat_readlines.
  - unfold window. now rewrite length_firstn, length_skipn.
  - unfold window. destruct (skipn k lines) as [|x rest] eqn:E.
    + assert (Hl : length (skipn k lines) = 0) by now rewrite E.
      rewrite length_skipn in Hl. unfold lines, k in Hl. lia.
    + simpl. rewrite <- (firstn_skipn k lines) at 1. rewrite E.
      rewrite nth_error_app2; rewrite length_firstn; [|lia].
      replace (k - Nat.min k (length lines)) with 0 by (unfold k, lines; lia).
      reflexivity.
  - intros Hlast. rewrite Hbody. f_equal. unfold window.
    assert (Hne : lines <> []).
    { intros E. unfold lines in E. rewrite E in Hn. simpl in Hn. lia. }
    assert (Hk : k = length lines - 1) by (subst k; rewrite Hlast; lia).
    rewrite Hk, (skipn_to_last [] Hne).
    change (firstn 20 [last lines []]) with [last lines []].
    simpl. apply app_nil_r.
Qed.
End Window.

Lemma window_in_range_last_line :
  open_read Sample.world (L "/r/T.java") = Ok Sample.t_java
  /\ (1 <= 7 <= Z.of_nat (length (readlines Sample.t_java)))%Z
  /\ Steps.read_method_body Sample.world (L "/r/T.java") 7 (L "raw")
     = Ok (L "}" ++ [nl]).
Proof.
  split; [reflexivity|]. split; [vm_compute; split; discriminate|].
  apply (window_in_range Sample.world (L "/r/T.java") (text := Sample.t_java)
           (L "raw") (line_num := 7)).
  - reflexivity.
  - vm_compute. split; discriminate.
  - reflexivity.
Defined.

(** C4: what the code does for a line number outside the file.  The file
    [/r/T.java] of the sample has seven lines: from line 9 the body is
    empty, and from line 0 it is the last line of the file; neither is the
    matched text. *)
Theorem out_of_range_body_is_not_the_matched_text :
  Steps.read_method_body Sample.world (L "/r/T.java") 9
    (L "  public void testAdd() {") = Ok []
  /\ Steps.read_method_body Sample.world (L "/r/T.java") 0
       (L "  public void testAdd() {") = Ok (L "}" ++ [nl]).
Proof. split; reflexivity. Qed.

(** ** Step 4 of lesson 6, candidate by candidate *)

Section Analysis.
Variable w : World.
Variable ag : Agent.

Lemma read_method_body_total (file content : str) (n : Z) :
  benign_reads w ->
  exists body, Steps.read_method_body w file n content = Ok body.
Proof.
  intros Hw. unfold Steps.read_method_body.
  destruct (open_read w file) as [text|e] eqn:E; simpl.
  - eauto.
  - rewrite (Hw _ _ E). eauto.
Qed.

Lemma analyze_unparsed (line file : str) (st : agent_state ag) :
  parse_line line = None ->
  Lesson6.analyze_test_with_agent w ag line file st
  = Ok (entry_for file line [], st).
Proof.
  unfold entry_for. intros H. rewrite H. revert H.
  unfold parse_line, Lesson6.analyze_test_with_agent.
  destruct (negb (contains [colon] line)); [reflexivity|].
  destruct (split1 colon line) as [|a [|b rest]]; (discriminate || reflexivity).
Qed.

Lemma analyze_parsed (line file content : str) (n : Z) (st : agent_state ag) :
  parse_line line = Some (n, content) ->
  Lesson6.analyze_test_with_agent w ag line file st
  = match Steps.read_method_body w file n content with
    | Ok body =>
        match
          ask ag st (Lesson6.prompt (Lesson6.method_name_of content) body)
        with
        | (Ok answer, st') => Ok (entry_for file line answer, st')
        | (Raise e, st') =>
            if is_Exception (exn_kind e)
            then Ok (entry_for file line (purpose_of (Raise e)), st')
            else Raise e
        end
    | Raise e => Raise e
    end.
Proof.
  unfold entry_for. intros H. rewrite H. revert H.
  unfold parse_line, Lesson6.analyze_test_with_agent.
  destruct (negb (contains [colon] line)); [discriminate|].
  destruct (split1 colon line) as [|a [|b rest]]; try discriminate.
  intros [= <- <-]. unfold bind, lift, ask_or, ret.
  destruct (Steps.read_method_body w file _ b) as [body|e]; [|reflexivity].
  destruct (ask ag st _) as [[answer|e] st']; [reflexivity|].
  now destruct (is_Exception (exn_kind e)).
Qed.

Lemma analyze_entry (line file : str) (st st' : agent_state ag)
    (tm : Lesson6.TestMethod) :
  Lesson6.analyze_test_with_agent w ag line file st = Ok (tm, st') ->
  is_entry_for file line tm.
Proof.
  unfold is_entry_for.
  destruct (parse_line line) as [[n content]|] eqn:P.
  - rewrite (analyze_parsed line file st P).
    destruct (Steps.read_method_body w file n content) as [body|e];
      [|discriminate].
    destruct (ask ag st _) as [[answer|e] st1].
    + intros [= <- _]. eauto.
    + destruct (is_Exception (exn_kind e)); [|discriminate].
      intros [= <- _]. eauto.
  - rewrite (analyze_unparsed line file st P). intros [= <- _]. eauto.
Qed.

Lemma analyze_total (line file : str) (st : agent_state ag) :
  benign_reads w -> raises_exceptions ag ->
  exists tm st', Lesson6.analyze_test_with_agent w ag line file st = Ok (tm, st').
Proof.
  intros Hw Hag. destruct (parse_line line) as [[n content]|] eqn:P.
  - rewrite (analyze_parsed line file st P).
    destruct (read_method_body_total file content n Hw) as [body ->].
    destruct (ask ag st _) as [[answer|e] st1] eqn:A; [eauto|].
    rewrite (Hag _ _ _ _ A). eauto.
  - rewrite (analyze_unparsed line file st P). eauto.
Qed.

Lemma analyze_methods_entries (file : str) (lines : list str) :
  forall (acc : list Lesson6.TestMethod) (st st' : agent_state ag)
         (res : list Lesson6.TestMethod),
    Lesson6.analyze_methods w ag file lines acc st = Ok (res, st') ->
    exists new, res = acc ++ new /\ Forall2 (is_entry_for file) lines new.
Proof.
  induction lines as [|line lines IH]; intros acc st st' res; simpl.
  - intros [= <- _]. exists []. now rewrite app_nil_r.
  - unfold bind at 1.
    destruct (Lesson6.analyze_test_with_agent w ag line file st)
      as [[tm st1]|e] eqn:A; [|discriminate].
    intros H. apply IH in H as [new [-> Hnew]].
    exists (tm :: new). rewrite <- app_assoc. split; [reflexivity|].
    constructor; [|assumption]. now apply analyze_entry in A.
Qed.

Lemma analyze_methods_total (file : str) (lines : list str) :
  benign_reads w -> raises_exceptions ag ->
  forall (acc : list Lesson6.TestMethod) (st : agent_state ag),
  exists res st', Lesson6.analyze_methods w ag file lines acc st = Ok (res, st').
Proof.
  intros Hw Hag. induction lines as [|line lines IH]; intros acc st; simpl.
  - unfold ret. eauto.
  - unfold bind at 1.
    destruct (analyze_total line file st Hw Hag) as [tm [st1 ->]]. apply IH.
Qed.
End Analysis.

(** ** The loop over the files of lesson 6 *)

Lemma sum_app (xs ys : list Z) : (sum (xs ++ ys) = sum xs + sum ys)%Z.
Proof.
  unfold sum. induction xs as [|x xs IH]; simpl; [reflexivity|].
  rewrite IH. apply Z.add_assoc.
Qed.

Lemma filter_length_le (A : Type) (f g : A -> bool) (l : list A) :
  (forall x, f x = true -> g x = true) ->
  length (filter f l) <= length (filter g l).
Proof.
  intros Hfg. induction l as [|x l IH]; simpl; [lia|].
  destruct (f x) eqn:Fx.
  - rewrite (Hfg _ Fx). simpl. lia.
  - destruct (g x); simpl; lia.
Qed.

Section Scan.
Variable w : World.
Variable ag : Agent.

Lemma scan_cons (file : str) (rest : list str)
    (fas : list Lesson6.FileAnalysis) (total : Z) (st : agent_state ag) :
  Lesson6.scan w ag (file :: rest) fas total st
  = if negb (path_exists w file) then Lesson6.scan w ag rest fas total st
    else
      match Steps.find_test_lines w file with
      | Ok test_lines =>
          if Steps.no_test_lines test_lines
          then Lesson6.scan w ag rest fas total st
          else
            match Steps.extract_test_methods test_lines with
            | [] => Lesson6.scan w ag rest fas total st
            | method_lines =>
                match
                  Lesson6.analyze_methods w ag file (firstn 3 method_lines)
                    [] st
                with
                | Ok (analyzed, st1) =>
                    Lesson6.scan w ag rest
                      (fas ++ [Lesson6.mkFileAnalysis file analyzed
                                 (Lesson6.len analyzed)])
                      (total + Lesson6.len analyzed)%Z st1
                | Raise e => Raise e
                end
            end
      | Raise e => Raise e
      end.
Proof.
  cbn [Lesson6.scan]. destruct (negb (path_exists w file)); [reflexivity|].
  unfold bind at 1, lift.
  destruct (Steps.find_test_lines w file) as [test_lines|e]; [|reflexivity].
  destruct (Steps.no_test_lines test_lines); [reflexivity|].
  destruct (Steps.extract_test_methods test_lines) as [|l ls]; reflexivity.
Qed.

Lemma scan_spec (files : list str) :
  forall (fas fas' : list Lesson6.FileAnalysis) (total total' : Z)
         (st st' : agent_state ag),
    Lesson6.scan w ag files fas total st = Ok ((fas', total'), st') ->
    exists new,
      fas' = fas ++ new
      /\ (total' = total + sum (map Lesson6.total_tests new))%Z
      /\ Forall2 (analysis_of w) (filter (has_candidates w) files) new.
Proof.
  induction files as [|file rest IH]; intros fas fas' total total' st st'.
  - intros [= <- <- _]. exists []. rewrite app_nil_r. simpl.
    repeat split; [lia | constructor].
  - rewrite scan_cons. cbn [filter].
    destruct (path_exists w file) eqn:PE; simpl negb; cbv iota.
    2:{ replace (has_candidates w file) with false
          by (unfold has_candidates; now rewrite PE).
        apply IH. }
    destruct (Steps.find_test_lines w file) as [test_lines|e] eqn:F;
      [|discriminate].
    destruct (Steps.no_test_lines test_lines) eqn:N.
    { replace (has_candidates w file) with false
        by (unfold has_candidates, candidates; now rewrite PE, F, N).
      apply IH. }
    destruct (Steps.extract_test_methods test_lines) as [|l ls] eqn:X.
    { replace (has_candidates w file) with false
        by (unfold has_candidates, candidates; now rewrite PE, F, N, X).
      apply IH. }
    replace (has_candidates w file) with true
      by (unfold has_candidates, candidates; now rewrite PE, F, N, X).
    destruct (Lesson6.analyze_methods w ag file (firstn 3 (l :: ls)) [] st)
      as [[analyzed st1]|e] eqn:A; [|discriminate].
    intros H. apply IH in H as [new [-> [-> Hnew]]].
    apply analyze_methods_entries in A as [entries [E Hentries]].
    simpl in E. subst entries.
    exists (Lesson6.mkFileAnalysis file analyzed (Lesson6.len analyzed) :: new).
    rewrite <- app_assoc. cbn [andb map sum fold_right Lesson6.total_tests].
    repeat split; [unfold sum; lia|].
    constructor; [|assumption].
    unfold analysis_of, candidates. rewrite F, N, X.
    cbn [Lesson6.fa_file_path Lesson6.total_tests Lesson6.test_methods].
    auto.
Qed.

Lemma scan_total (files : list str) :
  benign_reads w -> raises_exceptions ag -> commands_run w ->
  forall (fas : list Lesson6.FileAnalysis) (total : Z) (st : agent_state ag),
  exists res st', Lesson6.scan w ag files fas total st = Ok (res, st').
Proof.
  intros Hw Hag [_ Hgrep].
  induction files as [|file rest IH]; intros fas total st.
  - simpl. unfold ret. eauto.
  - rewrite scan_cons. destruct (negb (path_exists w file)); [apply IH|].
    unfold Steps.find_test_lines. destruct (Hgrep file) as [out ->].
    destruct (Steps.no_test_lines _); [apply IH|].
    destruct (Steps.extract_test_methods _) as [|l ls]; [apply IH|].
    destruct (analyze_methods_total file (firstn 3 (l :: ls)) Hw Hag [] st)
      as [analyzed [st1 ->]].
    apply IH.
Qed.

Lemma main_total (repo : str) (st : agent_state ag) :
  benign_reads w -> raises_exceptions ag -> commands_run w ->
  exists r st', Lesson6.main w ag repo st = Ok (r, st').
Proof.
  intros Hw Hag Hcmd. unfold Lesson6.main, bind, lift, Steps.list_files.
  destruct (proj1 Hcmd repo) as [out ->].
  match goal with
  | |- context [Lesson6.scan w ag ?files [] 0%Z st] =>
      destruct (scan_total files Hw Hag Hcmd [] 0%Z st) as [[fas total] [st1 ->]]
  end.
  unfold ret. eauto.
Qed.

Lemma main_spec (repo : str) (st st' : agent_state ag)
    (r : Lesson6.TestExtractionResult) :
  Lesson6.main w ag repo st = Ok (r, st') ->
  exists files,
    Steps.list_files w repo = Ok files
    /\ Lesson6.repository_path r = repo
    /\ Lesson6.total_files_analyzed r
       = Lesson6.len (filter (path_exists w) files)
    /\ Lesson6.total_tests_found r
       = sum (map Lesson6.total_tests (Lesson6.file_analyses r))
    /\ Forall2 (analysis_of w) (filter (has_candidates w) files)
         (Lesson6.file_analyses r).
Proof.
  unfold Lesson6.main, bind, lift.
  destruct (Steps.list_files w repo) as [files|e]; [|discriminate].
  destruct (Lesson6.scan w ag files [] 0%Z st) as [[[fas total] st1]|e] eqn:S;
    [|discriminate].
  unfold ret. intros [= <- _]. cbn.
  apply scan_spec in S as [new [-> [-> Hnew]]].
  exists files. simpl. auto.
Qed.
End Scan.

Lemma entry_line_number (file line : str) (tm : Lesson6.TestMethod) :
  is_entry_for file line tm -> Lesson6.line_number tm = line_no line.
Proof.
  intros [purpose ->]. unfold entry_for, line_no.
  now destruct (parse_line line) as [[n c]|].
Qed.

Lemma entries_line_numbers (file : str) (lines : list str)
    (tms : list Lesson6.TestMethod) :
  Forall2 (is_entry_for file) lines tms ->
  map Lesson6.line_number tms = map line_no lines.
Proof.
  induction 1 as [|line tm lines tms H _ IH]; simpl; [reflexivity|].
  now rewrite IH, (entry_line_number H).
Qed.

Lemma ascending_firstn (n : nat) (ns : list Z) :
  ascending ns -> ascending (firstn n ns).
Proof.
  unfold ascending. intros H. revert n.
  induction H as [|x xs Hxs IH Hx]; intros [|n]; simpl; try constructor.
  - apply IH.
  - clear IH Hxs. revert n.
    induction Hx as [|y ys Hy _ IH]; intros [|n]; simpl; constructor; auto.
Qed.

Lemma Forall2_right (A B : Type) (R : A -> B -> Prop) (P : B -> Prop)
    (xs : list A) (ys : list B) :
  (forall x y, R x y -> P y) -> Forall2 R xs ys -> Forall P ys.
Proof.
  intros HR. induction 1; constructor; eauto.
Qed.

Lemma Forall2_weaken (A B : Type) (R S : A -> B -> Prop)
    (xs : list A) (ys : list B) :
  (forall x y, R x y -> S x y) -> Forall2 R xs ys -> Forall2 S xs ys.
Proof.
  intros HR. induction 1; constructor; eauto.
Qed.

(** ** How often the agent is called *)

Section Calls.
Variable w : World.
Variable ag : Agent.

Lemma analyze_calls (line file : str) (st st' : agent_state ag) (n n' : nat)
    (tm : Lesson6.TestMethod) :
  Lesson6.analyze_test_with_agent w (counting ag) line file (st, n)
  = Ok (tm, (st', n')) ->
  n' <= S n.
Proof.
  destruct (parse_line line) as [[num content]|] eqn:P.
  - rewrite (analyze_parsed w (counting ag) line file (st, n) P).
    destruct (Steps.read_method_body w file num content) as [body|e];
      [|discriminate].
    cbn [counting ask fst snd].
    destruct (fst (ask ag st _)) as [answer|e].
    + intros [= _ _ <-]. lia.
    + destruct (is_Exception (exn_kind e)); [|discriminate].
      intros [= _ _ <-]. lia.
  - rewrite (analyze_unparsed w (counting ag) line file (st, n) P).
    intros [= _ _ <-]. lia.
Qed.

Lemma analyze_methods_calls (file : str) (lines : list str) :
  forall (acc res : list Lesson6.TestMethod) (st st' : agent_state ag)
         (n n' : nat),
    Lesson6.analyze_methods w (counting ag) file lines acc (st, n)
    = Ok (res, (st', n')) ->
    n' <= n + length lines.
Proof.
  induction lines as [|line lines IH]; intros acc res st st' n n'; simpl.
  - intros [= _ _ <-]. lia.
  - unfold bind at 1.
    destruct (Lesson6.analyze_test_with_agent w (counting ag) line file (st, n))
      as [[tm [st1 n1]]|e] eqn:A; [|discriminate].
    intros H. apply IH in H. apply analyze_calls in A. lia.
Qed.

Lemma scan_calls (files : list str) :
  forall (fas fas' : list Lesson6.FileAnalysis) (total total' : Z)
         (st st' : agent_state ag) (n n' : nat),
    Lesson6.scan w (counting ag) files fas total (st, n)
    = Ok ((fas', total'), (st', n')) ->
    (Z.of_nat n' - Z.of_nat n <= total' - total)%Z.
Proof.
  induction files as [|file rest IH];
    intros fas fas' total total' st st' n n'.
  - intros [= _ <- _ <-]. lia.
  - rewrite scan_cons.
    destruct (negb (path_exists w file)); [apply IH|].
    destruct (Steps.find_test_lines w file) as [test_lines|e];
      [|discriminate].
    destruct (Steps.no_test_lines test_lines); [apply IH|].
    destruct (Steps.extract_test_methods test_lines) as [|l ls];
      [apply IH|].
    destruct (Lesson6.analyze_methods w (counting ag) file
                (firstn 3 (l :: ls)) [] (st, n))
      as [[analyzed [st1 n1]]|e] eqn:A; [|discriminate].
    intros H. apply IH in H.
    pose proof A as Hn. apply analyze_methods_calls in Hn.
    apply analyze_methods_entries in A as [new [E Hnew]].
    simpl in E. subst new. unfold Lesson6.len in H.
    rewrite <- (Forall2_length Hnew) in H. lia.
Qed.

Lemma main_calls (repo : str) (st st' : agent_state ag) (n : nat)
    (r : Lesson6.TestExtractionResult) :
  Lesson6.main w (counting ag) repo (st, 0) = Ok (r, (st', n)) ->
  (Z.of_nat n <= Lesson6.total_tests_found r)%Z.
Proof.
  unfold Lesson6.main, bind, lift.
  destruct (Steps.list_files w repo) as [files|e]; [|discriminate].
  destruct (Lesson6.scan w (counting ag) files [] 0%Z (st, 0))
    as [[[fas total] [st1 n1]]|e] eqn:S; [|discriminate].
  unfold ret. intros [= <- _ <-]. cbn.
  apply scan_calls in S. lia.
Qed.
End Calls.

(** ** The loop over the files of lesson 1 *)

Section Scan1.
Variable w : World.
Variable ag : Agent.

Lemma analyze_methods1_entries (file : str) (lines : list str) :
  forall (acc res : list Lesson1.TestEntry) (st st' : agent_state ag),
    Lesson1.analyze_methods w ag file lines acc st = Ok (res, st') ->
    exists new,
      res = acc ++ new
      /\ map (fun e => (Lesson1.file e, Lesson1.method e)) new
         = map (pair file) lines.
Proof.
  induction lines as [|line lines IH]; intros acc res st st'; simpl.
  - intros [= <- _]. exists []. now rewrite app_nil_r.
  - unfold bind at 1.
    destruct (Lesson1.analyze_test_with_agent w ag line file st)
      as [[purpose st1]|e]; [|discriminate].
    intros H. apply IH in H as [new [-> Hnew]].
    exists (Lesson1.mkEntry file line purpose :: new).
    rewrite <- app_assoc. split; [reflexivity|]. simpl. now rewrite Hnew.
Qed.

Lemma scan1_cons (file : str) (rest : list str)
    (all_tests : list Lesson1.TestEntry) (st : agent_state ag) :
  Lesson1.scan w ag (file :: rest) all_tests st
  = if has_candidates w file
    then
      match
        Lesson1.analyze_methods w ag file (firstn 3 (candidates w file))
          all_tests st
      with
      | Ok (all_tests', st1) => Lesson1.scan w ag rest all_tests' st1
      | Raise e => Raise e
      end
    else
      match path_exists w file, Steps.find_test_lines w file with
      | true, Raise e => Raise e
      | _, _ => Lesson1.scan w ag rest all_tests st
      end.
Proof.
  cbn [Lesson1.scan]. unfold has_candidates, candidates.
  destruct (path_exists w file); [|reflexivity]. cbn [negb andb].
  unfold bind at 1, lift.
  destruct (Steps.find_test_lines w file) as [test_lines|e]; [|reflexivity].
  destruct (Steps.no_test_lines test_lines); [reflexivity|].
  destruct (Steps.extract_test_methods test_lines) as [|l ls]; reflexivity.
Qed.

Lemma scan1_spec (files : list str) :
  forall (all_tests all_tests' : list Lesson1.TestEntry)
         (st st' : agent_state ag),
    Lesson1.scan w ag files all_tests st = Ok (all_tests', st') ->
    exists new,
      all_tests' = all_tests ++ new
      /\ map (fun e => (Lesson1.file e, Lesson1.method e)) new
         = flat_map (fun file => map (pair file) (firstn 3 (candidates w file)))
             (filter (has_candidates w) files).
Proof.
  induction files as [|file rest IH]; intros all_tests all_tests' st st'.
  - intros [= <- _]. exists []. now rewrite app_nil_r.
  - rewrite scan1_cons. cbn [filter].
    destruct (has_candidates w file).
    + destruct (Lesson1.analyze_methods w ag file _ all_tests st)
        as [[all1 st1]|e] eqn:A; [|discriminate].
      intros H. apply IH in H as [new [-> Hnew]].
      apply analyze_methods1_entries in A as [new1 [-> Hnew1]].
      exists (new1 ++ new). rewrite <- app_assoc. split; [reflexivity|].
      cbn [flat_map]. now rewrite map_app, Hnew1, Hnew.
    + destruct (path_exists w file);
        [destruct (Steps.find_test_lines w file); [|discriminate]|];
        apply IH.
Qed.

Lemma main1_spec (repo : str) (st st' : agent_state ag)
    (all_tests : list Lesson1.TestEntry) :
  Lesson1.main w ag repo st = Ok (all_tests, st') ->
  exists files,
    Steps.list_files w repo = Ok files
    /\ map (fun e => (Lesson1.file e, Lesson1.method e)) all_tests
       = flat_map (fun file => map (pair file) (firstn 3 (candidates w file)))
           (filter (has_candidates w) files).
Proof.
  unfold Lesson1.main, bind, lift.
  destruct (Steps.list_files w repo) as [files|e]; [|discriminate].
  intros H. apply scan1_spec in H as [new [-> Hnew]].
  exists files. auto.
Qed.
End Scan1.

(** ** The sample repository *)

Lemma sample_benign_reads : benign_reads Sample.world.
Proof.
  intros path e. unfold Sample.world, open_read.
  destruct (Sample.str_eqb path (L "/r/T.java")); [discriminate|].
  destruct (Sample.str_eqb path (L "/r/U.java")); [discriminate|].
  now intros [= <-].
Defined.

Lemma sample_raises_exceptions : raises_exceptions Sample.agent.
Proof.
  intros st prompt e st'. unfold Sample.agent, ask.
  destruct (Nat.eqb st 1); [|discriminate]. now intros [= <- _].
Defined.

Lemma sample_commands_run : commands_run Sample.world.
Proof.
  split; intros p.
  - unfold Sample.world, run_find.
    destruct (Sample.str_eqb p (L "/r")); eauto.
  - unfold Sample.world, run_grep.
    destruct (Sample.str_eqb p (L "/r/T.java")); eauto.
Defined.

(** ** The claims on the pipeline *)

(** C6: when the agent raises an [Exception] for a candidate, the entry of
    that candidate is built all the same, its purpose is the text
    [Analysis failed: ] followed by the message of the error, and nothing
    is raised (lessons 1 and 6); and the loop over the candidates of a file
    yields one entry for every candidate handed to it, in their order,
    whichever calls of the agent failed. *)
Theorem summarizer_failure_is_contained (w : World) (ag : Agent) (file : str) :
  benign_reads w -> raises_exceptions ag ->
  (forall line n content body st e st1,
      parse_line line = Some (n, content) ->
      Steps.read_method_body w file n content = Ok body ->
      ask ag st (Lesson6.prompt (Lesson6.method_name_of content) body)
      = (Raise e, st1) ->
      Lesson6.analyze_test_with_agent w ag line file st
      = Ok (entry_for file line (L "Analysis failed: " ++ exn_str e), st1))
  /\ (forall line num content rest n body st e st1,
      contains [colon] line = true ->
      split1 colon line = num :: content :: rest ->
      int num = Some n ->
      Steps.read_method_body w file n content = Ok body ->
      ask ag st (Lesson1.prompt body) = (Raise e, st1) ->
      Lesson1.analyze_test_with_agent w ag line file st
      = Ok (L "Analysis failed: " ++ exn_str e, st1))
  /\ (forall lines st,
      exists res st',
        Lesson6.analyze_methods w ag file lines [] st = Ok (res, st')
        /\ Forall2 (is_entry_for file) lines res).
Proof.
  intros Hw Hag. split; [|split].
  - intros line n content body st e st1 P B A.
    rewrite (analyze_parsed w ag line file st P), B, A.
    now rewrite (Hag _ _ _ _ A).
  - intros line num content rest n body st e st1 C S I B A.
    unfold Lesson1.analyze_test_with_agent. rewrite C, S, I.
    unfold bind, lift, ask_or. rewrite B. cbn [negb]. cbv beta iota.
    rewrite A. now rewrite (Hag _ _ _ _ A).
  - intros lines st.
    destruct (analyze_methods_total file lines Hw Hag [] st) as [res [st' H]].
    exists res, st'. split; [assumption|].
    now apply analyze_methods_entries in H as [new [-> Hnew]].
Qed.

Lemma summarizer_failure_is_contained_sample :
  benign_reads Sample.world /\ raises_exceptions Sample.agent
  /\ Lesson6.analyze_test_with_agent Sample.world Sample.agent
       (L "4:  public void testSub() {") (L "/r/T.java") 1
     = Ok (Lesson6.mkTestMethod (L "testSub") 4
             (L "Analysis failed: throttled") (L "/r/T.java"), 2).
Proof.
  split; [exact sample_benign_reads|]. split; [exact sample_raises_exceptions|].
  destruct (summarizer_failure_is_contained (L "/r/T.java")
              sample_benign_reads sample_raises_exceptions) as [H _].
  apply (H (L "4:  public void testSub() {") 4%Z
           (L "  public void testSub() {")
           (L "  public void testSub() {" ++ nl ::
            L "  public void testMul() {" ++ nl ::
            L "  public void testDiv() {" ++ nl ::
            L "}" ++ [nl])
           1 (mkExn OtherException (L "throttled")) 2);
    reflexivity.
Defined.

Lemma sum_at_most (bound : Z) (xs : list Z) :
  Forall (fun x => (x <= bound)%Z) xs ->
  (sum xs <= bound * Z.of_nat (length xs))%Z.
Proof.
  unfold sum. induction 1 as [|x xs Hx _ IH]; simpl fold_right.
  - simpl. lia.
  - change (length (x :: xs)) with (S (length xs)). lia.
Qed.

(** C2: in a completed scan every file analysis has at most three entries,
    and they are the entries of the first three candidates of its file, in
    the order of the candidates: ascending line numbers when the matched
    lines come in ascending order.  The agent is called at most once for
    each entry, hence at most three times for a file.  Lesson 1 likewise
    records, file by file, its first three candidates and no other. *)
Theorem at_most_three_entries_per_file (w : World) (repo : str) :
  (forall (ag : Agent) (st st' : agent_state ag)
          (r : Lesson6.TestExtractionResult),
      Lesson6.main w ag repo st = Ok (r, st') ->
      exists files,
        Steps.list_files w repo = Ok files
        /\ Forall2
             (fun file fa =>
                Lesson6.fa_file_path fa = file
                /\ length (Lesson6.test_methods fa) <= 3
                /\ Forall2 (is_entry_for file) (firstn 3 (candidates w file))
                     (Lesson6.test_methods fa)
                /\ map Lesson6.line_number (Lesson6.test_methods fa)
                   = firstn 3 (map line_no (candidates w file))
                /\ (ascending (map line_no (candidates w file)) ->
                    ascending
                      (map Lesson6.line_number (Lesson6.test_methods fa))))
             (filter (has_candidates w) files) (Lesson6.file_analyses r))
  /\ (forall (ag : Agent) (st st' : agent_state ag) (calls : nat)
             (r : Lesson6.TestExtractionResult),
      Lesson6.main w (counting ag) repo (st, 0) = Ok (r, (st', calls)) ->
      (Z.of_nat calls <= Lesson6.total_tests_found r
       <= 3 * Z.of_nat (length (Lesson6.file_analyses r)))%Z)
  /\ (forall (ag : Agent) (st st' : agent_state ag)
             (all_tests : list Lesson1.TestEntry),
      Lesson1.main w ag repo st = Ok (all_tests, st') ->
      exists files,
        Steps.list_files w repo = Ok files
        /\ map (fun e => (Lesson1.file e, Lesson1.method e)) all_tests
           = flat_map
               (fun file => map (pair file) (firstn 3 (candidates w file)))
               (filter (has_candidates w) files)).
Proof.
  split; [|split].
  - intros ag st st' r H.
    apply main_spec in H as [files [Hfiles [_ [_ [_ Hfa]]]]].
    exists files. split; [assumption|].
    apply Forall2_weaken with (2 := Hfa).
    intros file fa [Hpath [_ Hentries]].
    assert (Hnum : map Lesson6.line_number (Lesson6.test_methods fa)
                   = firstn 3 (map line_no (candidates w file))).
    { rewrite (entries_line_numbers Hentries). symmetry. apply firstn_map. }
    repeat split; try assumption.
    + rewrite <- (Forall2_length Hentries). apply firstn_le_length.
    + intros Hasc. rewrite Hnum. now apply ascending_firstn.
  - intros ag st st' calls r H. split; [now apply main_calls in H|].
    apply main_spec in H as [files [_ [_ [_ [-> Hfa]]]]].
    rewrite <- (length_map Lesson6.total_tests). apply sum_at_most.
    apply Forall_map. apply Forall2_right with (2 := Hfa).
    intros file fa [_ [-> Hentries]]. unfold Lesson6.len.
    rewrite <- (Forall2_length Hentries).
    pose proof (firstn_le_length 3 (candidates w file)). lia.
  - intros ag st st' all_tests H. now apply main1_spec in H.
Qed.

Lemma at_most_three_entries_per_file_sample :
  Lesson6.main Sample.world Sample.agent (L "/r") 0 = Ok (Sample.expected, 3)
  /\ Lesson6.main Sample.world (counting Sample.agent) (L "/r") (0, 0)
     = Ok (Sample.expected, (3, 3))
  /\ length (candidates Sample.world (L "/r/T.java")) = 4
  /\ (exists files,
        Steps.list_files Sample.world (L "/r") = Ok files
        /\ Forall2
             (fun file fa =>
                Lesson6.fa_file_path fa = file
                /\ length (Lesson6.test_methods fa) <= 3
                /\ Forall2 (is_entry_for file)
                     (firstn 3 (candidates Sample.world file))
                     (Lesson6.test_methods fa)
                /\ map Lesson6.line_number (Lesson6.test_methods fa)
                   = firstn 3 (map line_no (candidates Sample.world file))
                /\ (ascending (map line_no (candidates Sample.world file)) ->
                    ascending
                      (map Lesson6.line_number (Lesson6.test_methods fa))))
             (filter (has_candidates Sample.world) files)
             (Lesson6.file_analyses Sample.expected))
  /\ (3 <= Lesson6.total_tests_found Sample.expected
       <= 3 * Z.of_nat (length (Lesson6.file_analyses Sample.expected)))%Z.
Proof.
  destruct (at_most_three_entries_per_file Sample.world (L "/r"))
    as [Hentries [Hcalls _]].
  do 3 (split; [reflexivity|]). split.
  - apply (Hentries Sample.agent 0 3). reflexivity.
  - apply (Hcalls Sample.agent 0 3 3). reflexivity.
Defined.

Lemma Forall2_map_eq (A B C : Type) (f : A -> C) (g : B -> C)
    (xs : list A) (ys : list B) :
  Forall2 (fun x y => g y = f x) xs ys -> map g ys = map f xs.
Proof.
  induction 1 as [|x y xs ys H _ IH]; simpl; [reflexivity|].
  now rewrite H, IH.
Qed.

(** C3: the result of a completed scan has [total_tests_found] equal to the
    sum of [total_tests] over [file_analyses], and [total_files_analyzed]
    at least the number of file analyses. *)
Theorem result_counts_agree (w : World) (ag : Agent) (repo : str)
    (st st' : agent_state ag) (r : Lesson6.TestExtractionResult) :
  Lesson6.main w ag repo st = Ok (r, st') ->
  Lesson6.total_tests_found r
  = sum (map Lesson6.total_tests (Lesson6.file_analyses r))
  /\ (Lesson6.total_files_analyzed r
      >= Z.of_nat (length (Lesson6.file_analyses r)))%Z.
Proof.
  intros H. apply main_spec in H as [files [_ [_ [Hn [Hsum Hfa]]]]].
  split; [assumption|]. rewrite Hn. unfold Lesson6.len.
  rewrite <- (Forall2_length Hfa).
  assert (length (filter (has_candidates w) files)
          <= length (filter (path_exists w) files)); [|lia].
  apply filter_length_le. intros file. unfold has_candidates.
  now intros [E _]%andb_true_iff.
Qed.

Lemma result_counts_agree_sample :
  Lesson6.main Sample.world Sample.agent (L "/r") 0 = Ok (Sample.expected, 3)
  /\ Lesson6.total_tests_found Sample.expected
     = sum (map Lesson6.total_tests (Lesson6.file_analyses Sample.expected))
  /\ (Lesson6.total_files_analyzed Sample.expected
      >= Z.of_nat (length (Lesson6.file_analyses Sample.expected)))%Z.
Proof.
  split; [reflexivity|].
  apply (result_counts_agree Sample.world Sample.agent (L "/r") 0 (st' := 3)).
  reflexivity.
Defined.

(** C8: in the result of a completed scan, [total_tests] of every file
    analysis is the length of its [test_methods]. *)
Theorem total_tests_is_length (w : World) (ag : Agent) (repo : str)
    (st st' : agent_state ag) (r : Lesson6.TestExtractionResult) :
  Lesson6.main w ag repo st = Ok (r, st') ->
  Forall
    (fun fa =>
       Lesson6.total_tests fa = Z.of_nat (length (Lesson6.test_methods fa)))
    (Lesson6.file_analyses r).
Proof.
  intros H. apply main_spec in H as [files [_ [_ [_ [_ Hfa]]]]].
  apply Forall2_right with (2 := Hfa). now intros file fa [_ [Hlen _]].
Qed.

Lemma total_tests_is_length_sample :
  Lesson6.main Sample.world Sample.agent (L "/r") 0 = Ok (Sample.expected, 3)
  /\ Forall
       (fun fa =>
          Lesson6.total_tests fa
          = Z.of_nat (length (Lesson6.test_methods fa)))
       (Lesson6.file_analyses Sample.expected).
Proof.
  split; [reflexivity|].
  apply (total_tests_is_length Sample.world Sample.agent (L "/r") 0 (st' := 3)).
  reflexivity.
Defined.

(** C9: in the result of a completed scan only the capped candidates count:
    [total_tests_found] is the sum, over the files that exist and have a
    candidate, of the number of candidates cut at three, and the entries
    and the count of a file analysis are those of the first three
    candidates of its file; a candidate after the third has no entry and
    is not counted. *)
Theorem only_capped_candidates_are_counted (w : World) (ag : Agent)
    (repo : str) (st st' : agent_state ag) (r : Lesson6.TestExtractionResult) :
  Lesson6.main w ag repo st = Ok (r, st') ->
  exists files,
    Steps.list_files w repo = Ok files
    /\ Lesson6.total_tests_found r
       = sum (map (fun file =>
                     Z.of_nat (Nat.min 3 (length (candidates w file))))
                (filter (has_candidates w) files))
    /\ Forall2
         (fun file fa =>
            Lesson6.fa_file_path fa = file
            /\ Lesson6.total_tests fa
               = Z.of_nat (Nat.min 3 (length (candidates w file)))
            /\ Forall2 (is_entry_for file) (firstn 3 (candidates w file))
                 (Lesson6.test_methods fa))
         (filter (has_candidates w) files) (Lesson6.file_analyses r).
Proof.
  intros H. apply main_spec in H as [files [Hfiles [_ [_ [Hsum Hfa]]]]].
  exists files. split; [assumption|].
  assert (Hcap :
    Forall2
      (fun file fa =>
         Lesson6.fa_file_path fa = file
         /\ Lesson6.total_tests fa
            = Z.of_nat (Nat.min 3 (length (candidates w file)))
         /\ Forall2 (is_entry_for file) (firstn 3 (candidates w file))
              (Lesson6.test_methods fa))
      (filter (has_candidates w) files) (Lesson6.file_analyses r)).
  { apply Forall2_weaken with (2 := Hfa).
    intros file fa [Hpath [Hlen Hentries]]. repeat split; try assumption.
    rewrite Hlen. unfold Lesson6.len.
    now rewrite <- (Forall2_length Hentries), length_firstn. }
  split; [|assumption]. rewrite Hsum. f_equal.
  apply Forall2_map_eq. apply Forall2_weaken with (2 := Hcap).
  now intros file fa [_ [Hlen _]].
Qed.

Lemma only_capped_candidates_are_counted_sample :
  Lesson6.main Sample.world Sample.agent (L "/r") 0 = Ok (Sample.expected, 3)
  /\ length (candidates Sample.world (L "/r/T.java")) = 4
  /\ exists files,
      Steps.list_files Sample.world (L "/r") = Ok files
      /\ Lesson6.total_tests_found Sample.expected
         = sum (map (fun file =>
                       Z.of_nat
                         (Nat.min 3 (length (candidates Sample.world file))))
                  (filter (has_candidates Sample.world) files))
      /\ Forall2
           (fun file fa =>
              Lesson6.fa_file_path fa = file
              /\ Lesson6.total_tests fa
                 = Z.of_nat
                     (Nat.min 3 (length (candidates Sample.world file)))
              /\ Forall2 (is_entry_for file)
                   (firstn 3 (candidates Sample.world file))
                   (Lesson6.test_methods fa))
           (filter (has_candidates Sample.world) files)
           (Lesson6.file_analyses Sample.expected).
Proof.
  split; [reflexivity|]. split; [reflexivity|].
  apply (only_capped_candidates_are_counted Sample.world Sample.agent
           (L "/r") 0 (st' := 3)).
  reflexivity.
Defined.

(** ** lesson_3.py: the check of the search pattern *)

Lemma existsb_false_iff (A : Type) (f : A -> bool) (l : list A) :
  existsb f l = false <-> forall x, In x l -> f x = false.
Proof.
  induction l as [|a l IH]; simpl.
  - split; [intros _ x [] | reflexivity].
  - rewrite orb_false_iff, IH. split.
    + intros [Ha Hl] x [<-|Hx]; auto.
    + intros H. split; auto.
Qed.

Lemma pattern_allowed_iff (pattern : str) :
  Lesson3.pattern_allowed pattern = true <->
  exists marker, In marker Lesson3.allowed_patterns /\ occurs marker pattern.
Proof.
  unfold Lesson3.pattern_allowed. rewrite existsb_exists.
  split; intros [marker [Hin H]]; exists marker; split; try assumption;
    now apply contains_iff.
Qed.

(** C10: the check of [grep_pattern] turns a pattern down exactly when none
    of the listed markers occurs in it as a substring.  For an existing
    regular file, a pattern that is turned down yields the security error
    whatever [grep] would print; a pattern with a marker anywhere inside
    passes, and its result is the output of [grep] for that very pattern
    (quoted for the command line), which the check does not touch. *)
Theorem grep_pattern_check (h : Lesson3.Host) (file pattern : str)
    (case_insensitive : bool) :
  (Lesson3.pattern_allowed pattern = false <->
   forall marker, In marker Lesson3.allowed_patterns -> ~ occurs marker pattern)
  /\ (Lesson3.exists_ h (Lesson3.abspath h file) = true ->
      Lesson3.isfile h (Lesson3.abspath h file) = true ->
      (Lesson3.pattern_allowed pattern = false ->
       Lesson3.grep_pattern h file pattern case_insensitive
       = Ok Lesson3.security_error)
      /\ (Lesson3.pattern_allowed pattern = true ->
          Lesson3.grep_pattern h file pattern case_insensitive
          = match
              Lesson3.subprocess_run h
                (Lesson3.grep_cmd pattern (Lesson3.abspath h file)
                   case_insensitive)
            with
            | Ok [] => Ok (L "No matches found")
            | Ok stdout => Ok (strip stdout)
            | Raise e =>
                if is_Exception (exn_kind e)
                then Ok (L "Error: " ++ exn_str e)
                else Raise e
            end)).
Proof.
  split.
  - unfold Lesson3.pattern_allowed. rewrite existsb_false_iff. split.
    + intros H marker Hin Hocc. apply contains_iff in Hocc.
      rewrite (H _ Hin) in Hocc. discriminate.
    + intros H marker Hin.
      destruct (contains marker pattern) eqn:E; [|reflexivity].
      apply contains_iff in E. now elim (H _ Hin).
  - intros He Hf. split; intros Hp; unfold Lesson3.grep_pattern;
      rewrite He, Hf, Hp; [reflexivity|].
    cbn [negb orb]. cbv iota.
    destruct (Lesson3.subprocess_run h _) as [[|c out]|e]; reflexivity.
Qed.

Lemma grep_pattern_check_sample :
  Lesson3.exists_ Sample.host (Lesson3.abspath Sample.host (L "/r/T.java"))
  = true
  /\ Lesson3.isfile Sample.host (Lesson3.abspath Sample.host (L "/r/T.java"))
     = true
  /\ Lesson3.pattern_allowed (L "contest|.*") = true
  /\ Lesson3.pattern_allowed (L "public .*\(") = false
  /\ Lesson3.grep_pattern Sample.host (L "/r/T.java") (L "public .*\(") true
     = Ok Lesson3.security_error
  /\ Lesson3.grep_pattern Sample.host (L "/r/T.java") (L "contest|.*") true
     = Ok (strip Sample.t_grep).
Proof.
  destruct (grep_pattern_check Sample.host (L "/r/T.java")
              (L "public .*\(") true) as [_ Hno].
  destruct (grep_pattern_check Sample.host (L "/r/T.java")
              (L "contest|.*") true) as [_ Hyes].
  do 4 (split; [reflexivity|]).
  split; [exact (proj1 (Hno eq_refl eq_refl) eq_refl)
         | exact (proj2 (Hyes eq_refl eq_refl) eq_refl)].
Defined.

(** * More properties of the scripts *)

(** ** Steps 1 and 2: the lines of the output of a command *)

Lemma split_not_nil (sep : ascii) (s : str) : split sep s <> [].
Proof.
  destruct s as [|c s]; simpl; [discriminate|].
  destruct (Ascii.eqb c sep); [discriminate|].
  destruct (split sep s); discriminate.
Qed.

Lemma join_split (sep : ascii) (s : str) : join [sep] (split sep s) = s.
Proof.
  induction s as [|c s IH]; simpl; [reflexivity|].
  destruct (Ascii.eqb_spec c sep) as [->|Hc].
  - destruct (split sep s) as [|l ls] eqn:E; [now elim (split_not_nil sep s)|].
    simpl in *. now rewrite IH.
  - destruct (split sep s) as [|l ls] eqn:E; [now elim (split_not_nil sep s)|].
    destruct ls; simpl in *; now rewrite <- IH.
Qed.

Lemma split_no_sep (sep : ascii) (s : str) :
  Forall (fun l => ~ In sep l) (split sep s).
Proof.
  induction s as [|c s IH]; simpl.
  - constructor; [intros [] | constructor].
  - destruct (Ascii.eqb_spec c sep) as [->|Hc].
    + constructor; [intros [] | assumption].
    + destruct (split sep s) as [|l ls] eqn:E;
        [now elim (split_not_nil sep s)|].
      inversion IH as [|? ? Hl Hls]; subst. constructor; [|assumption].
      intros [Hcs|H]; [now elim Hc | now elim Hl].
Qed.

Lemma split_single_empty (sep : ascii) (s : str) :
  split sep s = [[]] <-> s = [].
Proof.
  split; [|now intros ->].
  destruct s as [|c s]; [reflexivity|]. simpl.
  destruct (Ascii.eqb c sep).
  - intros [= H]. now elim (split_not_nil sep s).
  - destruct (split sep s); discriminate.
Qed.

Lemma lstrip_nil (s : str) : lstrip s = [] <-> forallb is_space s = true.
Proof.
  induction s as [|c s IH]; simpl; [tauto|].
  destruct (is_space c); simpl; [assumption|]. split; discriminate.
Qed.

Lemma lstrip_blank_free (s : str) :
  match lstrip s with [] => True | c :: _ => is_space c = false end.
Proof.
  induction s as [|c s IH]; simpl; [exact I|].
  destruct (is_space c) eqn:E; [assumption | exact E].
Qed.

Lemma forallb_rev (A : Type) (f : A -> bool) (l : list A) :
  forallb f (rev l) = forallb f l.
Proof.
  induction l as [|x l IH]; simpl; [reflexivity|].
  rewrite forallb_app, IH. simpl. rewrite andb_true_r. apply andb_comm.
Qed.

Lemma strip_nil (s : str) : strip s = [] <-> forallb is_space s = true.
Proof.
  unfold strip, rstrip. rewrite <- lstrip_nil. split.
  - intros H. apply (f_equal (@rev ascii)) in H. rewrite rev_involutive in H.
    simpl in H. apply lstrip_nil in H. rewrite forallb_rev in H.
    pose proof (lstrip_blank_free s) as Hs.
    destruct (lstrip s) as [|c t]; [reflexivity|].
    simpl in H. rewrite Hs in H. discriminate.
  - now intros ->.
Qed.

Section CommandOutput.
Variable w : World.

(** X1: the value of [find_test_lines] (and of [list_files]) for the output
    of the command.  No output gives no line; otherwise the lines, joined by
    line breaks, are the output without the blanks around it, and no line
    has a line break.  A file is passed over for lack of matched lines
    exactly when [grep] printed nothing but blanks. *)
Theorem lines_of_command_output (path out : str) :
  (run_grep w path = Ok out ->
   exists lines,
     Steps.find_test_lines w path = Ok lines
     /\ (out = [] -> lines = [])
     /\ (out <> [] ->
         join [nl] lines = strip out /\ Forall (fun l => ~ In nl l) lines)
     /\ (Steps.no_test_lines lines = true <-> forallb is_space out = true))
  /\ (run_find w path = Ok out ->
      exists files,
        Steps.list_files w path = Ok files
        /\ (out = [] -> files = [])
        /\ (out <> [] ->
            join [nl] files = strip out /\ Forall (fun l => ~ In nl l) files)
        /\ (files = [] <-> out = [])).
Proof.
  split; intros H.
  - unfold Steps.find_test_lines. rewrite H.
    destruct out as [|c out].
    + exists []. repeat split; auto; discriminate.
    + exists (split nl (strip (c :: out))).
      split; [reflexivity|]. split; [discriminate|]. split.
      * intros _. split; [apply join_split | apply split_no_sep].
      * rewrite <- strip_nil, <- (split_single_empty nl).
        unfold Steps.no_test_lines.
        destruct (split nl (strip (c :: out))) as [|l ls] eqn:E;
          [now elim (split_not_nil nl (strip (c :: out)))|].
        destruct l, ls; split; (reflexivity || discriminate).
  - unfold Steps.list_files. rewrite H.
    destruct out as [|c out].
    + exists []. repeat split; auto; discriminate.
    + exists (split nl (strip (c :: out))).
      split; [reflexivity|]. split; [discriminate|]. split.
      * intros _. split; [apply join_split | apply split_no_sep].
      * split; [|discriminate]. intros E. now elim (split_not_nil _ _ E).
Qed.
End CommandOutput.

Lemma lines_of_command_output_sample :
  run_grep Sample.world (L "/r/T.java") = Ok Sample.t_grep
  /\ exists lines,
      Steps.find_test_lines Sample.world (L "/r/T.java") = Ok lines
      /\ (Sample.t_grep = [] -> lines = [])
      /\ (Sample.t_grep <> [] ->
          join [nl] lines = strip Sample.t_grep
          /\ Forall (fun l => ~ In nl l) lines)
      /\ (Steps.no_test_lines lines = true
          <-> forallb is_space Sample.t_grep = true).
Proof.
  split; [reflexivity|].
  apply (proj1 (lines_of_command_output Sample.world (L "/r/T.java")
                  Sample.t_grep)).
  reflexivity.
Defined.

(** ** The window of lines, for any line number *)

Lemma slice_run (A : Type) (l : list A) (i : Z) :
  exists k m,
    m <= 20 /\ slice l i (i + 20) = firstn m (skipn k l).
Proof.
  unfold slice. set (n := Z.of_nat (length l)).
  exists (Z.to_nat (slice_index n i)),
         (Z.to_nat (slice_index n (i + 20) - slice_index n i)).
  split; [|reflexivity]. unfold slice_index.
  destruct (Z.ltb_spec i 0), (Z.ltb_spec (i + 20) 0); lia.
Qed.

Section AnyWindow.
Variable w : World.

(** X2: whatever the line number (in the file, past its end, zero or
    negative), the body read from a file that opens is a run of at most
    twenty consecutive lines of the file, cut out of its text as it
    stands. *)
Theorem body_is_a_run_of_lines (file text content : str) (line_num : Z) :
  open_read w file = Ok text ->
  exists k m,
    m <= 20
    /\ Steps.read_method_body w file line_num content
       = Ok (concat (firstn m (skipn k (readlines text))))
    /\ text = concat (firstn k (readlines text))
              ++ concat (firstn m (skipn k (readlines text)))
              ++ concat (skipn m (skipn k (readlines text))).
Proof.
  intros H. rewrite (read_method_body_readable w file content line_num H).
  destruct (slice_run (readlines text) (line_num - 1)) as [k [m [Hm ->]]].
  exists k, m. repeat split; [assumption|].
  rewrite <- !concat_app, (firstn_skipn m), (firstn_skipn k).
  symmetry. apply concat_readlines.
Qed.

(** X3: from line 1 of a file of at most twenty lines the body is the whole
    text of the file. *)
Theorem short_file_is_read_whole (file text content : str) :
  open_read w file = Ok text ->
  length (readlines text) <= 20 ->
  Steps.read_method_body w file 1 content = Ok text.
Proof.
  intros H Hlen. rewrite (read_method_body_readable w file content 1 H).
  change (1 - 1)%Z with 0%Z. rewrite slice_from by lia.
  change (Z.to_nat 0) with 0. rewrite skipn_O, firstn_all2 by assumption.
  now rewrite concat_readlines.
Qed.
End AnyWindow.

Lemma body_is_a_run_of_lines_sample :
  open_read Sample.world (L "/r/T.java") = Ok Sample.t_java
  /\ exists k m,
      m <= 20
      /\ Steps.read_method_body Sample.world (L "/r/T.java") (-3) (L "raw")
         = Ok (concat (firstn m (skipn k (readlines Sample.t_java))))
      /\ Sample.t_java
         = concat (firstn k (readlines Sample.t_java))
           ++ concat (firstn m (skipn k (readlines Sample.t_java)))
           ++ concat (skipn m (skipn k (readlines Sample.t_java))).
Proof.
  split; [reflexivity|].
  apply (body_is_a_run_of_lines Sample.world (L "/r/T.java") (L "raw") (-3)).
  reflexivity.
Defined.

Lemma short_file_is_read_whole_sample :
  open_read Sample.world (L "/r/T.java") = Ok Sample.t_java
  /\ length (readlines Sample.t_java) <= 20
  /\ Steps.read_method_body Sample.world (L "/r/T.java") 1 (L "raw")
     = Ok Sample.t_java.
Proof.
  split; [reflexivity|]. split; [vm_compute; lia|].
  apply (short_file_is_read_whole Sample.world (L "/r/T.java") (L "raw")).
  - reflexivity.
  - vm_compute. lia.
Defined.

(** ** Reading the number of a matched line *)

Lemma int_digits_acc (d : Decimal.uint) :
  forall acc : positive,
    int_digits (Zpos acc) true (L (NilEmpty.string_of_uint d))
    = Some (Zpos (Pos.of_uint_acc d acc)).
Proof.
  unfold L.
  induction d as [|d IH|d IH|d IH|d IH|d IH|d IH|d IH|d IH|d IH|d IH];
    intros acc; [reflexivity|..];
    cbn [NilEmpty.string_of_uint list_ascii_of_string Pos.of_uint_acc];
    rewrite <- IH; cbn [int_digits];
    match goal with
    | |- context [is_digit ?c] => change (is_digit c) with true
    end; cbv iota; f_equal; vm_compute code; lia.
Qed.

Lemma int_digits_uint (d : Decimal.uint) :
  forall b : bool,
    d <> Decimal.Nil \/ b = true ->
    int_digits 0 b (L (NilEmpty.string_of_uint d))
    = Some (Z.of_N (Pos.of_uint d)).
Proof.
  unfold L.
  induction d as [|d IH|d IH|d IH|d IH|d IH|d IH|d IH|d IH|d IH|d IH];
    intros b Hb.
  - destruct Hb as [Hb| ->]; [now elim Hb | reflexivity].
  - cbn [NilEmpty.string_of_uint list_ascii_of_string Pos.of_uint].
    rewrite <- (IH true) by now right. reflexivity.
  - exact (int_digits_acc d 1).
  - exact (int_digits_acc d 2).
  - exact (int_digits_acc d 3).
  - exact (int_digits_acc d 4).
  - exact (int_digits_acc d 5).
  - exact (int_digits_acc d 6).
  - exact (int_digits_acc d 7).
  - exact (int_digits_acc d 8).
  - exact (int_digits_acc d 9).
Qed.

Lemma uint_digits (d : Decimal.uint) :
  forallb is_digit (L (NilEmpty.string_of_uint d)) = true.
Proof.
  unfold L. induction d; simpl; auto.
Qed.

Lemma digit_is_no_blank (c : ascii) :
  is_digit c = true -> is_int_blank c = false /\ c <> colon.
Proof.
  destruct c as [[] [] [] [] [] [] [] []]; try discriminate;
    (split; [reflexivity | discriminate]).
Qed.

Lemma skip_int_blanks_id (s : str) :
  match s with [] => True | c :: _ => is_int_blank c = false end ->
  skip_int_blanks s = s.
Proof.
  destruct s as [|c s]; simpl; [reflexivity|]. now intros ->.
Qed.

Lemma digits_head_no_blank (s : str) :
  forallb is_digit s = true ->
  match s with [] => True | c :: _ => is_int_blank c = false end.
Proof.
  destruct s as [|c s]; simpl; [trivial|].
  intros [Hc _]%andb_true_iff. now apply digit_is_no_blank.
Qed.

Lemma int_of_digits (d : Decimal.uint) :
  d <> Decimal.Nil ->
  int (L (NilEmpty.string_of_uint d)) = Some (Z.of_N (Pos.of_uint d))
  /\ int ("-"%char :: L (NilEmpty.string_of_uint d))
     = Some (- Z.of_N (Pos.of_uint d))%Z.
Proof.
  intros Hd. pose proof (uint_digits d) as Hall.
  pose proof (@int_digits_uint d false (or_introl Hd)) as Hval.
  set (ds := L (NilEmpty.string_of_uint d)) in *.
  assert (Hne : ds <> []).
  { unfold ds, L. destruct d; simpl; congruence. }
  assert (Hrev : skip_int_blanks (rev ds) = rev ds).
  { apply skip_int_blanks_id, digits_head_no_blank.
    now rewrite forallb_rev. }
  split; unfold int.
  - rewrite (@skip_int_blanks_id ds (@digits_head_no_blank ds Hall)).
    rewrite Hrev, rev_involutive.
    destruct ds as [|c ds']; [congruence|].
    simpl in Hall. apply andb_true_iff in Hall as [Hc _].
    assert (E1 : (code c =? 45)%N = false)
      by (destruct c as [[] [] [] [] [] [] [] []]; (discriminate || reflexivity)).
    assert (E2 : (code c =? 43)%N = false)
      by (destruct c as [[] [] [] [] [] [] [] []]; (discriminate || reflexivity)).
    now rewrite E1, E2.
  - rewrite (@skip_int_blanks_id ("-"%char :: ds) eq_refl).
    assert (Hrev' : skip_int_blanks (rev ("-"%char :: ds))
                    = rev ("-"%char :: ds)).
    { simpl rev. rewrite <- Hrev at 2.
      destruct (rev ds) as [|c r] eqn:E.
      - apply (f_equal (@rev ascii)) in E. rewrite rev_involutive in E.
        now elim Hne.
      - simpl. assert (Hc : is_int_blank c = false).
        { apply digit_is_no_blank.
          assert (Hr : forallb is_digit (rev ds) = true)
            by now rewrite forallb_rev.
          rewrite E in Hr. simpl in Hr.
          now apply andb_true_iff in Hr as [Hr _]. }
        rewrite Hc. simpl in Hrev. rewrite Hc in Hrev. reflexivity. }
    rewrite Hrev', rev_involutive.
    change (code "-" =? 45)%N with true. cbv iota. now rewrite Hval.
Qed.

Lemma string_of_uint_digits (d : Decimal.uint) :
  d <> Decimal.Nil ->
  NilZero.string_of_uint d = NilEmpty.string_of_uint d.
Proof.
  destruct d; [intros H; now elim H | reflexivity..].
Qed.

Lemma int_str_of_int (n : Z) : int (str_of_int n) = Some n.
Proof.
  unfold str_of_int. destruct n as [|p|p].
  - reflexivity.
  - change (Z.to_int (Zpos p)) with (Decimal.Pos (Pos.to_uint p)).
    pose proof (DecimalPos.Unsigned.to_uint_nonnil p) as Hd.
    unfold NilZero.string_of_int. rewrite (string_of_uint_digits Hd).
    rewrite (proj1 (int_of_digits Hd)).
    now rewrite DecimalPos.Unsigned.of_to.
  - change (Z.to_int (Zneg p)) with (Decimal.Neg (Pos.to_uint p)).
    pose proof (DecimalPos.Unsigned.to_uint_nonnil p) as Hd.
    unfold NilZero.string_of_int. rewrite (string_of_uint_digits Hd).
    change (L (String "-" (NilEmpty.string_of_uint (Pos.to_uint p))))
      with ("-"%char :: L (NilEmpty.string_of_uint (Pos.to_uint p))).
    rewrite (proj2 (int_of_digits Hd)).
    now rewrite DecimalPos.Unsigned.of_to.
Qed.

Lemma split1_first (sep : ascii) (s : str) :
  contains [sep] s = true ->
  exists a b, split1 sep s = [a; b] /\ s = a ++ sep :: b /\ ~ In sep a.
Proof.
  induction s as [|c s IH]; [discriminate|].
  simpl contains. simpl split1.
  destruct (Ascii.eqb_spec c sep) as [->|Hc].
  - intros _. exists [], s. repeat split. intros [].
  - replace (Ascii.eqb sep c) with false
      by (symmetry; apply Ascii.eqb_neq; congruence).
    simpl. intros H. destruct (IH H) as [a [b [-> [-> Ha]]]].
    exists (c :: a), b. repeat split.
    intros [E|Hin]; [now elim Hc | now elim Ha].
Qed.

Lemma split1_without (sep : ascii) (s : str) :
  ~ In sep s -> contains [sep] s = false.
Proof.
  intros H. destruct (contains [sep] s) eqn:E; [|reflexivity].
  apply contains_iff in E as [pre [post ->]]. elim H.
  apply in_or_app. right. now left.
Qed.

Lemma split1_unique (sep : ascii) (a b : str) :
  ~ In sep a -> split1 sep (a ++ sep :: b) = [a; b].
Proof.
  intros Ha. induction a as [|c a IH]; simpl.
  - now rewrite Ascii.eqb_refl.
  - destruct (Ascii.eqb_spec c sep) as [->|Hc]; [elim Ha; now left|].
    rewrite IH; [reflexivity|]. intros H. elim Ha. now right.
Qed.

(** A line is parsed exactly when it has a colon: the number is read off
    the text before the first colon, the content is all that follows. *)
Lemma parse_line_colon (line : str) :
  (contains [colon] line = false /\ parse_line line = None)
  \/ (exists num content,
        contains [colon] line = true
        /\ line = num ++ colon :: content /\ ~ In colon num
        /\ parse_line line
           = Some (match int num with Some n => n | None => 0%Z end, content)).
Proof.
  unfold parse_line. destruct (contains [colon] line) eqn:C.
  - right. destruct (split1_first colon line C) as [num [content [S [E Hnum]]]].
    exists num, content. rewrite S. auto.
  - left. auto.
Qed.

Lemma str_of_int_no_colon (n : Z) : ~ In colon (str_of_int n).
Proof.
  assert (Hd : forall d, ~ In colon (L (NilEmpty.string_of_uint d))).
  { intros d Hin. pose proof (uint_digits d) as Hall.
    rewrite forallb_forall in Hall. apply Hall in Hin.
    now apply digit_is_no_blank in Hin as [_ Hin]. }
  unfold str_of_int. destruct n as [|p|p].
  - intros [H|[]]. discriminate H.
  - change (Z.to_int (Zpos p)) with (Decimal.Pos (Pos.to_uint p)).
    unfold NilZero.string_of_int.
    rewrite (string_of_uint_digits (DecimalPos.Unsigned.to_uint_nonnil p)).
    apply Hd.
  - change (Z.to_int (Zneg p)) with (Decimal.Neg (Pos.to_uint p)).
    unfold NilZero.string_of_int.
    rewrite (string_of_uint_digits (DecimalPos.Unsigned.to_uint_nonnil p)).
    intros [H|H]; [discriminate H | now apply Hd in H].
Qed.

Lemma parse_numbered_line (n : Z) (text : str) :
  parse_line (str_of_int n ++ colon :: text) = Some (n, text).
Proof.
  unfold parse_line.
  replace (contains [colon] (str_of_int n ++ colon :: text)) with true.
  - rewrite (@split1_unique colon (str_of_int n) text (str_of_int_no_colon n)).
    now rewrite int_str_of_int.
  - symmetry. apply contains_iff. now exists (str_of_int n), text.
Qed.

Section Numbered.
Variable w : World.
Variable ag : Agent.

(** X4: for a matched line as [grep -n] prints it, the decimal line number
    (of any sign), a colon and the text of the line, the entry of lesson 6
    carries that very number, the name derived from the text after the
    first colon (further colons belong to the text) and the path of the
    file. *)
Theorem numbered_line_is_read_back (n : Z) (text file : str)
    (st st' : agent_state ag) (tm : Lesson6.TestMethod) :
  Lesson6.analyze_test_with_agent w ag (str_of_int n ++ colon :: text) file st
  = Ok (tm, st') ->
  Lesson6.line_number tm = n
  /\ Lesson6.name tm = Lesson6.method_name_of text
  /\ Lesson6.file_path tm = file.
Proof.
  intros H. apply analyze_entry in H as [purpose ->].
  unfold entry_for. now rewrite parse_numbered_line.
Qed.

(** X5: lesson 6 calls the agent exactly once for a line with a colon and
    never for a line without one; lesson 1 calls it once when, besides, the
    text before the first colon reads as an integer, and never otherwise. *)
Theorem agent_called_once_per_parsed_line (line file : str)
    (st st' : agent_state ag) (k k' : nat) :
  (forall tm,
      Lesson6.analyze_test_with_agent w (counting ag) line file (st, k)
      = Ok (tm, (st', k')) ->
      k' = if contains [colon] line then S k else k)
  /\ (forall purpose,
      Lesson1.analyze_test_with_agent w (counting ag) line file (st, k)
      = Ok (purpose, (st', k')) ->
      (k' = k \/ k' = S k)
      /\ (k' = S k <->
          exists num content n,
            line = num ++ colon :: content /\ ~ In colon num
            /\ int num = Some n)).
Proof.
  split.
  - intros tm.
    destruct (parse_line_colon line)
      as [[C P]|[num [content [C [E [Hnum P]]]]]]; rewrite C.
    + rewrite (analyze_unparsed w (counting ag) line file (st, k) P).
      now intros [= _ _ <-].
    + rewrite (analyze_parsed w (counting ag) line file (st, k) P).
      destruct (Steps.read_method_body w file _ content) as [body|e];
        [|discriminate].
      cbn [counting ask fst snd].
      destruct (fst (ask ag st _)) as [answer|e].
      * now intros [= _ _ <-].
      * destruct (is_Exception (exn_kind e)); [|discriminate].
        now intros [= _ _ <-].
  - intros purpose. unfold Lesson1.analyze_test_with_agent.
    destruct (contains [colon] line) eqn:C; cbn [negb].
    + destruct (split1_first colon line C) as [num [content [S [E Hnum]]]].
      rewrite S. destruct (int num) as [n|] eqn:I.
      * unfold bind, lift, ask_or.
        destruct (Steps.read_method_body w file n content) as [body|e];
          [|discriminate].
        cbn [counting ask fst snd].
        assert (Hyes : exists num0 content0 n0,
                   line = num0 ++ colon :: content0 /\ ~ In colon num0
                   /\ int num0 = Some n0) by now exists num, content, n.
        destruct (fst (ask ag st _)) as [answer|e].
        -- intros [= _ _ <-]. split; [now right | tauto].
        -- destruct (is_Exception (exn_kind e)); [|discriminate].
           intros [= _ _ <-]. split; [now right | tauto].
      * unfold ret. intros [= _ _ <-]. split; [now left|]. split; [lia|].
        intros [num0 [content0 [n0 [E0 [Hnum0 I0]]]]].
        rewrite E0, (@split1_unique colon num0 content0 Hnum0) in S.
        injection S as -> ->. congruence.
    + unfold ret. intros [= _ _ <-]. split; [now left|]. split; [lia|].
      intros [num0 [content0 [n0 [E0 _]]]].
      assert (contains [colon] line = true)
        by (apply contains_iff; now exists num0, content0).
      congruence.
Qed.
End Numbered.

Lemma numbered_line_is_read_back_sample :
  Lesson6.analyze_test_with_agent Sample.world Sample.agent
    (str_of_int 4 ++ colon :: L "  public void testSub() {") (L "/r/T.java") 1
  = Ok (Lesson6.mkTestMethod (L "testSub") 4 (L "Analysis failed: throttled")
          (L "/r/T.java"), 2)
  /\ Lesson6.line_number
       (Lesson6.mkTestMethod (L "testSub") 4 (L "Analysis failed: throttled")
          (L "/r/T.java")) = 4%Z
  /\ Lesson6.name
       (Lesson6.mkTestMethod (L "testSub") 4 (L "Analysis failed: throttled")
          (L "/r/T.java"))
     = Lesson6.method_name_of (L "  public void testSub() {")
  /\ Lesson6.file_path
       (Lesson6.mkTestMethod (L "testSub") 4 (L "Analysis failed: throttled")
          (L "/r/T.java")) = L "/r/T.java".
Proof.
  split; [reflexivity|].
  apply (numbered_line_is_read_back Sample.world Sample.agent 4
           (L "  public void testSub() {") (L "/r/T.java") 1 (st' := 2)).
  reflexivity.
Defined.

Lemma agent_called_once_per_parsed_line_sample :
  Lesson6.analyze_test_with_agent Sample.world (counting Sample.agent)
    (L "4:  public void testSub() {") (L "/r/T.java") (1, 7)
  = Ok (Lesson6.mkTestMethod (L "testSub") 4 (L "Analysis failed: throttled")
          (L "/r/T.java"), (2, 8))
  /\ 8 = (if contains [colon] (L "4:  public void testSub() {")
          then 8 else 7).
Proof.
  split; [reflexivity|].
  apply (proj1 (agent_called_once_per_parsed_line Sample.world Sample.agent
                  (L "4:  public void testSub() {") (L "/r/T.java")
                  1 2 7 8)
           (Lesson6.mkTestMethod (L "testSub") 4
              (L "Analysis failed: throttled") (L "/r/T.java"))).
  reflexivity.
Defined.

(** ** Scans that find nothing, scans that complete, scans that stop *)

Section WholeScan.
Variable w : World.
Variable ag : Agent.

Lemma scan_without_candidates (files : list str) :
  (forall file, In file files -> path_exists w file = true ->
                exists out, run_grep w file = Ok out) ->
  (forall file, In file files -> has_candidates w file = false) ->
  forall (fas : list Lesson6.FileAnalysis) (total : Z) (st : agent_state ag),
    Lesson6.scan w ag files fas total st = Ok ((fas, total), st).
Proof.
  induction files as [|file rest IH]; intros Hgrep Hnone fas total st.
  - reflexivity.
  - assert (IH' : Lesson6.scan w ag rest fas total st = Ok (fas, total, st)).
    { apply IH; intros f Hf; [apply Hgrep | apply Hnone]; now right. }
    rewrite scan_cons.
    pose proof (Hnone file (or_introl eq_refl)) as Hc.
    unfold has_candidates, candidates in Hc.
    destruct (path_exists w file) eqn:PE; cbn [negb]; [|exact IH'].
    destruct (Hgrep file (or_introl eq_refl) PE) as [out Hout].
    unfold Steps.find_test_lines in *. rewrite Hout in *.
    destruct (Steps.no_test_lines _); [exact IH'|].
    destruct (Steps.extract_test_methods _); [exact IH' | discriminate Hc].
Qed.

(** X6: when no file that [find] lists has a candidate (in particular when
    [find] lists nothing), lesson 6 ends with no file analysis, zero tests
    and the summary of zero files, counts the files that exist all the
    same, and does not call the agent. *)
Theorem nothing_to_analyse (repo : str) (files : list str)
    (st : agent_state ag) :
  Steps.list_files w repo = Ok files ->
  (forall file, In file files -> path_exists w file = true ->
                exists out, run_grep w file = Ok out) ->
  (forall file, In file files -> has_candidates w file = false) ->
  Lesson6.main w ag repo st
  = Ok (Lesson6.mkResult repo
          (Z.of_nat (length (filter (path_exists w) files))) 0 []
          (L "Analyzed 0 files with test methods, found 0 total test methods"),
        st).
Proof.
  intros Hfiles Hgrep Hnone. unfold Lesson6.main, bind, lift.
  rewrite Hfiles. now rewrite (@scan_without_candidates files Hgrep Hnone [] 0%Z st).
Qed.

Lemma analyze1_total (line file : str) (st : agent_state ag) :
  benign_reads w -> raises_exceptions ag ->
  exists purpose st',
    Lesson1.analyze_test_with_agent w ag line file st = Ok (purpose, st').
Proof.
  intros Hw Hag. unfold Lesson1.analyze_test_with_agent.
  destruct (negb (contains [colon] line)); [unfold ret; eauto|].
  destruct (split1 colon line) as [|num [|content rest]];
    try (unfold ret; eauto; fail).
  destruct (int num) as [n|]; [|unfold ret; eauto].
  unfold bind, lift, ask_or.
  destruct (@read_method_body_total w file content n Hw) as [body ->].
  destruct (ask ag st _) as [[answer|e] st1] eqn:A; [eauto|].
  rewrite (Hag _ _ _ _ A). eauto.
Qed.

Lemma analyze_methods1_total (file : str) (lines : list str) :
  benign_reads w -> raises_exceptions ag ->
  forall (acc : list Lesson1.TestEntry) (st : agent_state ag),
  exists res st', Lesson1.analyze_methods w ag file lines acc st = Ok (res, st').
Proof.
  intros Hw Hag. induction lines as [|line lines IH]; intros acc st; simpl.
  - unfold ret. eauto.
  - unfold bind at 1.
    destruct (analyze1_total line file st Hw Hag) as [purpose [st1 ->]].
    apply IH.
Qed.

Lemma scan1_total (files : list str) :
  benign_reads w -> raises_exceptions ag -> commands_run w ->
  forall (all_tests : list Lesson1.TestEntry) (st : agent_state ag),
  exists res st', Lesson1.scan w ag files all_tests st = Ok (res, st').
Proof.
  intros Hw Hag [_ Hgrep].
  induction files as [|file rest IH]; intros all_tests st.
  - simpl. unfold ret. eauto.
  - rewrite scan1_cons. destruct (has_candidates w file).
    + destruct (analyze_methods1_total file (firstn 3 (candidates w file))
                  Hw Hag all_tests st) as [res [st1 ->]].
      apply IH.
    + unfold Steps.find_test_lines. destruct (Hgrep file) as [out ->].
      destruct (path_exists w file); apply IH.
Qed.

(** X7: a scan always completes, in lesson 6 and in lesson 1, when [find]
    and [grep] can be run, every file either opens or fails to open with an
    [IOError], and the agent fails with nothing but an [Exception]: in
    that case no file and no answer of the agent aborts the run. *)
Theorem scan_completes (repo : str) (st : agent_state ag) :
  benign_reads w -> raises_exceptions ag -> commands_run w ->
  (exists r st', Lesson6.main w ag repo st = Ok (r, st'))
  /\ (exists all_tests st', Lesson1.main w ag repo st = Ok (all_tests, st')).
Proof.
  intros Hw Hag Hcmd. split; [now apply main_total|].
  unfold Lesson1.main, bind, lift, Steps.list_files.
  destruct (proj1 Hcmd repo) as [out ->].
  apply scan1_total; assumption.
Qed.

Lemma read_when_body_read (file content : str) (n : Z) (body : str) :
  Steps.read_method_body w file n content = Ok body ->
  match open_read w file with
  | Ok _ => True
  | Raise e => is_IOError_or_IndexError (exn_kind e) = true
  end.
Proof.
  unfold Steps.read_method_body.
  destruct (open_read w file) as [text|e]; [trivial|]. simpl.
  now destruct (is_IOError_or_IndexError (exn_kind e)).
Qed.

Lemma analyze_methods_reads (file : str) (lines : list str) :
  forall (acc res : list Lesson6.TestMethod) (st st' : agent_state ag),
    Lesson6.analyze_methods w ag file lines acc st = Ok (res, st') ->
    (exists line, In line lines /\ contains [colon] line = true) ->
    match open_read w file with
    | Ok _ => True
    | Raise e => is_IOError_or_IndexError (exn_kind e) = true
    end.
Proof.
  induction lines as [|line lines IH]; intros acc res st st' H [l [Hin Hl]];
    [destruct Hin|].
  simpl in H. unfold bind at 1 in H.
  destruct (Lesson6.analyze_test_with_agent w ag line file st)
    as [[tm st1]|e] eqn:A; [|discriminate].
  destruct Hin as [->|Hin]; [|apply (IH _ _ _ _ H); eauto].
  destruct (parse_line_colon l) as [[C _]|[num [content [_ [_ [_ P]]]]]];
    [congruence|].
  rewrite (analyze_parsed w ag l file st P) in A.
  destruct (Steps.read_method_body w file _ content) as [body|e] eqn:B;
    [|discriminate].
  exact (read_when_body_read _ _ _ B).
Qed.

Lemma scan_reads (files : list str) :
  forall (fas fas' : list Lesson6.FileAnalysis) (total total' : Z)
         (st st' : agent_state ag),
    Lesson6.scan w ag files fas total st = Ok ((fas', total'), st') ->
    forall file,
      In file (filter (has_candidates w) files) ->
      (exists line,
          In line (firstn 3 (candidates w file))
          /\ contains [colon] line = true) ->
      match open_read w file with
      | Ok _ => True
      | Raise e => is_IOError_or_IndexError (exn_kind e) = true
      end.
Proof.
  induction files as [|file0 rest IH];
    intros fas fas' total total' st st' H file Hin Hline; [destruct Hin|].
  rewrite scan_cons in H. cbn [filter] in Hin.
  unfold has_candidates at 1 in Hin.
  pose proof Hline as [l0 [Hl0 _]].
  destruct (path_exists w file0) eqn:PE; cbn [negb andb] in *;
    [|now apply (IH _ _ _ _ _ _ H)].
  unfold candidates in Hin at 1.
  destruct (Steps.find_test_lines w file0) as [test_lines|e] eqn:F;
    [|discriminate].
  destruct (Steps.no_test_lines test_lines) eqn:N;
    [now apply (IH _ _ _ _ _ _ H)|].
  destruct (Steps.extract_test_methods test_lines) as [|l ls] eqn:X;
    [now apply (IH _ _ _ _ _ _ H)|].
  destruct (Lesson6.analyze_methods w ag file0 (firstn 3 (l :: ls)) [] st)
    as [[analyzed st1]|e] eqn:A; [|discriminate].
  destruct Hin as [->|Hin]; [|now apply (IH _ _ _ _ _ _ H)].
  apply (analyze_methods_reads _ _ _ _ A).
  unfold candidates in Hline. now rewrite F, N, X in Hline.
Qed.

(** X8: a scan of lesson 6 that completes has opened, or failed to open
    with an [IOError], every file that has a candidate with a colon among
    its first three.  Put the other way round: one such file that fails
    with another error (a text that does not decode, say) is not caught by
    the [try] block and aborts the whole scan. *)
Theorem completed_scan_read_its_files (repo : str) (st st' : agent_state ag)
    (r : Lesson6.TestExtractionResult) :
  Lesson6.main w ag repo st = Ok (r, st') ->
  exists files,
    Steps.list_files w repo = Ok files
    /\ forall file,
        In file (filter (has_candidates w) files) ->
        (exists line,
            In line (firstn 3 (candidates w file))
            /\ contains [colon] line = true) ->
        match open_read w file with
        | Ok _ => True
        | Raise e => is_IOError_or_IndexError (exn_kind e) = true
        end.
Proof.
  unfold Lesson6.main, bind, lift.
  destruct (Steps.list_files w repo) as [files|e]; [|discriminate].
  destruct (Lesson6.scan w ag files [] 0%Z st) as [[[fas total] st1]|e] eqn:S;
    [|discriminate].
  intros _. exists files. split; [reflexivity|].
  exact (scan_reads _ _ _ _ S).
Qed.
End WholeScan.

Lemma nothing_to_analyse_sample :
  Steps.list_files Sample.world (L "/none") = Ok []
  /\ Lesson6.main Sample.world Sample.agent (L "/none") 5
     = Ok (Lesson6.mkResult (L "/none") 0 0 []
             (L "Analyzed 0 files with test methods, found 0 total test methods"),
           5).
Proof.
  split; [reflexivity|].
  apply (@nothing_to_analyse Sample.world Sample.agent (L "/none") [] 5).
  - reflexivity.
  - intros file [].
  - intros file [].
Defined.

Lemma scan_completes_sample :
  benign_reads Sample.world /\ raises_exceptions Sample.agent
  /\ commands_run Sample.world
  /\ (exists r st',
        Lesson6.main Sample.world Sample.agent (L "/r") 0 = Ok (r, st'))
  /\ (exists all_tests st',
        Lesson1.main Sample.world Sample.agent (L "/r") 0
        = Ok (all_tests, st')).
Proof.
  split; [exact sample_benign_reads|].
  split; [exact sample_raises_exceptions|].
  split; [exact sample_commands_run|].
  exact (@scan_completes Sample.world Sample.agent (L "/r") 0
           sample_benign_reads sample_raises_exceptions sample_commands_run).
Defined.

Lemma completed_scan_read_its_files_sample :
  Lesson6.main Sample.world Sample.agent (L "/r") 0 = Ok (Sample.expected, 3)
  /\ exists files,
      Steps.list_files Sample.world (L "/r") = Ok files
      /\ forall file,
          In file (filter (has_candidates Sample.world) files) ->
          (exists line,
              In line (firstn 3 (candidates Sample.world file))
              /\ contains [colon] line = true) ->
          match open_read Sample.world file with
          | Ok _ => True
          | Raise e => is_IOError_or_IndexError (exn_kind e) = true
          end.
Proof.
  split; [reflexivity|].
  apply (@completed_scan_read_its_files Sample.world Sample.agent (L "/r")
           0 3 Sample.expected).
  reflexivity.
Defined.

(** ** What step 3 keeps, and the names that follow *)

(** X9: every line that step 3 keeps has the text [test] in it, in some
    letter case: step 3 keeps no line that the search of step 2
    ([grep -i test]) would not have printed. *)
Theorem kept_line_mentions_test (line : str) :
  Steps.is_test_line line = true ->
  exists pre t post,
    line = pre ++ t ++ post /\ text_eq true (L "test") t = true.
Proof.
  intros H. apply is_test_line_coded in H as [H | [pre [post ->]]].
  - destruct H as [pre [m [mid [name [ws [post [Hshape Hname]]]]]]].
    destruct Hshape as [-> _]. destruct Hname as [t [wd [-> [Ht _]]]].
    exists (pre ++ m ++ mid), t, (wd ++ ws ++ L "(" ++ post).
    rewrite <- !app_assoc. auto.
  - exists (pre ++ L "@"), (L "Test"), post. rewrite <- !app_assoc. auto.
Qed.

Lemma kept_line_mentions_test_sample :
  Steps.is_test_line (L "3:  public void testAdd() {") = true
  /\ exists pre t post,
      L "3:  public void testAdd() {" = pre ++ t ++ post
      /\ text_eq true (L "test") t = true.
Proof.
  split; [reflexivity|].
  apply (@kept_line_mentions_test (L "3:  public void testAdd() {")).
  reflexivity.
Defined.

Lemma after_prefix (P : ascii -> Prop) (p0 text pre rest : str) (x : ascii) :
  Forall P p0 -> ~ P x ->
  p0 ++ text = pre ++ x :: rest ->
  exists pre', pre = p0 ++ pre' /\ text = pre' ++ x :: rest.
Proof.
  intros Hp Hx E. apply app_eq_app in E as [d [[-> E]|[-> E]]].
  - destruct d as [|y d]; simpl in E.
    + exists []. now rewrite !app_nil_r.
    + injection E as <- _. apply Forall_app in Hp as [_ Hp].
      inversion Hp; subst. contradiction.
  - now exists d.
Qed.

Lemma str_of_int_chars (n : Z) :
  Forall (fun c => is_digit c = true \/ c = "-"%char) (str_of_int n).
Proof.
  assert (Hd : forall d,
             Forall (fun c => is_digit c = true \/ c = "-"%char)
               (L (NilEmpty.string_of_uint d))).
  { intros d. apply Forall_forall. intros c Hc. left.
    pose proof (uint_digits d) as Hall. rewrite forallb_forall in Hall. auto. }
  unfold str_of_int. destruct n as [|p|p].
  - constructor; [now left | constructor].
  - change (Z.to_int (Zpos p)) with (Decimal.Pos (Pos.to_uint p)).
    unfold NilZero.string_of_int.
    rewrite (string_of_uint_digits (DecimalPos.Unsigned.to_uint_nonnil p)).
    apply Hd.
  - change (Z.to_int (Zneg p)) with (Decimal.Neg (Pos.to_uint p)).
    unfold NilZero.string_of_int.
    rewrite (string_of_uint_digits (DecimalPos.Unsigned.to_uint_nonnil p)).
    constructor; [now right | apply Hd].
Qed.

Lemma number_prefix_chars (n : Z) :
  Forall (fun c => is_word c = true /\ is_lower c = false
                   /\ is_upper c = false \/ is_word c = false /\ c <> "@"%char)
    (str_of_int n ++ [colon]).
Proof.
  apply Forall_app. split.
  - apply Forall_impl with (2 := str_of_int_chars n).
    intros c [Hc| ->]; [|right; split; [reflexivity | discriminate]].
    left. destruct c as [[] [] [] [] [] [] [] []]; try discriminate Hc;
      repeat split.
  - constructor; [|constructor]. right. split; [reflexivity | discriminate].
Qed.

Lemma modifier_starts_with_letter (m : str) :
  is_modifier true m = true ->
  exists c m', m = c :: m' /\ (is_lower c = true \/ is_upper c = true).
Proof.
  assert (Hp : forall c, chr_eq true "p" c = true ->
                         is_lower c = true \/ is_upper c = true).
  { intros c. destruct c as [[] [] [] [] [] [] [] []]; try discriminate;
      intros _; (now left) || (now right). }
  unfold is_modifier. rewrite !orb_true_iff.
  intros [[H|H]|H];
    [change (L "public") with ("p"%char :: L "ublic") in H
    |change (L "private") with ("p"%char :: L "rivate") in H
    |change (L "protected") with ("p"%char :: L "rotected") in H];
    apply text_eq_cons in H as [c [m' [-> [Hc _]]]]; exists c, m'; auto.
Qed.

Lemma test_word_is_not_unknown (name : str) :
  is_test_word name -> name <> L "Unknown".
Proof.
  intros [t [wd [-> [Ht _]]]] E.
  change (L "test") with ("t"%char :: L "est") in Ht.
  apply text_eq_cons in Ht as [a [t1 [-> [Ha _]]]].
  injection E as -> _. discriminate Ha.
Qed.

(** X10: a matched line in the form of [grep -n], number, colon and text,
    that step 3 keeps and whose text has no [@Test], is kept for its
    modifier and [test...] word, and that word lies in the text after the
    colon: the name lesson 6 derives for it is a [test...] word, never the
    sentinel [Unknown]. *)
Theorem modifier_candidate_gets_test_name (n : Z) (text : str) :
  Steps.is_test_line (str_of_int n ++ colon :: text) = true ->
  contains (L "@Test") text = false ->
  is_test_word (Lesson6.method_name_of text)
  /\ Lesson6.method_name_of text <> L "Unknown".
Proof.
  intros Hkept Hno.
  assert (Hnot : ~ occurs (L "@Test") text).
  { intros H. apply contains_iff in H. congruence. }
  assert (Hword : is_test_word (Lesson6.method_name_of text));
    [|split; [assumption | now apply test_word_is_not_unknown]].
  replace (str_of_int n ++ colon :: text)
    with ((str_of_int n ++ [colon]) ++ text) in Hkept
    by now rewrite <- app_assoc.
  pose proof (number_prefix_chars n) as Hprefix.
  assert (Hat : exists pre s, text = pre ++ s /\ test_word_at s).
  { apply is_test_line_coded in Hkept as [H | [pre [post E]]].
    - destruct H as [pre [m [mid [name [ws [post [Hshape Hname]]]]]]].
      destruct Hshape as [E [Hm _]].
      destruct (modifier_starts_with_letter m Hm) as [c [m' [-> Hc]]].
      simpl in E.
      eapply after_prefix in E as [pre' [_ ->]]; [|exact Hprefix|].
      + exists (pre' ++ (c :: m') ++ mid), (name ++ ws ++ L "(" ++ post).
        rewrite <- !app_assoc. split; [reflexivity|].
        now exists name, (ws ++ L "(" ++ post).
      + intros [[Hw [Hl Hu]]|[Hw _]].
        * destruct Hc; congruence.
        * destruct Hc as [Hc|Hc];
            destruct c as [[] [] [] [] [] [] [] []]; discriminate.
    - change (L "@Test") with ("@"%char :: L "Test") in E. simpl in E.
      eapply after_prefix in E as [pre' [_ ->]]; [|exact Hprefix|].
      + elim Hnot. now exists pre', post.
      + intros [[Hw _]|[_ Hx]]; [discriminate Hw | now elim Hx]. }
  destruct Hat as [pre [s [E Hs]]].
  destruct (method_name_of_derived text) as [[Ho _]|[_ [H|[Hnone _]]]].
  - contradiction.
  - now destruct H as [pre0 [post0 [_ [Hname _]]]].
  - elim (Hnone pre s E Hs).
Qed.

Lemma modifier_candidate_gets_test_name_sample :
  Steps.is_test_line (str_of_int 3 ++ colon :: L "  public void testAdd() {")
  = true
  /\ contains (L "@Test") (L "  public void testAdd() {") = false
  /\ is_test_word (Lesson6.method_name_of (L "  public void testAdd() {"))
  /\ Lesson6.method_name_of (L "  public void testAdd() {") <> L "Unknown".
Proof.
  split; [reflexivity|]. split; [reflexivity|].
  apply (@modifier_candidate_gets_test_name 3 (L "  public void testAdd() {"));
    reflexivity.
Defined.

(** ** The shape of the result of lesson 6 *)

Lemma Forall2_image (A B : Type) (R : A -> B -> Prop) (Q : A -> Prop)
    (xs : list A) (ys : list B) :
  Forall2 R xs ys -> Forall Q xs ->
  Forall (fun y => exists x, Q x /\ R x y) ys.
Proof.
  induction 1 as [|x y xs ys H _ IH]; intros HQ; constructor;
    inversion HQ; subst; eauto.
Qed.

Lemma entry_file_path (file line : str) (tm : Lesson6.TestMethod) :
  is_entry_for file line tm -> Lesson6.file_path tm = file.
Proof.
  intros [purpose ->]. unfold entry_for.
  now destruct (parse_line line) as [[n c]|].
Qed.

Section Shape.
Variable w : World.
Variable ag : Agent.

(** X11: the result of a completed scan hangs together.  Its file analyses
    are, in the order of [find], the files that exist and have a candidate;
    each holds between one and three entries, all with the path of that
    file; the repository path is the one given; and the summary is the
    sentence with the number of file analyses and the total of the result
    written in decimal. *)
Theorem result_hangs_together (repo : str) (st st' : agent_state ag)
    (r : Lesson6.TestExtractionResult) :
  Lesson6.main w ag repo st = Ok (r, st') ->
  exists files,
    Steps.list_files w repo = Ok files
    /\ Lesson6.repository_path r = repo
    /\ map Lesson6.fa_file_path (Lesson6.file_analyses r)
       = filter (has_candidates w) files
    /\ Forall
         (fun fa =>
            path_exists w (Lesson6.fa_file_path fa) = true
            /\ (1 <= Lesson6.total_tests fa <= 3)%Z
            /\ Forall
                 (fun tm => Lesson6.file_path tm = Lesson6.fa_file_path fa)
                 (Lesson6.test_methods fa))
         (Lesson6.file_analyses r)
    /\ Lesson6.summary r
       = L "Analyzed "
         ++ str_of_int (Z.of_nat (length (Lesson6.file_analyses r)))
         ++ L " files with test methods, found "
         ++ str_of_int (Lesson6.total_tests_found r)
         ++ L " total test methods".
Proof.
  intros H.
  assert (Hsum : Lesson6.summary r
                 = L "Analyzed "
                   ++ str_of_int (Z.of_nat (length (Lesson6.file_analyses r)))
                   ++ L " files with test methods, found "
                   ++ str_of_int (Lesson6.total_tests_found r)
                   ++ L " total test methods").
  { revert H. unfold Lesson6.main, bind, lift.
    destruct (Steps.list_files w repo) as [files|e]; [|discriminate].
    destruct (Lesson6.scan w ag files [] 0%Z st) as [[[fas total] st1]|e];
      [|discriminate].
    unfold ret. now intros [= <- _]. }
  apply main_spec in H as [files [Hfiles [Hrepo [_ [_ Hfa]]]]].
  exists files. repeat split; try assumption.
  - clear Hsum. induction Hfa as [|file fa fs fas [Hp _] _ IH]; simpl;
      [reflexivity | now rewrite Hp, IH].
  - assert (Hall : Forall (fun file => has_candidates w file = true)
                     (filter (has_candidates w) files)).
    { apply Forall_forall. intros file Hin. now apply filter_In in Hin. }
    apply Forall_impl with (2 := Forall2_image Hfa Hall).
    intros fa [file [Hc [Hp [Hlen Hentries]]]].
    unfold has_candidates in Hc. apply andb_true_iff in Hc as [He Hc].
    rewrite Hp. split; [assumption|]. split.
    + rewrite Hlen. unfold Lesson6.len.
      rewrite <- (Forall2_length Hentries), length_firstn.
      destruct (candidates w file) as [|l ls]; [discriminate|]. simpl length.
      lia.
    + apply Forall2_right with (2 := Hentries).
      intros line tm. apply entry_file_path.
Qed.
End Shape.

Lemma result_hangs_together_sample :
  Lesson6.main Sample.world Sample.agent (L "/r") 0 = Ok (Sample.expected, 3)
  /\ exists files,
      Steps.list_files Sample.world (L "/r") = Ok files
      /\ Lesson6.repository_path Sample.expected = L "/r"
      /\ map Lesson6.fa_file_path (Lesson6.file_analyses Sample.expected)
         = filter (has_candidates Sample.world) files
      /\ Forall
           (fun fa =>
              path_exists Sample.world (Lesson6.fa_file_path fa) = true
              /\ (1 <= Lesson6.total_tests fa <= 3)%Z
              /\ Forall
                   (fun tm => Lesson6.file_path tm = Lesson6.fa_file_path fa)
                   (Lesson6.test_methods fa))
           (Lesson6.file_analyses Sample.expected)
      /\ Lesson6.summary Sample.expected
         = L "Analyzed "
           ++ str_of_int
                (Z.of_nat (length (Lesson6.file_analyses Sample.expected)))
           ++ L " files with test methods, found "
           ++ str_of_int (Lesson6.total_tests_found Sample.expected)
           ++ L " total test methods".
Proof.
  split; [reflexivity|].
  apply (@result_hangs_together Sample.world Sample.agent (L "/r") 0 3
           Sample.expected).
  reflexivity.
Defined.

(** ** The name of the output file *)

Lemma replace_chr_chars (old x : ascii) (new s : str) :
  In x (replace_chr old new s) -> In x new \/ (In x s /\ x <> old).
Proof.
  induction s as [|c s IH]; simpl; [intros []|].
  destruct (Ascii.eqb_spec c old) as [->|Hc].
  - intros H. apply in_app_or in H as [H|H]; [now left|].
    destruct (IH H) as [H'|[H' Hx]]; [now left | right; auto].
  - intros [<-|H]; [right; auto|].
    destruct (IH H) as [H'|[H' Hx]]; [now left | right; auto].
Qed.

Lemma replace_chr_length (old new : ascii) (s : str) :
  length (replace_chr old [new] s) = length s.
Proof.
  induction s as [|c s IH]; simpl; [reflexivity|].
  destruct (Ascii.eqb c old); simpl; now rewrite IH.
Qed.

(** X12: the name of the file the results are saved to has neither a slash
    nor a space, whatever the repository path: the file is created in the
    current directory.  The name is as long as the path and the fixed
    prefix and suffix together. *)
Theorem output_file_has_no_separator (repo_path : str) :
  ~ In "/"%char (Output.structured_file repo_path)
  /\ ~ In " "%char (Output.structured_file repo_path)
  /\ ~ In "/"%char (Output.text_file repo_path)
  /\ ~ In " "%char (Output.text_file repo_path)
  /\ length (Output.structured_file repo_path) = 30 + length repo_path
  /\ length (Output.text_file repo_path) = 18 + length repo_path.
Proof.
  assert (Hflat : forall x, In x (Output.flat_name repo_path) ->
                            x <> "/"%char /\ x <> " "%char).
  { intros x H. unfold Output.flat_name in H.
    apply replace_chr_chars in H as [[<-|[]]|[H Hx]];
      [split; discriminate|].
    apply replace_chr_chars in H as [[<-|[]]|[H Hy]];
      [split; discriminate | auto]. }
  assert (Hlen : length (Output.flat_name repo_path) = length repo_path).
  { unfold Output.flat_name. change (L "_") with ["_"%char].
    now rewrite !replace_chr_length. }
  unfold Output.structured_file, Output.text_file.
  repeat split;
    try (intros H; apply in_app_or in H as [H|H];
         [revert H; clear; simpl; intuition discriminate|];
         apply in_app_or in H as [H|H];
         [apply Hflat in H; tauto
         |revert H; clear; simpl; intuition discriminate]).
  - rewrite !length_app, Hlen. simpl. lia.
  - rewrite !length_app, Hlen. simpl. lia.
Qed.

(** ** lesson_3.py: what the tools hand to the commands *)

Lemma replace_chr_grows (old : ascii) (new s : str) :
  new <> [] -> length s <= length (replace_chr old new s).
Proof.
  intros Hnew. induction s as [|c s IH]; simpl; [lia|].
  destruct (Ascii.eqb c old); [|simpl; lia].
  rewrite length_app. destruct new; [congruence | simpl; lia].
Qed.

Lemma shlex_quote_wraps (s : str) :
  s = [] \/ forallb Lesson3.is_shell_safe s = false ->
  exists inner,
    Lesson3.shlex_quote s = squote :: inner ++ [squote]
    /\ length s <= length inner.
Proof.
  unfold Lesson3.shlex_quote. intros [->|H].
  - exists []. split; [reflexivity | simpl; lia].
  - destruct s as [|c s]; [discriminate|]. rewrite H.
    eexists. split; [reflexivity|]. apply replace_chr_grows. discriminate.
Qed.

Lemma shlex_quote_same (s : str) :
  Lesson3.shlex_quote s = s <->
  s <> [] /\ forallb Lesson3.is_shell_safe s = true.
Proof.
  split.
  - intros E. destruct s as [|c s]; [discriminate|].
    destruct (forallb Lesson3.is_shell_safe (c :: s)) eqn:H;
      [split; [discriminate | reflexivity]|].
    destruct (shlex_quote_wraps (or_intror H)) as [inner [E' Hlen]].
    rewrite E' in E. apply (f_equal (@length ascii)) in E.
    simpl in E, Hlen. rewrite length_app in E. simpl in E. lia.
  - intros [Hne H]. unfold Lesson3.shlex_quote.
    destruct s; [congruence | now rewrite H].
Qed.

(** X13: the search pattern and the file path reach [grep] as they are
    exactly when both are non-empty and made of shell-safe characters
    only.  A pattern that is empty or has any other character (a space, a
    backslash, a parenthesis, a star) reaches [grep] between two single
    quotes: the command is started without a shell, so they are not taken
    off on the way. *)
Theorem grep_gets_the_pattern_verbatim_iff_safe (pattern path : str)
    (case_insensitive : bool) :
  (Lesson3.grep_cmd pattern path case_insensitive
   = [L "grep"; L "-n"] ++ (if case_insensitive then [L "-i"] else [])
     ++ [pattern; path]
   <-> (pattern <> [] /\ forallb Lesson3.is_shell_safe pattern = true)
       /\ (path <> [] /\ forallb Lesson3.is_shell_safe path = true))
  /\ (pattern = [] \/ forallb Lesson3.is_shell_safe pattern = false ->
      exists inner,
        Lesson3.grep_cmd pattern path case_insensitive
        = [L "grep"; L "-n"] ++ (if case_insensitive then [L "-i"] else [])
          ++ [squote :: inner ++ [squote]; Lesson3.shlex_quote path]
        /\ length pattern <= length inner).
Proof.
  unfold Lesson3.grep_cmd. rewrite <- !app_assoc. split.
  - rewrite <- !shlex_quote_same. split.
    + intros E. apply app_inv_head in E.
      destruct case_insensitive; simpl in E; injection E; auto.
    + now intros [-> ->].
  - intros H. destruct (shlex_quote_wraps H) as [inner [-> Hlen]].
    now exists inner.
Qed.

(** X14: [grep_pattern] lets an error out only when [grep] was started,
    for an existing regular file and a permitted pattern, and ended with an
    error that is no [Exception]; every [Exception] is turned into the text
    [Error: ] and its message.  Without an existing regular file the
    answer is the file error, whatever the pattern, and then as for a
    pattern that is turned down, [grep] is not started: the answer is the
    same on every machine with the same files. *)
Theorem grep_pattern_errors (h : Lesson3.Host) (file pattern : str)
    (case_insensitive : bool) :
  (forall e,
      Lesson3.grep_pattern h file pattern case_insensitive = Raise e ->
      is_Exception (exn_kind e) = false
      /\ Lesson3.subprocess_run h
           (Lesson3.grep_cmd pattern (Lesson3.abspath h file) case_insensitive)
         = Raise e
      /\ Lesson3.pattern_allowed pattern = true
      /\ Lesson3.exists_ h (Lesson3.abspath h file) = true
      /\ Lesson3.isfile h (Lesson3.abspath h file) = true)
  /\ (Lesson3.exists_ h (Lesson3.abspath h file)
      && Lesson3.isfile h (Lesson3.abspath h file) = false ->
      Lesson3.grep_pattern h file pattern case_insensitive
      = Ok Lesson3.file_error)
  /\ (forall run,
      Lesson3.exists_ h (Lesson3.abspath h file)
      && Lesson3.isfile h (Lesson3.abspath h file)
      && Lesson3.pattern_allowed pattern = false ->
      Lesson3.grep_pattern
        (Lesson3.mkHost (Lesson3.abspath h) (Lesson3.exists_ h)
           (Lesson3.isfile h) run)
        file pattern case_insensitive
      = Lesson3.grep_pattern h file pattern case_insensitive).
Proof.
  unfold Lesson3.grep_pattern. cbn [Lesson3.abspath Lesson3.exists_
    Lesson3.isfile Lesson3.subprocess_run].
  destruct (Lesson3.exists_ h (Lesson3.abspath h file));
    destruct (Lesson3.isfile h (Lesson3.abspath h file));
    destruct (Lesson3.pattern_allowed pattern);
    cbn [negb orb andb try_except];
    (split; [|split]); try discriminate; try reflexivity.
  intros e.
  destruct (Lesson3.subprocess_run h _) as [out|e0]; cbn [try_except].
  - discriminate.
  - destruct (is_Exception (exn_kind e0)) eqn:K; [discriminate|].
    intros [= <-]. auto.
Qed.

Lemma grep_pattern_errors_sample :
  Lesson3.grep_pattern MoreSample.interrupted_host (L "/r/T.java") (L "test")
    true
  = Raise (mkExn BaseOnly (L "KeyboardInterrupt"))
  /\ is_Exception (exn_kind (mkExn BaseOnly (L "KeyboardInterrupt"))) = false
  /\ Lesson3.grep_pattern MoreSample.interrupted_host (L "/r/V.java")
       (L "rm -rf") true
     = Ok Lesson3.file_error.
Proof.
  destruct (grep_pattern_errors MoreSample.interrupted_host (L "/r/T.java")
              (L "test") true) as [Hraise _].
  destruct (grep_pattern_errors MoreSample.interrupted_host (L "/r/V.java")
              (L "rm -rf") true) as [_ [Hfile _]].
  split; [reflexivity|].
  split; [exact (proj1 (Hraise _ eq_refl)) | exact (Hfile eq_refl)].
Defined.

(** ** lesson_3.py: [find_files] *)

Lemma str_eqb_eq (a b : str) : Lesson3Find.str_eqb a b = true <-> a = b.
Proof.
  unfold Lesson3Find.str_eqb.
  destruct (list_eq_dec ascii_dec a b); split; congruence.
Qed.

Lemma pattern_listed_iff (name_pattern : str) :
  Lesson3Find.pattern_listed name_pattern = true <->
  In name_pattern Lesson3Find.allowed_patterns.
Proof.
  unfold Lesson3Find.pattern_listed. rewrite existsb_exists. split.
  - intros [x [Hin E]]. apply str_eqb_eq in E. now subst.
  - intros H. exists name_pattern. split; [assumption | now apply str_eqb_eq].
Qed.

(** X15: [find_files] starts [find] only for an existing directory and a
    name pattern that is, as a whole, one of the nine listed ones; and for
    every one of them the pattern is handed to [find] between two single
    quotes, never as it is (a star is no shell-safe character).  The
    answer is then the output of [find] without the blanks around it, the
    text [Error: ] with what [find] wrote on stderr when it fails, or
    [Error: ] with the message of any other [Exception]. *)
Theorem find_files_quotes_its_pattern (h : Lesson3Find.Host)
    (path name_pattern : str) :
  Lesson3Find.exists_ h (Lesson3Find.abspath h path) = true ->
  Lesson3Find.isdir h (Lesson3Find.abspath h path) = true ->
  In name_pattern Lesson3Find.allowed_patterns ->
  Lesson3.shlex_quote name_pattern = squote :: name_pattern ++ [squote]
  /\ Lesson3Find.find_files h path name_pattern
     = match
         Lesson3Find.subprocess_run h
           [ L "find"; Lesson3.shlex_quote (Lesson3Find.abspath h path);
             L "-type"; L "f"; L "-name";
             squote :: name_pattern ++ [squote] ]
       with
       | Lesson3Find.Completed stdout => Ok (strip stdout)
       | Lesson3Find.CalledProcessError stderr => Ok (L "Error: " ++ stderr)
       | Lesson3Find.Failed e =>
           if is_Exception (exn_kind e) then Ok (L "Error: " ++ exn_str e)
           else Raise e
       end.
Proof.
  intros He Hd Hin.
  assert (Hq : Lesson3.shlex_quote name_pattern
               = squote :: name_pattern ++ [squote]).
  { simpl in Hin.
    repeat (destruct Hin as [<-|Hin]; [reflexivity|]). destruct Hin. }
  split; [exact Hq|].
  unfold Lesson3Find.find_files, Lesson3Find.find_cmd.
  rewrite He, Hd, (proj2 (pattern_listed_iff name_pattern) Hin), Hq.
  reflexivity.
Qed.

Lemma find_files_quotes_its_pattern_sample :
  Lesson3Find.exists_ MoreSample.find_host
    (Lesson3Find.abspath MoreSample.find_host (L "/r")) = true
  /\ Lesson3Find.isdir MoreSample.find_host
       (Lesson3Find.abspath MoreSample.find_host (L "/r")) = true
  /\ In (L "*.java") Lesson3Find.allowed_patterns
  /\ Lesson3.shlex_quote (L "*.java") = squote :: L "*.java" ++ [squote]
  /\ Lesson3Find.find_files MoreSample.find_host (L "/r") (L "*.java")
     = Ok [].
Proof.
  split; [reflexivity|]. split; [reflexivity|]. split; [now left|].
  destruct (@find_files_quotes_its_pattern MoreSample.find_host (L "/r")
              (L "*.java") eq_refl eq_refl (or_introl eq_refl)) as [Hq Hrun].
  split; [exact Hq | exact Hrun].
Defined.

(** X16: [find_files] never lets an [Exception] out, and it does not start
    [find] for a path that is no existing directory (the answer is the
    directory error, whatever the pattern) nor for a pattern that is not
    one of the listed ones as a whole (the answer names the pattern and
    the list): a pattern that merely contains a listed one is turned down
    here, unlike in [grep_pattern]. *)
Theorem find_files_checks (h : Lesson3Find.Host) (path name_pattern : str) :
  (forall e,
      Lesson3Find.find_files h path name_pattern = Raise e ->
      is_Exception (exn_kind e) = false)
  /\ (Lesson3Find.exists_ h (Lesson3Find.abspath h path)
      && Lesson3Find.isdir h (Lesson3Find.abspath h path) = false ->
      Lesson3Find.find_files h path name_pattern
      = Ok Lesson3Find.directory_error)
  /\ (Lesson3Find.exists_ h (Lesson3Find.abspath h path)
      && Lesson3Find.isdir h (Lesson3Find.abspath h path) = true ->
      ~ In name_pattern Lesson3Find.allowed_patterns ->
      Lesson3Find.find_files h path name_pattern
      = Ok (L "Error: Pattern '" ++ name_pattern
            ++ L "' not allowed. Use one of: "
            ++ L "*.java, *.py, *.js, *.ts, *.jsx, *.tsx, *.c, *.cpp, *.h")).
Proof.
  unfold Lesson3Find.find_files.
  destruct (Lesson3Find.exists_ h (Lesson3Find.abspath h path));
    destruct (Lesson3Find.isdir h (Lesson3Find.abspath h path));
    cbn [negb orb andb]; (split; [|split]); try discriminate;
    try reflexivity.
  - intros e. destruct (negb (Lesson3Find.pattern_listed name_pattern));
      [discriminate|].
    destruct (Lesson3Find.subprocess_run h _) as [out|err|e0];
      try discriminate.
    destruct (is_Exception (exn_kind e0)) eqn:K; [discriminate|].
    now intros [= <-].
  - intros _ Hnot.
    destruct (Lesson3Find.pattern_listed name_pattern) eqn:E.
    + apply pattern_listed_iff in E. contradiction.
    + reflexivity.
Qed.

Lemma find_files_checks_sample :
  Lesson3Find.find_files MoreSample.find_host (L "/nowhere") (L "*.java")
  = Ok Lesson3Find.directory_error
  /\ Lesson3Find.find_files MoreSample.find_host (L "/r") (L "x*.java")
     = Ok (L "Error: Pattern '" ++ L "x*.java"
           ++ L "' not allowed. Use one of: "
           ++ L "*.java, *.py, *.js, *.ts, *.jsx, *.tsx, *.c, *.cpp, *.h").
Proof.
  destruct (find_files_checks MoreSample.find_host (L "/nowhere") (L "*.java"))
    as [_ [Hdir _]].
  destruct (find_files_checks MoreSample.find_host (L "/r") (L "x*.java"))
    as [_ [_ Hpat]].
  split; [exact (Hdir eq_refl)|]. apply (Hpat eq_refl).
  simpl. intuition discriminate.
Defined.

(** ** lesson_2.py and lesson_3.py: the menu loop *)

Section MenuLoop.
Import Menu MenuSays.
Variable ag : Agent.
Variable write_file : str -> str -> option exn.




End MenuLoop.


(** ** Line numbers and line breaks *)

(** X18: for a matched line in the form of [grep -n], step 3 decides on the
    text after the colon alone: the decimal number in front, whatever it
    is, neither makes a line a candidate nor keeps it from being one. *)
Theorem kept_by_its_text_alone (n : Z) (text : str) :
  Steps.is_test_line (str_of_int n ++ colon :: text)
  = Steps.is_test_line text.
Proof.
  apply eq_true_iff_eq. rewrite !is_test_line_coded.
  replace (str_of_int n ++ colon :: text)
    with ((str_of_int n ++ [colon]) ++ text) by now rewrite <- app_assoc.
  pose proof (number_prefix_chars n) as Hprefix.
  unfold coded_test_line, modifier_then_call. split.
  - intros [H | [pre [post E]]].
    + destruct H as [pre [m [mid [name [ws [post [[E Hrest] Hname]]]]]]].
      destruct (modifier_starts_with_letter m (proj1 Hrest))
        as [c [m' [-> Hc]]].
      simpl in E. eapply after_prefix in E as [pre' [_ ->]];
        [|exact Hprefix|].
      * left. exists pre', (c :: m'), mid, name, ws, post. auto.
      * intros [[Hw [Hl Hu]]|[Hw _]].
        -- destruct Hc; congruence.
        -- destruct Hc as [Hc|Hc];
             destruct c as [[] [] [] [] [] [] [] []]; discriminate.
    + change (L "@Test") with ("@"%char :: L "Test") in E. simpl in E.
      eapply after_prefix in E as [pre' [_ ->]]; [|exact Hprefix|].
      * right. now exists pre', post.
      * intros [[Hw _]|[_ Hx]]; [discriminate Hw | now elim Hx].
  - intros [H | [pre [post ->]]].
    + destruct H as [pre [m [mid [name [ws [post [[-> Hrest] Hname]]]]]]].
      left. exists ((str_of_int n ++ [colon]) ++ pre), m, mid, name, ws, post.
      rewrite <- !app_assoc. auto.
    + right. exists ((str_of_int n ++ [colon]) ++ pre), post.
      now rewrite <- !app_assoc.
Qed.

Lemma readlines_one_break (text : str) :
  Forall (fun l => count_occ ascii_dec l nl <= 1) (readlines text).
Proof.
  induction text as [|c text IH]; simpl; [constructor|].
  destruct (is_newline c) eqn:N.
  - constructor; [|assumption]. simpl. destruct (ascii_dec c nl); lia.
  - assert (Hc : c <> nl) by (intros ->; discriminate N).
    destruct (readlines text) as [|l ls].
    + constructor; [|constructor]. simpl.
      destruct (ascii_dec c nl); [congruence | lia].
    + inversion IH; subst. constructor; [|assumption]. simpl.
      destruct (ascii_dec c nl); [congruence | assumption].
Qed.

Lemma count_concat_at_most (ls : list str) :
  Forall (fun l => count_occ ascii_dec l nl <= 1) ls ->
  count_occ ascii_dec (concat ls) nl <= length ls.
Proof.
  induction 1 as [|l ls Hl _ IH]; simpl; [lia|].
  rewrite count_occ_app. lia.
Qed.

Lemma Forall_firstn_skipn (A : Type) (P : A -> Prop) (k m : nat)
    (l : list A) :
  Forall P l -> Forall P (firstn m (skipn k l)).
Proof.
  intros H. apply Forall_forall. intros x Hx.
  rewrite Forall_forall in H. apply H.
  rewrite <- (firstn_skipn k l). apply in_or_app. right.
  rewrite <- (firstn_skipn m (skipn k l)). apply in_or_app. now left.
Qed.

Section Breaks.
Variable w : World.

(** X19: the body read from a file that opens has at most twenty line
    breaks, whatever the line number and however long the file. *)
Theorem body_has_at_most_twenty_breaks (file text content body : str)
    (line_num : Z) :
  open_read w file = Ok text ->
  Steps.read_method_body w file line_num content = Ok body ->
  count_occ ascii_dec body nl <= 20.
Proof.
  intros H. rewrite (read_method_body_readable w file content line_num H).
  destruct (slice_run (readlines text) (line_num - 1)) as [k [m [Hm ->]]].
  intros [= <-].
  etransitivity;
    [apply count_concat_at_most, Forall_firstn_skipn, readlines_one_break|].
  rewrite length_firstn. lia.
Qed.
End Breaks.

Lemma body_has_at_most_twenty_breaks_sample :
  open_read Sample.world (L "/r/T.java") = Ok Sample.t_java
  /\ Steps.read_method_body Sample.world (L "/r/T.java") 3 (L "raw")
     = Ok (L "  public void testAdd() {" ++ nl ::
           L "  public void testSub() {" ++ nl ::
           L "  public void testMul() {" ++ nl ::
           L "  public void testDiv() {" ++ nl ::
           L "}" ++ [nl])
  /\ count_occ ascii_dec
       (L "  public void testAdd() {" ++ nl ::
        L "  public void testSub() {" ++ nl ::
        L "  public void testMul() {" ++ nl ::
        L "  public void testDiv() {" ++ nl ::
        L "}" ++ [nl]) nl <= 20.
Proof.
  split; [reflexivity|]. split; [reflexivity|].
  apply (@body_has_at_most_twenty_breaks Sample.world (L "/r/T.java")
           Sample.t_java (L "raw") _ 3); reflexivity.
Defined.
